(** * HEMIS ESP32 telemetry firmware: acquisition, transmission and scheduling

    A shallow embedding of [src/esp32.cpp].  The sketch is a single-threaded
    program over a handful of global variables that talks to its surroundings
    (clock, serial port, WiFi, HTTP client, MAX30105 and MLX90614 sensors,
    ArduinoJson, the Maxim estimator) through library calls.  Every such call
    is a constructor of [Call]; the program is written in a state monad over
    the globals and an abstract world, and each call it performs is recorded,
    with the answer it received, in the list of events of the run.  The
    theorems hold for every world and every handler of the calls. *)

From Stdlib Require Import PrimFloat DecimalString.
From Stdlib Require DecimalZ DecimalPos SpecFloat FloatOps.
From stdpp Require Import base numbers list strings.

Local Open Scope string_scope.
Local Open Scope Z_scope.

(** ** Data *)

(** [unsigned long] and [uint32_t] are 32 bits wide on the ESP32. *)
Definition wrap32 (z : Z) : Z := z mod 2 ^ 32.

(** Subtraction of two [unsigned long] values. *)
Definition sub32 (a b : Z) : Z := wrap32 (a - b).

(** A C integer used as a condition. *)
Definition truthy (z : Z) : bool := negb (z =? 0).

(** The conversion of a [double] to a [float]: the nearest binary32 number,
    ties to even, written as the [double] that has the same value.  A NaN,
    an infinity and a zero are kept; a number too large for binary32 becomes
    an infinity. *)
Definition float_of_double (d : float) : float :=
  match FloatOps.Prim2SF d with
  | SpecFloat.S754_finite s m e => FloatOps.SF2Prim (SpecFloat.binary_round 24 128 s m e)
  | _ => d
  end.

(** [wl_status_t] of the WiFi library (declared in WiFiType.h, which is not
    part of the sketch); the sketch only compares against [WL_CONNECTED]. *)
Inductive wl_status_t :=
| WL_IDLE_STATUS | WL_NO_SSID_AVAIL | WL_SCAN_COMPLETED | WL_CONNECTED
| WL_CONNECT_FAILED | WL_CONNECTION_LOST | WL_DISCONNECTED.

Definition is_connected (s : wl_status_t) : bool :=
  match s with WL_CONNECTED => true | _ => false end.

(** [struct tm], the fields read by the format of [getCurrentTimestamp]. *)
Record tm := {
  tm_sec : Z; tm_min : Z; tm_hour : Z; tm_mday : Z; tm_mon : Z; tm_year : Z
}.

(** Arguments of [Serial.print] / [Serial.println]. *)
Inductive Printable :=
| PStr (s : string)
| PInt (z : Z)
| PFloat (f : float)
| PIp (ip : Z).

(** Values stored in the [DynamicJsonDocument]. *)
Inductive JsonValue :=
| JInt (z : Z)
| JFloat (f : float)
| JString (s : string).

(** The document is an object: members in insertion order. *)
Definition JsonDocument := list (string * JsonValue).

(** [doc[key] = v]: replaces the member when the key is present, appends it
    otherwise. *)
Fixpoint json_set (key : string) (v : JsonValue) (doc : JsonDocument) : JsonDocument :=
  match doc with
  | [] => [(key, v)]
  | (k, x) :: rest =>
      if String.eqb k key then (k, v) :: rest else (k, x) :: json_set key v rest
  end.

Fixpoint json_get (key : string) (doc : JsonDocument) : option JsonValue :=
  match doc with
  | [] => None
  | (k, x) :: rest => if String.eqb k key then Some x else json_get key rest
  end.

(** The four outputs of [maxim_heart_rate_and_oxygen_saturation]. *)
Record MaximResult := {
  r_spo2 : Z; r_validSPO2 : Z; r_heartRate : Z; r_validHeartRate : Z
}.

(** The global variables of the sketch. *)
Record Globals := {
  irBuffer : list Z;
  redBuffer : list Z;
  bufferLength : Z;
  spo2 : Z;
  validSPO2 : Z;
  heartRate : Z;
  validHeartRate : Z;
  lastSensorRead : Z;
  lastDataSend : Z
}.

Definition BUFFER_SIZE : Z := 100.
Definition SENSOR_READ_INTERVAL : Z := 2000.
Definition DATA_SEND_INTERVAL : Z := 1000.
Definition DEVICE_ID : Z := 1.
Definition backendUrl : string := "https://hemis.gartnercodes.com/api/telemetry/receive".
Definition ssidList : list string := ["RYGREDES"; "RYGREDES PLUS"; "TECNOLOGICA"].
Definition passList : list string := ["erikaleon"; "erikaleon"; "tecnologica"].
Definition wifiCount : Z := 3.

(** Static storage is zero-initialised. *)
Definition boot_globals : Globals := {|
  irBuffer := replicate (Z.to_nat BUFFER_SIZE) 0;
  redBuffer := replicate (Z.to_nat BUFFER_SIZE) 0;
  bufferLength := 0;
  spo2 := 0; validSPO2 := 0; heartRate := 0; validHeartRate := 0;
  lastSensorRead := 0; lastDataSend := 0
|}.

Definition set_irBuffer (i v : Z) (g : Globals) : Globals := {|
  irBuffer := <[Z.to_nat i := v]> (irBuffer g);
  redBuffer := redBuffer g; bufferLength := bufferLength g;
  spo2 := spo2 g; validSPO2 := validSPO2 g;
  heartRate := heartRate g; validHeartRate := validHeartRate g;
  lastSensorRead := lastSensorRead g; lastDataSend := lastDataSend g
|}.

Definition set_redBuffer (i v : Z) (g : Globals) : Globals := {|
  irBuffer := irBuffer g;
  redBuffer := <[Z.to_nat i := v]> (redBuffer g);
  bufferLength := bufferLength g;
  spo2 := spo2 g; validSPO2 := validSPO2 g;
  heartRate := heartRate g; validHeartRate := validHeartRate g;
  lastSensorRead := lastSensorRead g; lastDataSend := lastDataSend g
|}.

Definition set_bufferLength (v : Z) (g : Globals) : Globals := {|
  irBuffer := irBuffer g; redBuffer := redBuffer g;
  bufferLength := v;
  spo2 := spo2 g; validSPO2 := validSPO2 g;
  heartRate := heartRate g; validHeartRate := validHeartRate g;
  lastSensorRead := lastSensorRead g; lastDataSend := lastDataSend g
|}.

Definition set_lastSensorRead (v : Z) (g : Globals) : Globals := {|
  irBuffer := irBuffer g; redBuffer := redBuffer g;
  bufferLength := bufferLength g;
  spo2 := spo2 g; validSPO2 := validSPO2 g;
  heartRate := heartRate g; validHeartRate := validHeartRate g;
  lastSensorRead := v; lastDataSend := lastDataSend g
|}.

Definition set_lastDataSend (v : Z) (g : Globals) : Globals := {|
  irBuffer := irBuffer g; redBuffer := redBuffer g;
  bufferLength := bufferLength g;
  spo2 := spo2 g; validSPO2 := validSPO2 g;
  heartRate := heartRate g; validHeartRate := validHeartRate g;
  lastSensorRead := lastSensorRead g; lastDataSend := v
|}.

(** The estimator writes its four outputs through the pointers it is given. *)
Definition set_estimate (r : MaximResult) (g : Globals) : Globals := {|
  irBuffer := irBuffer g; redBuffer := redBuffer g;
  bufferLength := bufferLength g;
  spo2 := r_spo2 r; validSPO2 := r_validSPO2 r;
  heartRate := r_heartRate r; validHeartRate := r_validHeartRate r;
  lastSensorRead := lastSensorRead g; lastDataSend := lastDataSend g
|}.

(** The VitalEstimate of the specification: the four estimate globals. *)
Definition estimate (g : Globals) : Z * Z * Z * Z :=
  (heartRate g, validHeartRate g, spo2 g, validSPO2 g).

(** ** Library calls *)

(** One constructor per library function the sketch calls, indexed by the
    type of the answer.  [Millis] is answered with the uptime in
    milliseconds; the program sees it truncated to [unsigned long].
    [MlxReadObjectTempC] is answered with a [double], which is Rocq's
    [float]. *)
Inductive Call : Type -> Type :=
| Millis : Call Z
| Delay (ms : Z) : Call unit
| SerialBegin (baud : Z) : Call unit
| SerialPrint (p : Printable) : Call unit
| SerialPrintln (p : Printable) : Call unit
| WifiBegin (ssid pass : string) : Call unit
| WifiStatus : Call wl_status_t
| WifiLocalIP : Call Z
| ConfigTime (gmtOffset daylightOffset : Z) (server : string) : Call unit
| GetLocalTime : Call (option tm)
| Strftime (size : Z) (format : string) (t : tm) : Call string
| WireBegin (sda scl : Z) : Call unit
| SensorBegin : Call bool
| SensorSetup : Call unit
| SensorSetPulseAmplitudeRed (a : Z) : Call unit
| SensorSetPulseAmplitudeGreen (a : Z) : Call unit
| SensorAvailable : Call Z
| SensorCheck : Call unit
| SensorGetRed : Call Z
| SensorGetIR : Call Z
| SensorNextSample : Call unit
| MlxBegin : Call bool
| MlxReadObjectTempC : Call float
| Maxim (ir : list Z) (len : Z) (red : list Z) : Call MaximResult
| HttpBegin (url : string) : Call unit
| HttpAddHeader (name value : string) : Call unit
| HttpSetTimeout (ms : Z) : Call unit
| SerializeJson (doc : JsonDocument) : Call string
| HttpPost (payload : string) : Call Z
| HttpGetString : Call string
| HttpErrorToString (code : Z) : Call string
| HttpEnd : Call unit.

(** A call together with the answer it received. *)
Inductive Event :=
| Ev {X : Type} (c : Call X) (x : X).

(** Result of running a piece of the program: the value, the globals and the
    world afterwards, and the events of the run in order. *)
Record Res (W A : Type) := mkRes {
  val : A;
  glob : Globals;
  wld : W;
  evs : list Event
}.
Arguments mkRes {W A}.
Arguments val {W A}.
Arguments glob {W A}.
Arguments wld {W A}.
Arguments evs {W A}.

(** A loop whose exit depends on the world is run with fuel. *)
Inductive Outcome := Returned | OutOfFuel.

(** [String(n)] of the Arduino core for an integer. *)
Definition String_of_Z (z : Z) : string :=
  DecimalString.NilZero.string_of_int (Z.to_int z).

Definition newline : string := String (Ascii.ascii_of_nat 10) EmptyString.

(** ** The program *)

Section Firmware.
Context {W : Type}.
(** How the surroundings answer a call and change by it. *)
Variable handle : forall X : Type, Call X -> W -> X * W.

(** State over the globals and the world, with the events of the run. *)
Definition M (A : Type) : Type := Globals -> W -> Res W A.

Definition ret {A} (a : A) : M A :=
  fun g w => mkRes a g w [].

(** The run [r], after the events [tr]. *)
Definition after {A} (tr : list Event) (r : Res W A) : Res W A :=
  mkRes (val r) (glob r) (wld r) (tr ++ evs r).

Definition bind {A B} (m : M A) (k : A -> M B) : M B :=
  fun g w =>
    let r1 := m g w in
    after (evs r1) (k (val r1) (glob r1) (wld r1)).

(** Perform a library call. *)
Definition call {X} (c : Call X) : M X :=
  fun g w =>
    let a := handle X c w in
    mkRes (fst a) g (snd a) [Ev c (fst a)].

Definition get : M Globals :=
  fun g w => mkRes g g w [].

Definition modify (f : Globals -> Globals) : M unit :=
  fun g w => mkRes tt (f g) w [].

Local Notation "x <- m ;; k" := (bind m (fun x => k))
  (at level 65, m at next level, right associativity).
Local Notation "m ;;; k" := (bind m (fun _ => k))
  (at level 65, right associativity).

(** Continue with [k] only when [m] returned. *)
Definition andThen (m : M Outcome) (k : M Outcome) : M Outcome :=
  o <- m ;;
  match o with
  | Returned => k
  | OutOfFuel => ret OutOfFuel
  end.

(** [millis()]: the uptime as an [unsigned long]. *)
Definition millis : M Z :=
  t <- call Millis ;; ret (wrap32 t).

Definition print (s : string) : M unit := call (SerialPrint (PStr s)).
Definition println (s : string) : M unit := call (SerialPrintln (PStr s)).

(** *** connectWiFi *)

(** [while (WiFi.status() != WL_CONNECTED && millis() - startAttempt < 10000)
    { delay(500); Serial.print("."); }] *)
Fixpoint await_link (fuel : nat) (startAttempt : Z) : M Outcome :=
  s <- call WifiStatus ;;
  if is_connected s then ret Returned
  else
    now <- millis ;;
    if sub32 now startAttempt <? 10000 then
      match fuel with
      | O => ret OutOfFuel
      | S fuel' =>
          call (Delay 500) ;;;
          print "." ;;;
          await_link fuel' startAttempt
      end
    else ret Returned.

(** The body of [for (int i = 0; i < wifiCount; i++)], over the candidates
    [ssidList[i]], [passList[i]] still to be tried. *)
Fixpoint try_networks (fuel : nat) (candidates : list (string * string)) : M Outcome :=
  match candidates with
  | [] =>
      println "No se pudo conectar a ninguna red WiFi." ;;;
      ret Returned
  | (ssid, pass) :: rest =>
      print "Conectando a WiFi: " ;;;
      println ssid ;;;
      call (WifiBegin ssid pass) ;;;
      startAttempt <- millis ;;
      andThen (await_link fuel startAttempt)
        (s <- call WifiStatus ;;
         if is_connected s then
           println (newline +:+ "WiFi conectado!") ;;;
           print "SSID: " ;;;
           println ssid ;;;
           print "IP del ESP32: " ;;;
           ip <- call WifiLocalIP ;;
           call (SerialPrintln (PIp ip)) ;;;
           call (ConfigTime 0 0 "pool.ntp.org") ;;;
           ret Returned
         else
           println (newline +:+ "No se pudo conectar, intentando siguiente...") ;;;
           try_networks fuel rest)
  end.

Definition connectWiFi (fuel : nat) : M Outcome :=
  try_networks fuel (take (Z.to_nat wifiCount) (zip ssidList passList)).

(** *** getCurrentTimestamp *)

Definition getCurrentTimestamp : M string :=
  timeinfo <- call GetLocalTime ;;
  match timeinfo with
  | None => now <- millis ;; ret (String_of_Z now)
  | Some t => call (Strftime 30 "%Y-%m-%dT%H:%M:%S" t)
  end.

(** *** readSensors *)

(** [while (!particleSensor.available() && attempts < 100)
    { particleSensor.check(); delay(10); attempts++; }]
    with [budget] = 100 - attempts.  The availability test is the left
    operand of [&&] and is evaluated first. *)
Fixpoint await_sample (budget : nat) : M unit :=
  a <- call SensorAvailable ;;
  if truthy a then ret tt
  else
    match budget with
    | O => ret tt
    | S budget' =>
        call SensorCheck ;;;
        call (Delay 10) ;;;
        await_sample budget'
    end.

(** The body of the [for] loop for slot [i]: [false] is the early
    [return false] of the timeout, [true] is a stored sample. *)
Definition fill_slot (i : Z) : M bool :=
  await_sample 100 ;;;
  a <- call SensorAvailable ;;
  if negb (truthy a) then
    println "Sensor timeout - no data available" ;;;
    ret false
  else
    red <- call SensorGetRed ;;
    modify (set_redBuffer i red) ;;;
    ir <- call SensorGetIR ;;
    modify (set_irBuffer i ir) ;;;
    call SensorNextSample ;;;
    call (Delay 5) ;;;
    ret true.

(** [for (int i = 0; i < bufferLength; i++)] with [slots] = bufferLength - i. *)
Fixpoint fill (slots : nat) (i : Z) : M bool :=
  match slots with
  | O => ret true
  | S slots' =>
      stored <- fill_slot i ;;
      if stored then fill slots' (i + 1) else ret false
  end.

Definition readSensors : M bool :=
  now <- millis ;;
  g <- get ;;
  if sub32 now (lastSensorRead g) <? SENSOR_READ_INTERVAL then ret false
  else
    now' <- millis ;;
    modify (set_lastSensorRead now') ;;;
    modify (set_bufferLength BUFFER_SIZE) ;;;
    g1 <- get ;;
    complete <- fill (Z.to_nat (bufferLength g1)) 0 ;;
    if complete then
      g2 <- get ;;
      r <- call (Maxim (irBuffer g2) (bufferLength g2) (redBuffer g2)) ;;
      modify (set_estimate r) ;;;
      ret true
    else ret false.

(** *** sendDataToBackend *)

Definition maxRetries : Z := 3.

(** The retry loop [while (retryCount < maxRetries)]; [rounds] bounds the
    iterations and is [maxRetries - retryCount] at every entry. *)
Fixpoint post_loop (rounds : nat) (jsonPayload : string) (retryCount : Z) : M unit :=
  match rounds with
  | O => ret tt
  | S rounds' =>
      if retryCount <? maxRetries then
        httpResponseCode <- call (HttpPost jsonPayload) ;;
        if 0 <? httpResponseCode then
          print "HTTP Response Code: " ;;;
          call (SerialPrintln (PInt httpResponseCode)) ;;;
          if (httpResponseCode =? 200) || (httpResponseCode =? 201) then
            println "Datos enviados exitosamente!" ;;;
            body <- call HttpGetString ;;
            println ("Response: " +:+ body)
          else if (httpResponseCode =? 301) || (httpResponseCode =? 302) then
            println "Redirección detectada - posible problema de URL" ;;;
            body <- call HttpGetString ;;
            println ("Response: " +:+ body)
          else
            println ("Error en servidor: " +:+ String_of_Z httpResponseCode) ;;;
            body <- call HttpGetString ;;
            println ("Response: " +:+ body) ;;;
            (if retryCount + 1 <? maxRetries then call (Delay 2000) else ret tt) ;;;
            post_loop rounds' jsonPayload (retryCount + 1)
        else
          print "Error en POST (intento " ;;;
          call (SerialPrint (PInt (retryCount + 1))) ;;;
          print "): " ;;;
          msg <- call (HttpErrorToString httpResponseCode) ;;
          println msg ;;;
          (if retryCount + 1 <? maxRetries then call (Delay 2000) else ret tt) ;;;
          post_loop rounds' jsonPayload (retryCount + 1)
      else ret tt
  end.

(** The value reported for a field of the estimate: [valid ? value : 0]. *)
Definition reported (valid value : Z) : Z :=
  if truthy valid then value else 0.

(** The five assignments to [doc]. *)
Definition build_doc (g : Globals) (temp : float) (timestamp : string) : JsonDocument :=
  json_set "timestamp" (JString timestamp)
    (json_set "temp_skin" (JFloat temp)
      (json_set "spo2" (JInt (reported (validSPO2 g) (spo2 g)))
        (json_set "heart_rate" (JInt (reported (validHeartRate g) (heartRate g)))
          (json_set "device_id" (JInt DEVICE_ID) [])))).

Definition sendDataToBackend (fuel : nat) : M Outcome :=
  s <- call WifiStatus ;;
  if negb (is_connected s) then
    println "WiFi desconectado, reconectando..." ;;;
    connectWiFi fuel
  else
    call (HttpBegin backendUrl) ;;;
    call (HttpAddHeader "Content-Type" "application/json") ;;;
    call (HttpSetTimeout 10000) ;;;
    g <- get ;;
    temp <- call MlxReadObjectTempC ;;
    timestamp <- getCurrentTimestamp ;;
    jsonPayload <- call (SerializeJson (build_doc g temp timestamp)) ;;
    println "Enviando datos:" ;;;
    println jsonPayload ;;;
    post_loop (Z.to_nat maxRetries) jsonPayload 0 ;;;
    call HttpEnd ;;;
    ret Returned.

(** *** setup *)

(** [while (1) { delay(1000); ...; if (begin()) break; }] for a sensor whose
    first [begin()] failed. *)
Fixpoint retry_begin (fuel : nat) (begin : Call bool) (retrying ready : string) : M Outcome :=
  match fuel with
  | O => ret OutOfFuel
  | S fuel' =>
      call (Delay 1000) ;;;
      println retrying ;;;
      ok <- call begin ;;
      if ok then println ready ;;; ret Returned
      else retry_begin fuel' begin retrying ready
  end.

Definition setup (fuel : nat) : M Outcome :=
  call (SerialBegin 115200) ;;;
  call (Delay 1000) ;;;
  println "=== ESP32 HEMIS Device Starting ===" ;;;
  andThen (connectWiFi fuel)
    (call (WireBegin 21 22) ;;;
     call (Delay 100) ;;;
     found <- call SensorBegin ;;
     andThen
       (if found then ret Returned
        else
          println "ERROR: MAX30105 no encontrado!" ;;;
          retry_begin fuel SensorBegin
            "Reintentando inicializar MAX30105..."
            "MAX30105 inicializado exitosamente!")
       (call SensorSetup ;;;
        call (SensorSetPulseAmplitudeRed 10) ;;;
        call (SensorSetPulseAmplitudeGreen 0) ;;;
        println "MAX30105 configurado correctamente" ;;;
        found' <- call MlxBegin ;;
        andThen
          (if found' then ret Returned
           else
             println "ERROR: MLX90614 no encontrado!" ;;;
             retry_begin fuel MlxBegin
               "Reintentando inicializar MLX90614..."
               "MLX90614 inicializado exitosamente!")
          (println "MLX90614 configurado correctamente" ;;;
           println "=== Todos los sensores listos! ===" ;;;
           modify (set_lastSensorRead 0) ;;;
           modify (set_lastDataSend 0) ;;;
           ret Returned))).

(** *** loop *)

(** Lines 255-264: the acquisition tick and its report on the serial port.
    [float tempSkin = mlx.readObjectTempC();] narrows the [double] the
    library returns to a [float]: [tempSkin] is [float_of_double reading],
    and that is what [Serial.println] is given. *)
Definition loop_acquire : M unit :=
  fresh <- readSensors ;;
  if fresh then
    reading <- call MlxReadObjectTempC ;;
    print "Datos del sensor - HR: " ;;;
    g <- get ;;
    call (SerialPrint (PInt (reported (validHeartRate g) (heartRate g)))) ;;;
    print " | SpO2: " ;;;
    call (SerialPrint (PInt (reported (validSPO2 g) (spo2 g)))) ;;;
    print " | Temp: " ;;;
    call (SerialPrintln (PFloat (float_of_double reading)))
  else ret tt.

(** Lines 267-270: the transmission tick. *)
Definition loop_transmit (fuel : nat) (currentTime : Z) : M Outcome :=
  g <- get ;;
  if DATA_SEND_INTERVAL <=? sub32 currentTime (lastDataSend g) then
    modify (set_lastDataSend currentTime) ;;;
    sendDataToBackend fuel
  else ret Returned.

Definition loop (fuel : nat) : M Outcome :=
  currentTime <- millis ;;
  loop_acquire ;;;
  andThen (loop_transmit fuel currentTime)
    (call (Delay 100) ;;; ret Returned).

(** The runtime calls [loop] again and again: [n] passes, one list of
    events per pass.  A pass that does not return is the last one. *)
Fixpoint passes (fuel n : nat) (g : Globals) (w : W) : list (list Event) * Globals * W :=
  match n with
  | O => ([], g, w)
  | S n' =>
      let r := loop fuel g w in
      match val r with
      | Returned =>
          let '(rest, g', w') := passes fuel n' (glob r) (wld r) in
          (evs r :: rest, g', w')
      | OutOfFuel => ([evs r], glob r, wld r)
      end
  end.

End Firmware.

Arguments M : clear implicits.
Arguments ret {W A} a.
Arguments get {W}.
Arguments modify {W} f.
Arguments bind {W A B} m k.
Arguments after {W A} tr r.

(** ** Reading a run *)

Fixpoint count (p : Event -> bool) (tr : list Event) : nat :=
  match tr with
  | [] => O
  | e :: tr' => if p e then S (count p tr') else count p tr'
  end.

Definition is_millis (e : Event) : bool :=
  match e with Ev c _ => match c with Millis => true | _ => false end end.

Definition is_delay (e : Event) : bool :=
  match e with Ev c _ => match c with Delay _ => true | _ => false end end.

Definition is_status (e : Event) : bool :=
  match e with Ev c _ => match c with WifiStatus => true | _ => false end end.

Definition is_wifi_begin (e : Event) : bool :=
  match e with Ev c _ => match c with WifiBegin _ _ => true | _ => false end end.

Definition is_available (e : Event) : bool :=
  match e with Ev c _ => match c with SensorAvailable => true | _ => false end end.

Definition is_check (e : Event) : bool :=
  match e with Ev c _ => match c with SensorCheck => true | _ => false end end.

Definition is_next_sample (e : Event) : bool :=
  match e with Ev c _ => match c with SensorNextSample => true | _ => false end end.

Definition is_maxim (e : Event) : bool :=
  match e with Ev c _ => match c with Maxim _ _ _ => true | _ => false end end.

Definition is_temp (e : Event) : bool :=
  match e with Ev c _ => match c with MlxReadObjectTempC => true | _ => false end end.

Definition is_serialize (e : Event) : bool :=
  match e with Ev c _ => match c with SerializeJson _ => true | _ => false end end.

Definition is_http_begin (e : Event) : bool :=
  match e with Ev c _ => match c with HttpBegin _ => true | _ => false end end.

Definition is_post (e : Event) : bool :=
  match e with Ev c _ => match c with HttpPost _ => true | _ => false end end.

(** The uptime answered to a [millis()] call. *)
Definition clock_of (e : Event) : option Z :=
  match e with
  | Ev c x => match c in Call X return X -> option Z with
              | Millis => fun t => Some t
              | _ => fun _ => None
              end x
  end.

(** The answer to an [available()] call. *)
Definition available_of (e : Event) : option Z :=
  match e with
  | Ev c x => match c in Call X return X -> option Z with
              | SensorAvailable => fun a => Some a
              | _ => fun _ => None
              end x
  end.

Definition red_of (e : Event) : option Z :=
  match e with
  | Ev c x => match c in Call X return X -> option Z with
              | SensorGetRed => fun v => Some v
              | _ => fun _ => None
              end x
  end.

Definition ir_of (e : Event) : option Z :=
  match e with
  | Ev c x => match c in Call X return X -> option Z with
              | SensorGetIR => fun v => Some v
              | _ => fun _ => None
              end x
  end.

(** The temperature answered to a [readObjectTempC()] call. *)
Definition temp_of (e : Event) : option float :=
  match e with
  | Ev c x => match c in Call X return X -> option float with
              | MlxReadObjectTempC => fun t => Some t
              | _ => fun _ => None
              end x
  end.

(** A call of the estimator: its three arguments and its outputs. *)
Definition maxim_of (e : Event) : option (list Z * Z * list Z * MaximResult) :=
  match e with
  | Ev c x => match c in Call X return X -> option (list Z * Z * list Z * MaximResult) with
              | Maxim ir len red => fun r => Some (ir, len, red, r)
              | _ => fun _ => None
              end x
  end.

(** A document handed to [serializeJson], with the text it produced. *)
Definition record_of (e : Event) : option (JsonDocument * string) :=
  match e with
  | Ev c x => match c in Call X return X -> option (JsonDocument * string) with
              | SerializeJson doc => fun s => Some (doc, s)
              | _ => fun _ => None
              end x
  end.

(** What the delivery of a record does on the network and the clock: send
    attempts, with the payload and the code [http.POST] returned, and waits. *)
Inductive Step :=
| Attempt (payload : string) (code : Z)
| Backoff (ms : Z).

Definition step_of (e : Event) : option Step :=
  match e with
  | Ev c x => match c in Call X return X -> option Step with
              | HttpPost payload => fun code => Some (Attempt payload code)
              | Delay ms => fun _ => Some (Backoff ms)
              | _ => fun _ => None
              end x
  end.

Definition clock_readings (tr : list Event) : list Z := omap clock_of tr.
Definition available_answers (tr : list Event) : list Z := omap available_of tr.
Definition reds (tr : list Event) : list Z := omap red_of tr.
Definition irs (tr : list Event) : list Z := omap ir_of tr.
Definition temps (tr : list Event) : list float := omap temp_of tr.
Definition estimations (tr : list Event) : list (list Z * Z * list Z * MaximResult) :=
  omap maxim_of tr.
Definition records (tr : list Event) : list (JsonDocument * string) := omap record_of tr.
Definition delivery_steps (tr : list Event) : list Step := omap step_of tr.

Definition code_of (s : Step) : option Z :=
  match s with Attempt _ code => Some code | Backoff _ => None end.

Definition post_codes (tr : list Event) : list Z := omap code_of (delivery_steps tr).

(** The records serialized before the estimator is called for the first
    time. *)
Fixpoint records_before_estimate (tr : list Event) : list (JsonDocument * string) :=
  match tr with
  | [] => []
  | e :: tr' =>
      if is_maxim e then []
      else match record_of e with
           | Some d => d :: records_before_estimate tr'
           | None => records_before_estimate tr'
           end
  end.

(** Classification of the code returned by [http.POST]. *)
Definition delivered (code : Z) : bool := (code =? 200) || (code =? 201).
Definition rejected (code : Z) : bool := (code =? 301) || (code =? 302).
Definition transient (code : Z) : bool := negb (delivered code) && negb (rejected code).

(** Uptime readings that never go back. *)
Fixpoint nondecreasing (l : list Z) : bool :=
  match l with
  | [] => true
  | a :: l' => forallb (fun b => a <=? b) l' && nondecreasing l'
  end.

(** The scheduler's view of a pass: [currentTime] is the first uptime read,
    the acquisition gate compares the second.  The sensor is polled only by
    an acquisition that passed its gate, and the link is checked only by a
    transmission tick that passed its gate. *)
Definition pass_time (tr : list Event) : option Z := clock_readings tr !! 0%nat.
Definition gate_time (tr : list Event) : option Z := clock_readings tr !! 1%nat.
Definition acquired (tr : list Event) : bool := existsb is_available tr.
Definition transmitted (tr : list Event) : bool := existsb is_status tr.

(** ** A scripted world

    A world that answers from scripts, for running the program on concrete
    inputs.  [delay] and [http.POST] take time, the other calls none. *)
Record Sim := {
  sim_uptime : Z;
  sim_link : list wl_status_t;
  sim_link_then : wl_status_t;
  sim_available : list Z;
  sim_available_then : Z;
  sim_samples : list (Z * Z);
  sim_maxim : MaximResult;
  sim_temp : float;
  sim_time : option tm;
  sim_post : list Z;
  sim_post_then : Z
}.

Definition sim_elapse (ms : Z) (s : Sim) : Sim := {|
  sim_uptime := sim_uptime s + ms;
  sim_link := sim_link s; sim_link_then := sim_link_then s;
  sim_available := sim_available s; sim_available_then := sim_available_then s;
  sim_samples := sim_samples s; sim_maxim := sim_maxim s;
  sim_temp := sim_temp s; sim_time := sim_time s;
  sim_post := sim_post s; sim_post_then := sim_post_then s
|}.

Definition sim_next_link (s : Sim) : Sim := {|
  sim_uptime := sim_uptime s;
  sim_link := tail (sim_link s); sim_link_then := sim_link_then s;
  sim_available := sim_available s; sim_available_then := sim_available_then s;
  sim_samples := sim_samples s; sim_maxim := sim_maxim s;
  sim_temp := sim_temp s; sim_time := sim_time s;
  sim_post := sim_post s; sim_post_then := sim_post_then s
|}.

Definition sim_next_available (s : Sim) : Sim := {|
  sim_uptime := sim_uptime s;
  sim_link := sim_link s; sim_link_then := sim_link_then s;
  sim_available := tail (sim_available s); sim_available_then := sim_available_then s;
  sim_samples := sim_samples s; sim_maxim := sim_maxim s;
  sim_temp := sim_temp s; sim_time := sim_time s;
  sim_post := sim_post s; sim_post_then := sim_post_then s
|}.

Definition sim_next_sample (s : Sim) : Sim := {|
  sim_uptime := sim_uptime s;
  sim_link := sim_link s; sim_link_then := sim_link_then s;
  sim_available := sim_available s; sim_available_then := sim_available_then s;
  sim_samples := tail (sim_samples s); sim_maxim := sim_maxim s;
  sim_temp := sim_temp s; sim_time := sim_time s;
  sim_post := sim_post s; sim_post_then := sim_post_then s
|}.

Definition sim_next_post (s : Sim) : Sim := {|
  sim_uptime := sim_uptime s + 150;
  sim_link := sim_link s; sim_link_then := sim_link_then s;
  sim_available := sim_available s; sim_available_then := sim_available_then s;
  sim_samples := sim_samples s; sim_maxim := sim_maxim s;
  sim_temp := sim_temp s; sim_time := sim_time s;
  sim_post := tail (sim_post s); sim_post_then := sim_post_then s
|}.

Definition sim_handle (X : Type) (c : Call X) (s : Sim) : X * Sim :=
  match c in Call X return X * Sim with
  | Millis => (sim_uptime s, s)
  | Delay ms => (tt, sim_elapse ms s)
  | SerialBegin _ => (tt, s)
  | SerialPrint _ => (tt, s)
  | SerialPrintln _ => (tt, s)
  | WifiBegin _ _ => (tt, s)
  | WifiStatus => (hd (sim_link_then s) (sim_link s), sim_next_link s)
  | WifiLocalIP => (0, s)
  | ConfigTime _ _ _ => (tt, s)
  | GetLocalTime => (sim_time s, s)
  | Strftime _ _ t => (String_of_Z (tm_year t + 1900), s)
  | WireBegin _ _ => (tt, s)
  | SensorBegin => (true, s)
  | SensorSetup => (tt, s)
  | SensorSetPulseAmplitudeRed _ => (tt, s)
  | SensorSetPulseAmplitudeGreen _ => (tt, s)
  | SensorAvailable => (hd (sim_available_then s) (sim_available s), sim_next_available s)
  | SensorCheck => (tt, s)
  | SensorGetRed => (fst (hd (0, 0) (sim_samples s)), s)
  | SensorGetIR => (snd (hd (0, 0) (sim_samples s)), s)
  | SensorNextSample => (tt, sim_next_sample s)
  | MlxBegin => (true, s)
  | MlxReadObjectTempC => (sim_temp s, s)
  | Maxim _ _ _ => (sim_maxim s, s)
  | HttpBegin _ => (tt, s)
  | HttpAddHeader _ _ => (tt, s)
  | HttpSetTimeout _ => (tt, s)
  | SerializeJson doc => (String_of_Z (Z.of_nat (length doc)), s)
  | HttpPost _ => (hd (sim_post_then s) (sim_post s), sim_next_post s)
  | HttpGetString => ("", s)
  | HttpErrorToString code => (String_of_Z code, s)
  | HttpEnd => (tt, s)
  end.

(** A device five seconds after boot: link up, a finger on the sensor (a
    sample is always ready), the collector answering 200. *)
Definition sim_healthy : Sim := {|
  sim_uptime := 5000;
  sim_link := []; sim_link_then := WL_CONNECTED;
  sim_available := []; sim_available_then := 1;
  sim_samples := zip (seqZ 1000 100) (seqZ 2000 100);
  sim_maxim := {| r_spo2 := 98; r_validSPO2 := 1; r_heartRate := 72; r_validHeartRate := 1 |};
  sim_temp := 36.5%float;
  sim_time := None;
  sim_post := []; sim_post_then := 200
|}.

(** ** Classes of events *)

(** The calls of the wait for a sample. *)
Definition poll_event (e : Event) : bool :=
  match e with
  | Ev c _ => match c with
              | SensorAvailable | SensorCheck | Delay _ => true
              | _ => false
              end
  end.

(** The calls of the buffer fill. *)
Definition fill_event (e : Event) : bool :=
  match e with
  | Ev c _ => match c with
              | SensorAvailable | SensorCheck | Delay _ | SerialPrintln _
              | SensorGetRed | SensorGetIR | SensorNextSample => true
              | _ => false
              end
  end.

(** The calls of [readSensors]. *)
Definition acquisition_event (e : Event) : bool :=
  match e with
  | Ev c _ => match c with
              | Millis | Maxim _ _ _ => true
              | _ => fill_event e
              end
  end.

(** The calls of [connectWiFi]. *)
Definition reconnect_event (e : Event) : bool :=
  match e with
  | Ev c _ => match c with
              | Millis | Delay _ | SerialPrint _ | SerialPrintln _
              | WifiBegin _ _ | WifiStatus | WifiLocalIP | ConfigTime _ _ _ => true
              | _ => false
              end
  end.

(** The calls of the serial port. *)
Definition serial_event (e : Event) : bool :=
  match e with
  | Ev c _ => match c with
              | SerialPrint _ | SerialPrintln _ => true
              | _ => false
              end
  end.

(** The calls of [sendDataToBackend]. *)
Definition transmission_event (e : Event) : bool :=
  match e with
  | Ev c _ => match c with
              | GetLocalTime | Strftime _ _ _ | MlxReadObjectTempC
              | HttpBegin _ | HttpAddHeader _ _ | HttpSetTimeout _
              | SerializeJson _ | HttpPost _ | HttpGetString
              | HttpErrorToString _ | HttpEnd => true
              | _ => reconnect_event e
              end
  end.

(** The line [readSensors] prints when it gives up. *)
Definition is_timeout_report (e : Event) : bool :=
  match e with
  | Ev c _ => match c with
              | SerialPrintln (PStr s) => String.eqb s "Sensor timeout - no data available"
              | _ => false
              end
  end.

(** The estimate and the two timers: what the buffer fill leaves alone. *)
Definition registers (g : Globals) : Z * Z * Z * Z * Z * Z :=
  (heartRate g, validHeartRate g, spo2 g, validSPO2 g, lastSensorRead g, lastDataSend g).

(** ** The gates of the scheduler *)

(** The gate of the acquisition, on the uptime [t] answered to [millis()]:
    the negation of [millis() - lastSensorRead < SENSOR_READ_INTERVAL]. *)
Definition acquisition_due (t : Z) (g : Globals) : bool :=
  negb (sub32 (wrap32 t) (lastSensorRead g) <? SENSOR_READ_INTERVAL).

(** The gate of the transmission, on the [currentTime] of the pass:
    [currentTime - lastDataSend >= DATA_SEND_INTERVAL]. *)
Definition transmission_due (currentTime : Z) (g : Globals) : bool :=
  DATA_SEND_INTERVAL <=? sub32 currentTime (lastDataSend g).

(** The calls of [getCurrentTimestamp]. *)
Definition clock_event (e : Event) : bool :=
  match e with
  | Ev c _ => match c with
              | GetLocalTime | Strftime _ _ _ | Millis => true
              | _ => false
              end
  end.

(** The calls around a send attempt that neither send nor wait. *)
Definition report_event (e : Event) : bool :=
  match e with
  | Ev c _ => match c with
              | SerialPrint _ | SerialPrintln _ | HttpGetString | HttpErrorToString _ => true
              | _ => false
              end
  end.

(** The calls of the retry loop. *)
Definition delivery_event (e : Event) : bool :=
  match e with
  | Ev c _ => match c with
              | HttpPost _ | Delay _ => true
              | _ => report_event e
              end
  end.

(** A step of the delivery of [payload]: an attempt to send that very text,
    or the fixed wait of 2000 ms. *)
Definition step_for (payload : string) (s : Step) : bool :=
  match s with
  | Attempt p _ => String.eqb p payload
  | Backoff ms => ms =? 2000
  end.

(** The candidates [connectWiFi] goes through. *)
Definition candidates : list (string * string) :=
  take (Z.to_nat wifiCount) (zip ssidList passList).

(** The calls of the acquisition part of [loop]. *)
Definition acquire_event (e : Event) : bool :=
  acquisition_event e || is_temp e || serial_event e.

(** The device from power-on: [setup], then [n] passes of [loop]; all the
    events, in order. *)
Definition power_on {W : Type} (handle : forall X : Type, Call X -> W -> X * W)
    (fuel n : nat) (w : W) : list Event :=
  let s := setup handle fuel boot_globals w in
  match val s with
  | Returned => evs s ++ concat (passes handle fuel n (glob s) (wld s)).1.1
  | OutOfFuel => evs s
  end.

(** Both validity flags are zero. *)
Definition no_estimate (g : Globals) : Prop :=
  validHeartRate g = 0 /\ validSPO2 g = 0.

(** A record that reports no heart rate and no saturation. *)
Definition reports_zero (doc : JsonDocument) : Prop :=
  json_get "heart_rate" doc = Some (JInt 0) /\ json_get "spo2" doc = Some (JInt 0).

(** The calls [loop] makes to report a fresh estimate. *)
Definition summary_event (e : Event) : bool :=
  is_temp e || serial_event e.

(** The calls that neither run the estimator nor serialize a record. *)
Definition plain_event (e : Event) : bool :=
  negb (is_maxim e) && negb (is_serialize e).

(** ** Scripted worlds for particular situations *)

(** No finger on the sensor: a sample is never ready. *)
Definition sim_no_finger : Sim := {|
  sim_uptime := 5000;
  sim_link := []; sim_link_then := WL_CONNECTED;
  sim_available := []; sim_available_then := 0;
  sim_samples := [];
  sim_maxim := sim_maxim sim_healthy;
  sim_temp := 36.5%float;
  sim_time := None;
  sim_post := []; sim_post_then := 200
|}.

(** No network in range: the link never comes up. *)
Definition sim_link_down : Sim := {|
  sim_uptime := 5000;
  sim_link := []; sim_link_then := WL_DISCONNECTED;
  sim_available := []; sim_available_then := 1;
  sim_samples := sim_samples sim_healthy;
  sim_maxim := sim_maxim sim_healthy;
  sim_temp := 36.5%float;
  sim_time := None;
  sim_post := []; sim_post_then := 200
|}.

(** A collector that is down: a server error, then two transport errors. *)
Definition sim_collector_down : Sim := {|
  sim_uptime := 5000;
  sim_link := []; sim_link_then := WL_CONNECTED;
  sim_available := []; sim_available_then := 1;
  sim_samples := sim_samples sim_healthy;
  sim_maxim := sim_maxim sim_healthy;
  sim_temp := 36.5%float;
  sim_time := None;
  sim_post := [500; -1; -11]; sim_post_then := 200
|}.

(** A collector that has moved: the first answer is a redirect. *)
Definition sim_collector_moved : Sim := {|
  sim_uptime := 5000;
  sim_link := []; sim_link_then := WL_CONNECTED;
  sim_available := []; sim_available_then := 1;
  sim_samples := sim_samples sim_healthy;
  sim_maxim := sim_maxim sim_healthy;
  sim_temp := 36.5%float;
  sim_time := None;
  sim_post := [302]; sim_post_then := 200
|}.

(** The globals once the estimator has answered (72, valid, 98, valid). *)
Definition estimated_globals : Globals :=
  set_estimate (sim_maxim sim_healthy) boot_globals.

(** ** Properties of runs *)

(** Every event of every run of [m] satisfies [q]. *)
Definition only {W A : Type} (q : Event -> bool) (m : M W A) : Prop :=
  forall g w, forallb q (evs (m g w)) = true.

(** The globals are the same after every run of [m]. *)
Definition pure {W A : Type} (m : M W A) : Prop :=
  forall g w, glob (m g w) = g.

(** A function of the globals has the same value after every run of [m]. *)
Definition keeps {W A B : Type} (f : Globals -> B) (m : M W A) : Prop :=
  forall g w, f (glob (m g w)) = f g.

(** ** More readings of a run *)

Definition is_http_end (e : Event) : bool :=
  match e with Ev c _ => match c with HttpEnd => true | _ => false end end.

Definition is_config_time (e : Event) : bool :=
  match e with Ev c _ => match c with ConfigTime _ _ _ => true | _ => false end end.

Definition is_sensor_setup (e : Event) : bool :=
  match e with Ev c _ => match c with SensorSetup => true | _ => false end end.

(** The time spent in [delay]: the sum of the arguments of the calls. *)
Fixpoint total_delay (tr : list Event) : Z :=
  match tr with
  | [] => 0
  | Ev c _ :: tr' =>
      match c with
      | Delay ms => ms + total_delay tr'
      | _ => total_delay tr'
      end
  end.

(** The network a [WiFi.begin] call asks for. *)
Definition begin_of (e : Event) : option (string * string) :=
  match e with
  | Ev c _ => match c with
              | WifiBegin ssid pass => Some (ssid, pass)
              | _ => None
              end
  end.

Definition wifi_begins (tr : list Event) : list (string * string) := omap begin_of tr.

(** The answer to a [WiFi.status()] call. *)
Definition status_of (e : Event) : option wl_status_t :=
  match e with
  | Ev c x => match c in Call X return X -> option wl_status_t with
              | WifiStatus => fun s => Some s
              | _ => fun _ => None
              end x
  end.

Definition status_answers (tr : list Event) : list wl_status_t := omap status_of tr.

(** The answers of [particleSensor.begin()] and of [mlx.begin()]. *)
Definition sensor_begin_of (e : Event) : option bool :=
  match e with
  | Ev c x => match c in Call X return X -> option bool with
              | SensorBegin => fun b => Some b
              | _ => fun _ => None
              end x
  end.

Definition mlx_begin_of (e : Event) : option bool :=
  match e with
  | Ev c x => match c in Call X return X -> option bool with
              | MlxBegin => fun b => Some b
              | _ => fun _ => None
              end x
  end.

Definition sensor_begin_answers (tr : list Event) : list bool := omap sensor_begin_of tr.
Definition mlx_begin_answers (tr : list Event) : list bool := omap mlx_begin_of tr.

(** The shape of a delivery that may still make [rounds] attempts: attempts
    separated by the wait of 2000 ms, every attempt but the last a transient
    failure, and a last attempt that is a transient failure only when the
    rounds are used up. *)
Fixpoint protocol (rounds : nat) (steps : list Step) : bool :=
  match rounds, steps with
  | S r, [Attempt _ code] => negb (transient code) || Nat.eqb r 0
  | S r, Attempt _ code :: Backoff ms :: rest =>
      transient code && (ms =? 2000) && protocol r rest
  | _, _ => false
  end.

(** The time [connectWiFi] waits for one candidate, and a bound on the time
    a library call that is not [delay] may take for the wait to be sure to
    end. *)
Definition LINK_TIMEOUT : Z := 10000.
Definition CALL_SLACK : Z := 60000.

(** A finger taken off the sensor after three samples. *)
Definition sim_finger_lifted : Sim := {|
  sim_uptime := 5000;
  sim_link := []; sim_link_then := WL_CONNECTED;
  sim_available := replicate 6 1; sim_available_then := 0;
  sim_samples := sim_samples sim_healthy;
  sim_maxim := sim_maxim sim_healthy;
  sim_temp := sim_temp sim_healthy;
  sim_time := sim_time sim_healthy;
  sim_post := sim_post sim_healthy; sim_post_then := sim_post_then sim_healthy
|}.

(** The time a sequence of delivery steps waits. *)
Fixpoint waits (steps : list Step) : Z :=
  match steps with
  | [] => 0
  | Attempt _ _ :: rest => waits rest
  | Backoff ms :: rest => ms + waits rest
  end.

(** The calls on the [HTTPClient] of [sendDataToBackend]. *)
Definition http_event (e : Event) : bool :=
  match e with
  | Ev c _ => match c with
              | HttpBegin _ | HttpAddHeader _ _ | HttpSetTimeout _ | HttpPost _
              | HttpGetString | HttpErrorToString _ | HttpEnd => true
              | _ => false
              end
  end.

(** The calls on the radio and on the network. *)
Definition radio_event (e : Event) : bool :=
  match e with
  | Ev c _ => match c with
              | WifiBegin _ _ | WifiStatus | WifiLocalIP | ConfigTime _ _ _ => true
              | _ => http_event e
              end
  end.

(** The calls on the pulse oximeter and on the estimator. *)
Definition pulse_event (e : Event) : bool :=
  match e with
  | Ev c _ => match c with
              | SensorBegin | SensorSetup | SensorSetPulseAmplitudeRed _
              | SensorSetPulseAmplitudeGreen _ | SensorAvailable | SensorCheck
              | SensorGetRed | SensorGetIR | SensorNextSample | Maxim _ _ _ => true
              | _ => false
              end
  end.

(** The calls of the wait for the link. *)
Definition wait_call {X : Type} (c : Call X) : bool :=
  match c with
  | WifiStatus | Millis | Delay _ | SerialPrint _ => true
  | _ => false
  end.

Definition wait_event (e : Event) : bool :=
  match e with Ev c _ => wait_call c end.

(** What [connectWiFi] prints and asks once the link is up, before
    [configTime]. *)
Definition announce_event (e : Event) : bool :=
  match e with
  | Ev c _ => match c with
              | SerialPrint _ | SerialPrintln _ | WifiLocalIP => true
              | _ => false
              end
  end.

(** The time a call asks to sleep. *)
Definition asked {X : Type} (c : Call X) : Z :=
  match c with
  | Delay ms => ms
  | _ => 0
  end.

(** A world with a clock: [up] is the uptime in ms, not wrapped; [millis()]
    reads it, no call sets it back, [delay(ms)] takes at least [ms], and a
    call of the wait for the link takes at most [CALL_SLACK] more than it
    asked for. *)
Definition ticking {W : Type} (handle : forall X, Call X -> W -> X * W) (up : W -> Z) : Prop :=
  (forall w, (handle Z Millis w).1 = up w) /\
  (forall X (c : Call X) w, 0 <= asked c -> up w + asked c <= up (handle X c w).2) /\
  (forall X (c : Call X) w, wait_call c = true -> 0 <= asked c ->
     up (handle X c w).2 <= up w + asked c + CALL_SLACK).

(** The calls of [connectWiFi], every [delay] among them one of 500 ms. *)
Definition paced_event (e : Event) : bool :=
  match e with
  | Ev c _ => match c with
              | Delay ms => ms =? 500
              | _ => reconnect_event e
              end
  end.

(** The calls of the two retry loops of [setup]. *)
Definition sensor_retry_event (e : Event) : bool :=
  match e with
  | Ev c _ => match c with
              | SensorBegin | Delay _ => true
              | _ => serial_event e
              end
  end.

Definition mlx_retry_event (e : Event) : bool :=
  match e with
  | Ev c _ => match c with
              | MlxBegin | Delay _ => true
              | _ => serial_event e
              end
  end.

(** A sensor that answers its first [begin()] with a failure and the second
    with a success needs a world of its own. *)
Record Bench := {
  bench_uptime : Z;
  bench_sensor : list bool;
  bench_mlx : list bool
}.

Definition bench_handle (X : Type) (c : Call X) (s : Bench) : X * Bench :=
  match c in Call X return X * Bench with
  | Millis => (bench_uptime s, s)
  | Delay ms =>
      (tt, {| bench_uptime := bench_uptime s + ms;
              bench_sensor := bench_sensor s; bench_mlx := bench_mlx s |})
  | SerialBegin _ => (tt, s)
  | SerialPrint _ => (tt, s)
  | SerialPrintln _ => (tt, s)
  | WifiBegin _ _ => (tt, s)
  | WifiStatus => (WL_CONNECTED, s)
  | WifiLocalIP => (0, s)
  | ConfigTime _ _ _ => (tt, s)
  | GetLocalTime => (None, s)
  | Strftime _ _ _ => (EmptyString, s)
  | WireBegin _ _ => (tt, s)
  | SensorBegin =>
      (hd true (bench_sensor s),
       {| bench_uptime := bench_uptime s;
          bench_sensor := tail (bench_sensor s); bench_mlx := bench_mlx s |})
  | SensorSetup => (tt, s)
  | SensorSetPulseAmplitudeRed _ => (tt, s)
  | SensorSetPulseAmplitudeGreen _ => (tt, s)
  | SensorAvailable => (0, s)
  | SensorCheck => (tt, s)
  | SensorGetRed => (0, s)
  | SensorGetIR => (0, s)
  | SensorNextSample => (tt, s)
  | MlxBegin =>
      (hd true (bench_mlx s),
       {| bench_uptime := bench_uptime s;
          bench_sensor := bench_sensor s; bench_mlx := tail (bench_mlx s) |})
  | MlxReadObjectTempC => (36.5%float, s)
  | Maxim _ _ _ =>
      ({| r_spo2 := 0; r_validSPO2 := 0; r_heartRate := 0; r_validHeartRate := 0 |}, s)
  | HttpBegin _ => (tt, s)
  | HttpAddHeader _ _ => (tt, s)
  | HttpSetTimeout _ => (tt, s)
  | SerializeJson _ => (EmptyString, s)
  | HttpPost _ => (200, s)
  | HttpGetString => (EmptyString, s)
  | HttpErrorToString _ => (EmptyString, s)
  | HttpEnd => (tt, s)
  end.

(** The oximeter answers on the third [begin()], the thermometer on the
    second. *)
Definition bench_cold : Bench := {|
  bench_uptime := 0;
  bench_sensor := [false; false; true];
  bench_mlx := [false; true]
|}.

(** Reading a timestamp back as a number of milliseconds. *)
Definition uptime_of_timestamp (s : string) : option Z :=
  option_map Z.of_int (DecimalString.NilZero.int_of_string s).

(** What [loop] does after an acquisition that completed: it reads the
    temperature, [reading], and prints the estimate as it is reported and
    the reading narrowed to a [float]. *)
Definition summary (g : Globals) (reading : float) : list Event :=
  [Ev MlxReadObjectTempC reading;
   Ev (SerialPrint (PStr "Datos del sensor - HR: ")) tt;
   Ev (SerialPrint (PInt (reported (validHeartRate g) (heartRate g)))) tt;
   Ev (SerialPrint (PStr " | SpO2: ")) tt;
   Ev (SerialPrint (PInt (reported (validSPO2 g) (spo2 g)))) tt;
   Ev (SerialPrint (PStr " | Temp: ")) tt;
   Ev (SerialPrintln (PFloat (float_of_double reading))) tt].

(** The uptime of the world is not set back by a run of [m]. *)
Definition advances {W A : Type} (up : W -> Z) (m : M W A) : Prop :=
  forall g w, up w <= up (wld (m g w)).

(** The sensor has no sample for the 100 attempts of the first slot and one
    right after: the first 101 availability tests answer 0. *)
Definition sim_late_sample : Sim := {|
  sim_uptime := 5000;
  sim_link := []; sim_link_then := WL_CONNECTED;
  sim_available := replicate 101 0; sim_available_then := 1;
  sim_samples := sim_samples sim_healthy;
  sim_maxim := sim_maxim sim_healthy;
  sim_temp := sim_temp sim_healthy;
  sim_time := sim_time sim_healthy;
  sim_post := sim_post sim_healthy; sim_post_then := sim_post_then sim_healthy
|}.

(** A skin at 36.6 degrees: the reading is the [double] nearest to 36.6,
    which is not a [float]. *)
Definition sim_warm : Sim := {|
  sim_uptime := 5000;
  sim_link := []; sim_link_then := WL_CONNECTED;
  sim_available := []; sim_available_then := 1;
  sim_samples := sim_samples sim_healthy;
  sim_maxim := sim_maxim sim_healthy;
  sim_temp := 0x1.24ccccccccccdp+5%float;
  sim_time := sim_time sim_healthy;
  sim_post := sim_post sim_healthy; sim_post_then := sim_post_then sim_healthy
|}.

(** The uptime a record was stamped with, when its timestamp is the fallback
    of [getCurrentTimestamp]: the [millis()] read while the record was
    built. *)
Definition record_uptime (d : JsonDocument * string) : option Z :=
  match json_get "timestamp" d.1 with
  | Some (JString s) => uptime_of_timestamp s
  | _ => None
  end.

(** What the serial port is given to print. *)
Definition printed_of (e : Event) : option Printable :=
  match e with
  | Ev c _ => match c with
              | SerialPrint p | SerialPrintln p => Some p
              | _ => None
              end
  end.

Definition printed (tr : list Event) : list Printable := omap printed_of tr.

Local Close Scope string_scope.

(** ** Proofs *)

(** *** Lists of events *)

Lemma count_app (p : Event -> bool) (a b : list Event) :
  count p (a ++ b) = (count p a + count p b)%nat.
Proof.
  induction a as [|e a IH]; simpl; [done|].
  destruct (p e); simpl; lia.
Qed.

Lemma count_none (p q : Event -> bool) (tr : list Event) :
  (forall e, q e = true -> p e = false) ->
  forallb q tr = true -> count p tr = O.
Proof.
  intros Hpq. induction tr as [|e tr IH]; simpl; [done|].
  intros [He Htr]%andb_prop. rewrite (Hpq e He). auto.
Qed.

Lemma existsb_count (p : Event -> bool) (tr : list Event) :
  existsb p tr = false <-> count p tr = O.
Proof.
  induction tr as [|e tr IH]; simpl; [done|].
  destruct (p e); simpl; [split; discriminate | exact IH].
Qed.

Lemma omap_none {A} (f : Event -> option A) (q : Event -> bool) (tr : list Event) :
  (forall e, q e = true -> f e = None) ->
  forallb q tr = true -> omap f tr = [].
Proof.
  intros Hq. induction tr as [|e tr IH]; simpl; [done|].
  intros [He Htr]%andb_prop. rewrite (Hq e He). auto.
Qed.

Lemma omap_empty {E A} (f : E -> option A) : omap f [] = [].
Proof. reflexivity. Qed.

Lemma omap_skip {E A} (f : E -> option A) (e : E) (tr : list E) :
  f e = None -> omap f (e :: tr) = omap f tr.
Proof. intros H. simpl. rewrite H. reflexivity. Qed.

Lemma omap_keep {E A} (f : E -> option A) (e : E) (a : A) (tr : list E) :
  f e = Some a -> omap f (e :: tr) = a :: omap f tr.
Proof. intros H. simpl. rewrite H. reflexivity. Qed.

Section Proofs.
Context {W : Type}.
Variable handle : forall X : Type, Call X -> W -> X * W.

Local Notation "x <- m ;; k" := (bind m (fun x => k))
  (at level 65, m at next level, right associativity).
Local Notation "m ;;; k" := (bind m (fun _ => k))
  (at level 65, right associativity).

(** *** Running [bind], [call] and the other primitives *)

Lemma run_bind {A B} (m : M W A) (k : A -> M W B) (g : Globals) (w : W) :
  bind m k g w =
  mkRes (val (k (val (m g w)) (glob (m g w)) (wld (m g w))))
        (glob (k (val (m g w)) (glob (m g w)) (wld (m g w))))
        (wld (k (val (m g w)) (glob (m g w)) (wld (m g w))))
        (evs (m g w) ++ evs (k (val (m g w)) (glob (m g w)) (wld (m g w)))).
Proof. reflexivity. Qed.

Lemma run_bind_res {A B} (m : M W A) (k : A -> M W B) (g : Globals) (w : W)
    (a : A) (g1 : Globals) (w1 : W) (tr : list Event) :
  m g w = mkRes a g1 w1 tr ->
  bind m k g w =
  mkRes (val (k a g1 w1)) (glob (k a g1 w1)) (wld (k a g1 w1)) (tr ++ evs (k a g1 w1)).
Proof. intros E. rewrite run_bind, E. reflexivity. Qed.

Lemma run_call {X} (c : Call X) (g : Globals) (w : W) :
  call handle c g w = mkRes (handle X c w).1 g (handle X c w).2 [Ev c (handle X c w).1].
Proof. reflexivity. Qed.

Lemma run_millis (g : Globals) (w : W) :
  millis handle g w =
  mkRes (wrap32 (handle Z Millis w).1) g (handle Z Millis w).2 [Ev Millis (handle Z Millis w).1].
Proof. reflexivity. Qed.

Lemma val_mk {A} (a : A) (g : Globals) (w : W) (tr : list Event) : val (mkRes a g w tr) = a.
Proof. reflexivity. Qed.

Lemma glob_mk {A} (a : A) (g : Globals) (w : W) (tr : list Event) : glob (mkRes a g w tr) = g.
Proof. reflexivity. Qed.

Lemma wld_mk {A} (a : A) (g : Globals) (w : W) (tr : list Event) : wld (mkRes a g w tr) = w.
Proof. reflexivity. Qed.

Lemma evs_mk {A} (a : A) (g : Globals) (w : W) (tr : list Event) : evs (mkRes a g w tr) = tr.
Proof. reflexivity. Qed.

Lemma val_after {A} (tr : list Event) (r : Res W A) : val (after tr r) = val r.
Proof. reflexivity. Qed.

Lemma glob_after {A} (tr : list Event) (r : Res W A) : glob (after tr r) = glob r.
Proof. reflexivity. Qed.

Lemma wld_after {A} (tr : list Event) (r : Res W A) : wld (after tr r) = wld r.
Proof. reflexivity. Qed.

Lemma evs_after {A} (tr : list Event) (r : Res W A) : evs (after tr r) = tr ++ evs r.
Proof. reflexivity. Qed.

Lemma after_nil {A} (r : Res W A) : after [] r = r.
Proof. destruct r. reflexivity. Qed.

Lemma bind_run {A B} (m : M W A) (k : A -> M W B) (g : Globals) (w : W) :
  bind m k g w = after (evs (m g w)) (k (val (m g w)) (glob (m g w)) (wld (m g w))).
Proof. reflexivity. Qed.

Lemma bind_call {X B} (c : Call X) (k : X -> M W B) (g : Globals) (w : W) :
  bind (call handle c) k g w =
  after [Ev c (handle X c w).1] (k (handle X c w).1 g (handle X c w).2).
Proof. reflexivity. Qed.

Lemma bind_millis {B} (k : Z -> M W B) (g : Globals) (w : W) :
  bind (millis handle) k g w =
  after [Ev Millis (handle Z Millis w).1]
    (k (wrap32 (handle Z Millis w).1) g (handle Z Millis w).2).
Proof. reflexivity. Qed.

Lemma bind_get {B} (k : Globals -> M W B) (g : Globals) (w : W) :
  bind get k g w = k g g w.
Proof. rewrite bind_run. apply after_nil. Qed.

Lemma bind_modify {B} (f : Globals -> Globals) (k : unit -> M W B) (g : Globals) (w : W) :
  bind (modify f) k g w = k tt (f g) w.
Proof. rewrite bind_run. apply after_nil. Qed.

Lemma bind_ret {A B} (a : A) (k : A -> M W B) (g : Globals) (w : W) :
  bind (ret a) k g w = k a g w.
Proof. rewrite bind_run. apply after_nil. Qed.

Lemma run_ret {A} (a : A) (g : Globals) (w : W) : ret a g w = mkRes a g w [].
Proof. reflexivity. Qed.

Lemma after_after {A} (tr tr' : list Event) (r : Res W A) :
  after tr (after tr' r) = after (tr ++ tr') r.
Proof. unfold after. simpl. rewrite app_assoc. reflexivity. Qed.

Lemma after_ret {A} (tr : list Event) (a : A) (g : Globals) (w : W) :
  after tr (ret a g w) = mkRes a g w tr.
Proof. unfold after. simpl. rewrite app_nil_r. reflexivity. Qed.

(** Run the calls and the state accesses at the head of a chain of binds. *)
Ltac run :=
  repeat progress
    (rewrite ?bind_call, ?bind_millis, ?bind_get, ?bind_modify, ?bind_ret;
     cbv beta).

(** *** Which calls a piece of the program can make *)

Lemma only_ret {A} q (a : A) : only q (ret (W:=W) a).
Proof. intros g w. reflexivity. Qed.

Lemma only_get q : only q (get (W:=W)).
Proof. intros g w. reflexivity. Qed.

Lemma only_modify q f : only q (modify (W:=W) f).
Proof. intros g w. reflexivity. Qed.

Lemma only_call {X} q (c : Call X) :
  (forall x, q (Ev c x) = true) -> only q (call handle c).
Proof. intros H g w. simpl. rewrite H. reflexivity. Qed.

Lemma only_bind {A B} q (m : M W A) (k : A -> M W B) :
  only q m -> (forall a, only q (k a)) -> only q (bind m k).
Proof.
  intros Hm Hk g w. rewrite run_bind. simpl.
  rewrite forallb_app, Hm, Hk. reflexivity.
Qed.

Lemma only_andThen q (m k : M W Outcome) :
  only q m -> only q k -> only q (andThen m k).
Proof.
  intros Hm Hk. apply only_bind; [exact Hm|].
  intros [|]; [exact Hk | apply only_ret].
Qed.

Lemma only_weaken {A} (q q' : Event -> bool) (m : M W A) :
  (forall e, q e = true -> q' e = true) -> only q m -> only q' m.
Proof.
  intros Hqq Hm g w. specialize (Hm g w).
  induction (evs (m g w)) as [|e tr IH]; simpl in *; [done|].
  apply andb_prop in Hm as [He Htr]. rewrite (Hqq e He). auto.
Qed.

Lemma pure_ret {A} (a : A) : pure (ret (W:=W) a).
Proof. intros g w. reflexivity. Qed.

Lemma pure_get : pure (get (W:=W)).
Proof. intros g w. reflexivity. Qed.

Lemma pure_call {X} (c : Call X) : pure (call handle c).
Proof. intros g w. reflexivity. Qed.

Lemma pure_bind {A B} (m : M W A) (k : A -> M W B) :
  pure m -> (forall a, pure (k a)) -> pure (bind m k).
Proof. intros Hm Hk g w. rewrite run_bind. simpl. rewrite Hk, Hm. reflexivity. Qed.

Lemma pure_andThen (m k : M W Outcome) :
  pure m -> pure k -> pure (andThen m k).
Proof.
  intros Hm Hk. apply pure_bind; [exact Hm|].
  intros [|]; [exact Hk | apply pure_ret].
Qed.

Ltac only_step :=
  lazymatch goal with
  | |- only _ (ret _) => apply only_ret
  | |- only _ get => apply only_get
  | |- only _ (modify _) => apply only_modify
  | |- only _ (call _ _) => apply only_call; intros; reflexivity
  | |- only _ (andThen _ _) => apply only_andThen
  | |- only _ (bind _ _) => apply only_bind; [|intros ?]
  end.

Ltac pure_step :=
  lazymatch goal with
  | |- pure (ret _) => apply pure_ret
  | |- pure get => apply pure_get
  | |- pure (call _ _) => apply pure_call
  | |- pure (andThen _ _) => apply pure_andThen
  | |- pure (bind _ _) => apply pure_bind; [|intros ?]
  end.

Ltac only_go :=
  repeat first
    [ only_step | assumption
    | match goal with
      | |- only _ (if ?b then _ else _) => destruct b
      | |- only _ (match ?x with _ => _ end) => destruct x
      end ].

Ltac pure_go :=
  repeat first
    [ pure_step | assumption
    | match goal with
      | |- pure (if ?b then _ else _) => destruct b
      | |- pure (match ?x with _ => _ end) => destruct x
      end ].
(** *** The wait for a sample *)

Lemma await_sample_pure (budget : nat) : pure (await_sample handle budget).
Proof. induction budget as [|b IH]; cbn [await_sample]; pure_go. Qed.

Lemma await_sample_only (budget : nat) : only poll_event (await_sample handle budget).
Proof. induction budget as [|b IH]; cbn [await_sample]; only_go. Qed.

(** The wait makes [n <= budget] rounds of [check(); delay(10)], each after
    an availability test that answered 0, and one last availability test. *)
Lemma await_sample_shape (budget : nat) (g : Globals) (w : W) :
  exists (n : nat) (a : Z),
    (n <= budget)%nat /\
    count is_check (evs (await_sample handle budget g w)) = n /\
    available_answers (evs (await_sample handle budget g w)) = replicate n 0 ++ [a] /\
    delivery_steps (evs (await_sample handle budget g w)) = replicate n (Backoff 10) /\
    (truthy a = false -> n = budget).
Proof.
  revert g w. induction budget as [|b IH]; intros g w.
  - exists O, (handle Z SensorAvailable w).1. simpl.
    destruct (truthy _) eqn:E; simpl; repeat split; auto; lia.
  - simpl. destruct (truthy (handle Z SensorAvailable w).1) eqn:E; simpl.
    + exists O, (handle Z SensorAvailable w).1. repeat split; auto; try lia.
      congruence.
    + destruct (IH g (handle unit (Delay 10)
                   (handle unit SensorCheck (handle Z SensorAvailable w).2).2).2)
        as (n & a & Hn & Hc & Ha & Hs & Hf).
      exists (S n), a. unfold available_answers, delivery_steps in *. simpl.
      rewrite Hc, Ha, Hs.
      apply negb_false_iff, Z.eqb_eq in E. rewrite E.
      repeat split; auto; lia.
Qed.

(** *** One slot of the buffer *)

Lemma fill_slot_only (i : Z) : only fill_event (fill_slot handle i).
Proof.
  unfold fill_slot, println. only_go.
  eapply only_weaken; [|apply await_sample_only]. intros [X c x]; destruct c; done.
Qed.

(** What one slot does: [n <= 100] rounds of waiting, the availability test
    that ended the wait ([a0]) and the one that decides the timeout ([a]). *)
Lemma fill_slot_run (i : Z) (g : Globals) (w : W) :
  exists (n : nat) (a0 a : Z) (tail : list Event),
    (n <= 100)%nat /\
    (truthy a0 = false -> n = 100%nat) /\
    evs (fill_slot handle i g w) =
      evs (await_sample handle 100 g w) ++ Ev SensorAvailable a :: tail /\
    count is_check (evs (await_sample handle 100 g w)) = n /\
    available_answers (evs (await_sample handle 100 g w)) = replicate n 0 ++ [a0] /\
    delivery_steps (evs (await_sample handle 100 g w)) = replicate n (Backoff 10) /\
    val (fill_slot handle i g w) = truthy a /\
    (truthy a = false ->
       tail = [Ev (SerialPrintln (PStr "Sensor timeout - no data available"%string)) tt] /\
       glob (fill_slot handle i g w) = g) /\
    (truthy a = true ->
       exists red ir,
         tail = [Ev SensorGetRed red; Ev SensorGetIR ir; Ev SensorNextSample tt; Ev (Delay 5) tt] /\
         glob (fill_slot handle i g w) = set_irBuffer i ir (set_redBuffer i red g)).
Proof.
  destruct (await_sample_shape 100 g w) as (n & a0 & Hn & Hc & Ha & Hs & Hf).
  unfold fill_slot. rewrite run_bind.
  pose proof (await_sample_pure 100 g w) as Hg.
  destruct (await_sample handle 100 g w) as [[] g1 w1 tr1]. simpl in Hg. subst g1.
  cbn [val glob wld evs] in *. rewrite run_bind, run_call. cbn [val glob wld evs].
  destruct (handle Z SensorAvailable w1) as [a w2]. cbn [fst snd].
  exists n, a0, a.
  destruct (truthy a) eqn:E; cbn [negb].
  - eexists. do 2 (split; [assumption|]). split; [reflexivity|].
    do 3 (split; [assumption|]). split; [reflexivity|]. split; [discriminate|].
    intros _. simpl.
    destruct (handle unit SensorNextSample _) as [[] ?].
    destruct (handle unit (Delay 5) _) as [[] ?]. eauto.
  - eexists. do 2 (split; [assumption|]). split; [reflexivity|].
    do 3 (split; [assumption|]). split; [reflexivity|]. split; [|discriminate].
    intros _. simpl. destruct (handle unit _ w2) as [[] ?]. auto.
Qed.

Lemma count_available_answers (tr : list Event) :
  count is_available tr = length (available_answers tr).
Proof.
  induction tr as [|[X c x] tr IH]; [done|].
  destruct c; simpl; auto.
Qed.

Lemma poll_event_quiet {A} (f : Event -> option A) (budget : nat) (g : Globals) (w : W) :
  (forall e, poll_event e = true -> f e = None) ->
  omap f (evs (await_sample handle budget g w)) = [].
Proof. intros H. eapply omap_none; [exact H | apply await_sample_only]. Qed.

Lemma poll_event_count (p : Event -> bool) (budget : nat) (g : Globals) (w : W) :
  (forall e, poll_event e = true -> p e = false) ->
  count p (evs (await_sample handle budget g w)) = O.
Proof. intros H. eapply count_none; [exact H | apply await_sample_only]. Qed.

Ltac by_call := intros [? c ?]; destruct c; done.

(** The counts of one slot. *)
Lemma fill_slot_counts (i : Z) (g : Globals) (w : W) :
  (count is_check (evs (fill_slot handle i g w)) <= 100)%nat /\
  (count is_available (evs (fill_slot handle i g w)) <= 102)%nat /\
  count is_available (evs (fill_slot handle i g w)) =
    (count is_check (evs (fill_slot handle i g w)) + 2)%nat /\
  count is_next_sample (evs (fill_slot handle i g w)) =
    (if val (fill_slot handle i g w) then 1 else 0)%nat /\
  count is_timeout_report (evs (fill_slot handle i g w)) =
    (if val (fill_slot handle i g w) then 0 else 1)%nat /\
  length (reds (evs (fill_slot handle i g w))) =
    (if val (fill_slot handle i g w) then 1 else 0)%nat.
Proof.
  destruct (fill_slot_run i g w)
    as (n & a0 & a & tail & Hn & Hf & He & Hc & Ha & Hs & Hv & Hfalse & Htrue).
  rewrite He, Hv, !count_app, Hc. unfold reds. rewrite omap_app, length_app.
  rewrite (poll_event_quiet red_of), (poll_event_count is_next_sample),
    (poll_event_count is_timeout_report) by by_call.
  rewrite (count_available_answers (evs _)), Ha, length_app, length_replicate.
  destruct (truthy a).
  - destruct Htrue as (red & ir & -> & _); [done|]. simpl. lia.
  - destruct Hfalse as (-> & _); [done|]. simpl. lia.
Qed.

Lemma fill_slot_registers (i : Z) (g : Globals) (w : W) :
  registers (glob (fill_slot handle i g w)) = registers g /\
  bufferLength (glob (fill_slot handle i g w)) = bufferLength g.
Proof.
  destruct (fill_slot_run i g w)
    as (n & a0 & a & tail & _ & _ & _ & _ & _ & _ & _ & Hfalse & Htrue).
  destruct (truthy a).
  - destruct Htrue as (red & ir & _ & ->); done.
  - destruct Hfalse as (_ & ->); done.
Qed.

(** *** The buffer fill *)

Lemma fill_S (slots : nat) (i : Z) (g : Globals) (w : W) :
  fill handle (S slots) i g w =
  bind (fill_slot handle i)
    (fun stored => if stored then fill handle slots (i + 1) else ret false) g w.
Proof. reflexivity. Qed.

(** A slot that times out ends the fill: nothing more is polled or read. *)
Lemma fill_abort (slots : nat) (i : Z) (g : Globals) (w : W) :
  val (fill_slot handle i g w) = false ->
  val (fill handle (S slots) i g w) = false /\
  evs (fill handle (S slots) i g w) = evs (fill_slot handle i g w) /\
  glob (fill handle (S slots) i g w) = glob (fill_slot handle i g w).
Proof.
  intros E. rewrite fill_S, run_bind. cbn [val glob wld evs]. rewrite E.
  simpl. rewrite app_nil_r. auto.
Qed.

Lemma fill_continue (slots : nat) (i : Z) (g : Globals) (w : W) :
  val (fill_slot handle i g w) = true ->
  val (fill handle (S slots) i g w) =
    val (fill handle slots (i + 1) (glob (fill_slot handle i g w)) (wld (fill_slot handle i g w))) /\
  evs (fill handle (S slots) i g w) =
    evs (fill_slot handle i g w) ++
    evs (fill handle slots (i + 1) (glob (fill_slot handle i g w)) (wld (fill_slot handle i g w))) /\
  glob (fill handle (S slots) i g w) =
    glob (fill handle slots (i + 1) (glob (fill_slot handle i g w)) (wld (fill_slot handle i g w))).
Proof.
  intros E. rewrite fill_S, run_bind. cbn [val glob wld evs]. rewrite E. auto.
Qed.

Lemma fill_only (slots : nat) (i : Z) : only fill_event (fill handle slots i).
Proof.
  revert i. induction slots as [|k IH]; intros i; cbn [fill]; only_go;
    auto using fill_slot_only.
Qed.

Lemma fill_registers (slots : nat) (i : Z) (g : Globals) (w : W) :
  registers (glob (fill handle slots i g w)) = registers g /\
  bufferLength (glob (fill handle slots i g w)) = bufferLength g.
Proof.
  revert i g w. induction slots as [|k IH]; intros i g w; [done|].
  destruct (fill_slot_registers i g w) as [Hr Hb].
  destruct (val (fill_slot handle i g w)) eqn:E.
  - destruct (fill_continue k i g w E) as (_ & _ & ->).
    destruct (IH (i + 1) (glob (fill_slot handle i g w)) (wld (fill_slot handle i g w)))
      as [-> ->]. auto.
  - destruct (fill_abort k i g w E) as (_ & _ & ->). auto.
Qed.

(** The counts of a fill of [slots] slots: a complete fill stores exactly
    [slots] samples, an aborted one fewer, and reports the timeout. *)
Lemma fill_counts (slots : nat) (i : Z) (g : Globals) (w : W) :
  (count is_check (evs (fill handle slots i g w)) <= 100 * slots)%nat /\
  (count is_available (evs (fill handle slots i g w)) <= 102 * slots)%nat /\
  count is_next_sample (evs (fill handle slots i g w)) =
    length (reds (evs (fill handle slots i g w))) /\
  count is_timeout_report (evs (fill handle slots i g w)) =
    (if val (fill handle slots i g w) then 0 else 1)%nat /\
  (if val (fill handle slots i g w)
   then length (reds (evs (fill handle slots i g w))) = slots
   else (length (reds (evs (fill handle slots i g w))) < slots)%nat).
Proof.
  revert i g w. induction slots as [|k IH]; intros i g w.
  - simpl. repeat split; lia.
  - destruct (fill_slot_counts i g w) as (Hc & Ha & _ & Hn & Ht & Hr).
    destruct (val (fill_slot handle i g w)) eqn:E.
    + destruct (fill_continue k i g w E) as (-> & -> & _).
      destruct (IH (i + 1) (glob (fill_slot handle i g w)) (wld (fill_slot handle i g w)))
        as (IHc & IHa & IHn & IHt & IHr).
      unfold reds in *. rewrite !count_app, omap_app, length_app.
      rewrite Hn, Ht, Hr, IHn, IHt.
      repeat split; try lia.
      destruct (val (fill handle k _ _ _)); lia.
    + destruct (fill_abort k i g w E) as (-> & -> & _).
      repeat split; try lia.
Qed.

Lemma fill_polls (slots : nat) (i : Z) (g : Globals) (w : W) :
  existsb is_available (evs (fill handle (S slots) i g w)) = true.
Proof.
  destruct (existsb _ _) eqn:E; [done|]. apply existsb_count in E.
  destruct (fill_slot_counts i g w) as (_ & _ & Ha & _).
  destruct (val (fill_slot handle i g w)) eqn:Ev.
  - destruct (fill_continue slots i g w Ev) as (_ & He & _).
    rewrite He, count_app in E. lia.
  - destruct (fill_abort slots i g w Ev) as (_ & He & _). rewrite He in E. lia.
Qed.

(** A slot that does not time out stores the pair it read at index [i]. *)
Lemma fill_slot_stores (i : Z) (g : Globals) (w : W) :
  val (fill_slot handle i g w) = true ->
  exists red ir,
    reds (evs (fill_slot handle i g w)) = [red] /\
    irs (evs (fill_slot handle i g w)) = [ir] /\
    glob (fill_slot handle i g w) = set_irBuffer i ir (set_redBuffer i red g).
Proof.
  destruct (fill_slot_run i g w)
    as (n & a0 & a & tail & _ & _ & He & _ & _ & _ & Hv & _ & Htrue).
  rewrite Hv. intros E. destruct (Htrue E) as (red & ir & -> & Hg).
  exists red, ir. rewrite He. unfold reds, irs. rewrite !omap_app.
  rewrite (poll_event_quiet red_of), (poll_event_quiet ir_of) by by_call.
  auto.
Qed.

Lemma store_at (l : list Z) (n slots : nat) (x : Z) (rest : list Z) :
  (n + S slots <= length l)%nat ->
  take (S n) (<[n:=x]> l) ++ rest ++ drop (S n + slots) (<[n:=x]> l) =
  take n l ++ (x :: rest) ++ drop (n + S slots) l.
Proof.
  intros Hlen. replace (n + S slots)%nat with (S n + slots)%nat by lia.
  rewrite (take_S_r _ n x) by (apply list_lookup_insert_eq; lia).
  rewrite take_insert_ge by lia. rewrite drop_insert_lt by lia.
  rewrite <- app_assoc. reflexivity.
Qed.

(** A complete fill leaves the samples it read, in the order it read them,
    in slots [i .. i + slots - 1] of both buffers. *)
Lemma fill_buffers (slots : nat) (i : Z) (g : Globals) (w : W) :
  0 <= i ->
  (Z.to_nat i + slots <= length (redBuffer g))%nat ->
  (Z.to_nat i + slots <= length (irBuffer g))%nat ->
  val (fill handle slots i g w) = true ->
  redBuffer (glob (fill handle slots i g w)) =
    take (Z.to_nat i) (redBuffer g) ++ reds (evs (fill handle slots i g w))
      ++ drop (Z.to_nat i + slots) (redBuffer g) /\
  irBuffer (glob (fill handle slots i g w)) =
    take (Z.to_nat i) (irBuffer g) ++ irs (evs (fill handle slots i g w))
      ++ drop (Z.to_nat i + slots) (irBuffer g).
Proof.
  revert i g w. induction slots as [|k IH]; intros i g w Hi Hred Hir.
  - intros _. simpl. rewrite Nat.add_0_r, !take_drop. auto.
  - destruct (val (fill_slot handle i g w)) eqn:E.
    + destruct (fill_continue k i g w E) as (-> & -> & ->).
      destruct (fill_slot_stores i g w E) as (red & ir & Hr & Hi' & Hg).
      intros Hv. unfold reds, irs in *. rewrite !omap_app, Hr, Hi'.
      destruct (IH (i + 1) (glob (fill_slot handle i g w)) (wld (fill_slot handle i g w)))
        as [-> ->]; try assumption; try lia.
      * rewrite Hg. simpl. rewrite length_insert. lia.
      * rewrite Hg. simpl. rewrite length_insert. lia.
      * rewrite Hg. simpl.
        replace (Z.to_nat (i + 1)) with (S (Z.to_nat i)) by lia.
        split; apply store_at; lia.
    + destruct (fill_abort k i g w E) as (-> & _). discriminate.
Qed.

(** *** readSensors *)


Lemma readSensors_closed (g : Globals) (w : W) :
  acquisition_due (handle Z Millis w).1 g = false ->
  readSensors handle g w = mkRes false g (handle Z Millis w).2 [Ev Millis (handle Z Millis w).1].
Proof.
  unfold acquisition_due, readSensors. intros E. apply negb_false_iff in E.
  run. rewrite E. apply after_ret.
Qed.

Lemma buffer_slots (g : Globals) :
  Z.to_nat (bufferLength (set_bufferLength BUFFER_SIZE g)) = 100%nat.
Proof. reflexivity. Qed.

Lemma readSensors_open (g : Globals) (w : W) :
  acquisition_due (handle Z Millis w).1 g = true ->
  let t1 := (handle Z Millis w).1 in
  let w1 := (handle Z Millis w).2 in
  let t2 := (handle Z Millis w1).1 in
  let w2 := (handle Z Millis w1).2 in
  let g1 := set_bufferLength BUFFER_SIZE (set_lastSensorRead (wrap32 t2) g) in
  let f := fill handle 100 0 g1 w2 in
  let c := Maxim (irBuffer (glob f)) (bufferLength (glob f)) (redBuffer (glob f)) in
  let r := (handle MaximResult c (wld f)).1 in
  val (readSensors handle g w) = val f /\
  evs (readSensors handle g w) =
    Ev Millis t1 :: Ev Millis t2 :: evs f ++ (if val f then [Ev c r] else []) /\
  glob (readSensors handle g w) = (if val f then set_estimate r (glob f) else glob f) /\
  wld (readSensors handle g w) =
    (if val f then (handle MaximResult c (wld f)).2 else wld f).
Proof.
  intros E. cbv zeta. unfold acquisition_due in E. apply negb_true_iff in E.
  unfold readSensors. run. rewrite E. cbv iota. run.
  rewrite buffer_slots, bind_run.
  match goal with
  | |- context [fill handle 100 0 ?a ?b] =>
      destruct (fill handle 100 0 a b) as [[|] gf wf trf]
  end; rewrite ?val_mk, ?glob_mk, ?wld_mk, ?evs_mk; cbv iota; run;
    rewrite ?after_ret, ?after_after, ?val_after, ?glob_after, ?wld_after, ?evs_after;
    cbn [val glob wld evs app]; rewrite ?app_nil_r; auto.
Qed.

Lemma fill_slot_pairs (i : Z) (g : Globals) (w : W) :
  length (irs (evs (fill_slot handle i g w))) = length (reds (evs (fill_slot handle i g w))).
Proof.
  destruct (fill_slot_run i g w)
    as (n & a0 & a & tail & _ & _ & He & _ & _ & _ & _ & Hfalse & Htrue).
  rewrite He. unfold reds, irs. rewrite !omap_app.
  rewrite (poll_event_quiet red_of), (poll_event_quiet ir_of) by by_call.
  destruct (truthy a).
  - destruct Htrue as (red & ir & -> & _); done.
  - destruct Hfalse as (-> & _); done.
Qed.

Lemma fill_pairs (slots : nat) (i : Z) (g : Globals) (w : W) :
  length (irs (evs (fill handle slots i g w))) = length (reds (evs (fill handle slots i g w))).
Proof.
  revert i g w. induction slots as [|k IH]; intros i g w; [done|].
  pose proof (fill_slot_pairs i g w) as Hp.
  destruct (val (fill_slot handle i g w)) eqn:E.
  - destruct (fill_continue k i g w E) as (_ & -> & _).
    unfold reds, irs in *. rewrite !omap_app, !length_app, Hp, IH. reflexivity.
  - destruct (fill_abort k i g w E) as (_ & -> & _). exact Hp.
Qed.

Lemma fill_quiet {A} (f : Event -> option A) (slots : nat) (i : Z) (g : Globals) (w : W) :
  (forall e, fill_event e = true -> f e = None) ->
  omap f (evs (fill handle slots i g w)) = [].
Proof. intros H. eapply omap_none; [exact H | apply fill_only]. Qed.

Lemma fill_count (p : Event -> bool) (slots : nat) (i : Z) (g : Globals) (w : W) :
  (forall e, fill_event e = true -> p e = false) ->
  count p (evs (fill handle slots i g w)) = O.
Proof. intros H. eapply count_none; [exact H | apply fill_only]. Qed.

Lemma readSensors_only : only acquisition_event (readSensors handle).
Proof.
  intros g w. destruct (acquisition_due (handle Z Millis w).1 g) eqn:E.
  - destruct (readSensors_open g w E) as (_ & -> & _). cbv zeta.
    cbn [forallb]. rewrite forallb_app.
    rewrite (only_weaken fill_event acquisition_event (fill handle 100 0)
               ltac:(by_call) (fill_only 100 0)).
    destruct (val _); reflexivity.
  - rewrite (readSensors_closed g w E). reflexivity.
Qed.

(** [readSensors] writes the buffers, the estimate and [lastSensorRead];
    never [lastDataSend]. *)
Lemma readSensors_lastDataSend (g : Globals) (w : W) :
  lastDataSend (glob (readSensors handle g w)) = lastDataSend g.
Proof.
  destruct (acquisition_due (handle Z Millis w).1 g) eqn:E.
  - destruct (readSensors_open g w E) as (_ & _ & -> & _). cbv zeta.
    match goal with
    | |- context [fill handle 100 0 ?a ?b] =>
        destruct (fill_registers 100 0 a b) as [Hr _];
        destruct (val (fill handle 100 0 a b))
    end; unfold registers in Hr; simpl in *; congruence.
  - rewrite (readSensors_closed g w E). reflexivity.
Qed.

(** The availability answers of one slot: a 0 before each attempt, the
    answer that ended the wait, and the answer that decides the timeout. *)
Lemma fill_slot_answers (i : Z) (g : Globals) (w : W) :
  exists (n : nat) (a0 a : Z),
    available_answers (evs (fill_slot handle i g w)) = replicate n 0 ++ [a0; a] /\
    count is_check (evs (fill_slot handle i g w)) = n /\
    val (fill_slot handle i g w) = truthy a.
Proof.
  destruct (fill_slot_run i g w)
    as (n & a0 & a & tail & _ & _ & He & Hc & Ha & _ & Hv & Hfalse & Htrue).
  exists n, a0, a. split; [|split; [|exact Hv]].
  - rewrite He. unfold available_answers in *.
    rewrite omap_app, Ha, (omap_keep available_of (Ev SensorAvailable a) a) by reflexivity.
    assert (omap available_of tail = []) as ->.
    { destruct (truthy a).
      - destruct (Htrue eq_refl) as (red & ir & -> & _). reflexivity.
      - destruct (Hfalse eq_refl) as (-> & _). reflexivity. }
    rewrite <- app_assoc. reflexivity.
  - rewrite He, count_app, Hc.
    assert (count is_check (Ev SensorAvailable a :: tail) = O) as ->.
    { destruct (truthy a).
      - destruct (Htrue eq_refl) as (red & ir & -> & _). reflexivity.
      - destruct (Hfalse eq_refl) as (-> & _). reflexivity. }
    lia.
Qed.

(** The last availability test of a slot decides alone: when it finds a
    sample, the sample is read and stored, whatever the tests before it
    answered. *)
Lemma fill_slot_decided (i : Z) (g : Globals) (w : W) :
  exists a : Z,
    last (available_answers (evs (fill_slot handle i g w))) = Some a /\
    val (fill_slot handle i g w) = truthy a /\
    (truthy a = true ->
     exists red ir : Z,
       reds (evs (fill_slot handle i g w)) = [red] /\
       irs (evs (fill_slot handle i g w)) = [ir] /\
       glob (fill_slot handle i g w) = set_irBuffer i ir (set_redBuffer i red g)).
Proof.
  destruct (fill_slot_answers i g w) as (n & a0 & a & Ha & _ & Hv).
  exists a. split.
  - rewrite Ha. change [a0; a] with ([a0] ++ [a]). rewrite app_assoc. apply last_snoc.
  - split; [exact Hv|]. intros E. apply fill_slot_stores. rewrite Hv. exact E.
Qed.

(** C8, as the code has it.  In every slot of a fill the wait makes at most
    100 attempts, each of them [check()] followed by the fixed [delay(10)];
    the availability test itself is evaluated once before each attempt, once
    after the last one and once more to decide the timeout, which is two more
    times than there are attempts and at most 102 times.  A slot in which no
    test finds a sample times out: it reports the timeout, stores nothing and
    ends the fill, which returns [false].  A whole acquisition therefore polls
    the sensor a bounded number of times.  The last test of a slot decides
    alone: a sample it finds is read and stored, also when the 100 attempts
    before it found none. *)
Theorem fill_slot_attempt_budget (i : Z) (g : Globals) (w : W) :
  (count is_check (evs (fill_slot handle i g w)) <= 100)%nat /\
  count is_available (evs (fill_slot handle i g w)) =
    (count is_check (evs (fill_slot handle i g w)) + 2)%nat /\
  delivery_steps (evs (fill_slot handle i g w)) =
    replicate (count is_check (evs (fill_slot handle i g w))) (Backoff 10)
    ++ (if val (fill_slot handle i g w) then [Backoff 5] else []) /\
  (Forall (fun a => truthy a = false) (available_answers (evs (fill_slot handle i g w))) ->
   val (fill_slot handle i g w) = false /\
   count is_check (evs (fill_slot handle i g w)) = 100%nat /\
   count is_timeout_report (evs (fill_slot handle i g w)) = 1%nat /\
   glob (fill_slot handle i g w) = g /\
   forall slots,
     val (fill handle (S slots) i g w) = false /\
     evs (fill handle (S slots) i g w) = evs (fill_slot handle i g w)) /\
  (count is_check (evs (readSensors handle g w)) <= 100 * 100)%nat /\
  (count is_available (evs (readSensors handle g w)) <= 102 * 100)%nat /\
  (exists a : Z,
     last (available_answers (evs (fill_slot handle i g w))) = Some a /\
     val (fill_slot handle i g w) = truthy a /\
     (truthy a = true ->
      exists red ir : Z,
        reds (evs (fill_slot handle i g w)) = [red] /\
        irs (evs (fill_slot handle i g w)) = [ir] /\
        glob (fill_slot handle i g w) = set_irBuffer i ir (set_redBuffer i red g))).
Proof.
  destruct (fill_slot_run i g w)
    as (n & a0 & a & tail & Hn & Hf & He & Hc & Ha & Hs & Hv & Hfalse & Htrue).
  destruct (fill_slot_counts i g w) as (Hck & _ & Hav & _ & Hto & _).
  split; [exact Hck|]. split; [exact Hav|].
  split; [|split; [|apply and_assoc; split; [|apply fill_slot_decided]]].
  - rewrite He, Hv, count_app, Hc. unfold delivery_steps. rewrite omap_app.
    fold (delivery_steps (evs (await_sample handle 100 g w))). rewrite Hs.
    destruct (truthy a).
    + destruct Htrue as (red & ir & -> & _); [done|]. simpl. rewrite Nat.add_0_r. reflexivity.
    + destruct Hfalse as (-> & _); [done|]. simpl. rewrite Nat.add_0_r. reflexivity.
  - intros Hall.
    assert (truthy a0 = false /\ truthy a = false) as [Ea0 Ea].
    { rewrite He in Hall. unfold available_answers in Hall.
      rewrite omap_app in Hall. fold (available_answers (evs (await_sample handle 100 g w))) in Hall.
      rewrite Ha in Hall. simpl in Hall.
      apply Forall_app in Hall as [Hall1 Hall2].
      apply Forall_app in Hall1 as [_ Hall1].
      apply Forall_cons in Hall1 as [? _]. apply Forall_cons in Hall2 as [? _]. auto. }
    assert (val (fill_slot handle i g w) = false) as Ev by (rewrite Hv; exact Ea).
    destruct (Hfalse Ea) as [Ht Hg].
    split; [exact Ev|]. split.
    { rewrite He, count_app, Hc, Ht, (Hf Ea0). reflexivity. }
    split; [rewrite Hto, Ev; reflexivity|]. split; [exact Hg|].
    intros slots. destruct (fill_abort slots i g w Ev) as (? & ? & _). auto.
  - destruct (acquisition_due (handle Z Millis w).1 g) eqn:E.
    + destruct (readSensors_open g w E) as (_ & -> & _). cbv zeta.
      match goal with
      | |- context [fill handle 100 0 ?a ?b] =>
          destruct (fill_counts 100 0 a b) as (Hfc & Hfa & _);
          destruct (val (fill handle 100 0 a b))
      end; cbn [count is_check is_available]; rewrite !count_app;
        cbn [count is_check is_available]; lia.
    + rewrite (readSensors_closed g w E). simpl. lia.
Qed.

(** A sensor that has a sample whenever it is asked: no wait, no timeout. *)
Lemma fill_slot_ready (i : Z) (g : Globals) (w : W) :
  forallb truthy (available_answers (evs (fill_slot handle i g w))) = true ->
  val (fill_slot handle i g w) = true /\
  count is_check (evs (fill_slot handle i g w)) = O.
Proof.
  destruct (fill_slot_answers i g w) as (n & a0 & a & -> & -> & ->).
  rewrite forallb_app. intros [Hn Hl]%andb_prop.
  cbn [forallb] in Hl. apply andb_prop in Hl as [_ Hl]. apply andb_prop in Hl as [Hl _].
  split; [exact Hl|]. destruct n; [reflexivity|discriminate].
Qed.

Lemma fill_ready (slots : nat) (i : Z) (g : Globals) (w : W) :
  forallb truthy (available_answers (evs (fill handle slots i g w))) = true ->
  val (fill handle slots i g w) = true /\
  count is_check (evs (fill handle slots i g w)) = O.
Proof.
  revert i g w. induction slots as [|k IH]; intros i g w; [split; reflexivity|].
  destruct (val (fill_slot handle i g w)) eqn:E.
  - destruct (fill_continue k i g w E) as (-> & -> & _).
    unfold available_answers. rewrite omap_app, forallb_app, count_app.
    intros [H1 H2]%andb_prop.
    destruct (fill_slot_ready i g w H1) as [_ ->].
    destruct (IH _ _ _ H2) as [-> ->]. split; reflexivity.
  - destruct (fill_abort k i g w E) as (-> & -> & _). intros H.
    destruct (fill_slot_ready i g w H) as [Hv _]. congruence.
Qed.

(** C1.  In an acquisition cycle that passes its gate the estimator is called,
    and the four estimate variables are overwritten with its outputs, exactly
    when the fill stored 100 samples; the estimator is then given those 100
    samples in the order they were read, and [readSensors] returns [true].
    A fill that timed out stored fewer than 100 samples: [readSensors]
    returns [false], the estimator is not called and the four variables keep
    their values.  The fill does complete when the sensor delivers: if every
    availability test of the cycle finds a sample, 100 samples are stored
    without a single wait and [readSensors] returns [true]; and it returns
    [true] exactly when no timeout was reported. *)
Theorem readSensors_estimate_iff_full (g : Globals) (w : W) :
  acquisition_due (handle Z Millis w).1 g = true ->
  length (irBuffer g) = 100%nat ->
  length (redBuffer g) = 100%nat ->
  (length (reds (evs (readSensors handle g w))) <= 100)%nat /\
  (val (readSensors handle g w) = true <->
   length (reds (evs (readSensors handle g w))) = 100%nat) /\
  (length (reds (evs (readSensors handle g w))) = 100%nat ->
   exists out : MaximResult,
     estimations (evs (readSensors handle g w)) =
       [(irs (evs (readSensors handle g w)), 100,
         reds (evs (readSensors handle g w)), out)] /\
     length (irs (evs (readSensors handle g w))) = 100%nat /\
     estimate (glob (readSensors handle g w)) =
       (r_heartRate out, r_validHeartRate out, r_spo2 out, r_validSPO2 out)) /\
  (length (reds (evs (readSensors handle g w))) <> 100%nat ->
   val (readSensors handle g w) = false /\
   estimations (evs (readSensors handle g w)) = [] /\
   count is_timeout_report (evs (readSensors handle g w)) = 1%nat /\
   estimate (glob (readSensors handle g w)) = estimate g) /\
  (forallb truthy (available_answers (evs (readSensors handle g w))) = true ->
   val (readSensors handle g w) = true /\
   length (reds (evs (readSensors handle g w))) = 100%nat /\
   count is_check (evs (readSensors handle g w)) = O) /\
  (val (readSensors handle g w) = true <->
   count is_timeout_report (evs (readSensors handle g w)) = O).
Proof.
  intros E Hir Hred.
  assert ((forallb truthy (available_answers (evs (readSensors handle g w))) = true ->
           val (readSensors handle g w) = true /\
           length (reds (evs (readSensors handle g w))) = 100%nat /\
           count is_check (evs (readSensors handle g w)) = O) /\
          (val (readSensors handle g w) = true <->
           count is_timeout_report (evs (readSensors handle g w)) = O)) as Hnew.
  { destruct (readSensors_open g w E) as (Hv & He & _). cbv zeta in Hv, He.
    rewrite Hv, He. clear Hv He.
    set (g1 := set_bufferLength BUFFER_SIZE _).
    set (w2 := (handle Z Millis (handle Z Millis w).2).2).
    destruct (fill_counts 100 0 g1 w2) as (_ & _ & _ & Hto & Hlen).
    pose proof (fill_ready 100 0 g1 w2) as Hready.
    unfold reds, available_answers in *.
    rewrite !(omap_skip _ (Ev Millis _)) by reflexivity.
    cbn [count is_check is_timeout_report].
    rewrite !omap_app, !count_app, Hto.
    destruct (val (fill handle 100 0 g1 w2)) eqn:Efull; cbv iota.
    - rewrite !(omap_skip _ (Ev (Maxim _ _ _) _)) by reflexivity.
      rewrite !omap_empty, !app_nil_r.
      change (count _ [Ev (Maxim _ _ _) _]) with O.
      split; [|split; reflexivity].
      intros H. destruct (Hready H) as [_ ->]. repeat split. exact Hlen.
    - rewrite !omap_empty, !app_nil_r. change (count _ []) with O.
      split; [|split; discriminate].
      intros H. destruct (Hready H) as [? _]. discriminate. }
  revert Hnew.
  generalize (forallb truthy (available_answers (evs (readSensors handle g w))) = true ->
              val (readSensors handle g w) = true /\
              length (reds (evs (readSensors handle g w))) = 100%nat /\
              count is_check (evs (readSensors handle g w)) = O).
  intros P1 Hnew.
  cut ((length (reds (evs (readSensors handle g w))) <= 100)%nat /\
       (val (readSensors handle g w) = true <->
        length (reds (evs (readSensors handle g w))) = 100%nat) /\
       (length (reds (evs (readSensors handle g w))) = 100%nat ->
        exists out : MaximResult,
          estimations (evs (readSensors handle g w)) =
            [(irs (evs (readSensors handle g w)), 100,
              reds (evs (readSensors handle g w)), out)] /\
          length (irs (evs (readSensors handle g w))) = 100%nat /\
          estimate (glob (readSensors handle g w)) =
            (r_heartRate out, r_validHeartRate out, r_spo2 out, r_validSPO2 out)) /\
       (length (reds (evs (readSensors handle g w))) <> 100%nat ->
        val (readSensors handle g w) = false /\
        estimations (evs (readSensors handle g w)) = [] /\
        count is_timeout_report (evs (readSensors handle g w)) = 1%nat /\
        estimate (glob (readSensors handle g w)) = estimate g)).
  { intros (HA & HB & HC & HD). exact (conj HA (conj HB (conj HC (conj HD Hnew)))). }
  clear Hnew P1.
  destruct (readSensors_open g w E) as (Hv & He & Hg & _). cbv zeta in Hv, He, Hg.
  rewrite Hv, He, Hg. clear Hv He Hg.
  set (g1 := set_bufferLength BUFFER_SIZE _).
  set (w2 := (handle Z Millis (handle Z Millis w).2).2).
  destruct (fill_counts 100 0 g1 w2) as (_ & _ & _ & Hto & Hlen).
  destruct (fill_registers 100 0 g1 w2) as [Hreg Hbl].
  pose proof (fill_pairs 100 0 g1 w2) as Hpairs.
  pose proof (fill_buffers 100 0 g1 w2) as Hbuf.
  pose proof (fill_quiet maxim_of 100 0 g1 w2 ltac:(by_call)) as Hq.
  unfold reds, irs, estimations in *.
  rewrite !(omap_skip _ (Ev Millis _)) by reflexivity.
  rewrite !omap_app, Hq. cbn [count is_timeout_report]. rewrite count_app, Hto.
  destruct (val (fill handle 100 0 g1 w2)) eqn:Efull; cbv iota.
  - rewrite !(omap_skip _ (Ev (Maxim _ _ _) _)) by reflexivity.
    erewrite (omap_keep maxim_of (Ev (Maxim _ _ _) _)) by reflexivity.
    rewrite !omap_empty.
    change (count _ [Ev (Maxim _ _ _) _]) with O.
    rewrite !app_nil_r, app_nil_l.
    destruct Hbuf as [Hr Hi]; [lia | subst g1; simpl; lia | subst g1; simpl; lia | reflexivity |].
    rewrite take_0 in Hr, Hi. rewrite !app_nil_l in Hr, Hi.
    rewrite drop_ge, app_nil_r in Hr by (subst g1; simpl; lia).
    rewrite drop_ge, app_nil_r in Hi by (subst g1; simpl; lia).
    split; [lia|]. split; [tauto|]. split; [|intros; congruence].
    intros _. eexists. split; [|split; [lia | reflexivity]].
    rewrite Hr, Hi, Hbl. reflexivity.
  - rewrite !omap_empty. change (count _ []) with O.
    rewrite !app_nil_r. split; [lia|]. split; [split; [discriminate | lia]|].
    split; [lia|]. intros _. repeat split.
    unfold registers in Hreg. subst g1.
    cbn [heartRate validHeartRate spo2 validSPO2 lastSensorRead lastDataSend
         set_bufferLength set_lastSensorRead] in Hreg.
    unfold estimate. congruence.
Qed.

(** *** connectWiFi *)

Lemma await_link_pure (fuel : nat) (startAttempt : Z) :
  pure (await_link handle fuel startAttempt).
Proof.
  induction fuel as [|f IH]; cbn [await_link]; unfold print, millis; pure_go.
Qed.

Lemma await_link_only (fuel : nat) (startAttempt : Z) :
  only reconnect_event (await_link handle fuel startAttempt).
Proof.
  induction fuel as [|f IH]; cbn [await_link]; unfold print, millis; only_go.
Qed.

Lemma try_networks_pure (fuel : nat) (candidates : list (string * string)) :
  pure (try_networks handle fuel candidates).
Proof.
  induction candidates as [|[ssid pass] rest IH]; cbn [try_networks];
    unfold print, println, millis;
    pure_go; apply await_link_pure.
Qed.

Lemma try_networks_only (fuel : nat) (candidates : list (string * string)) :
  only reconnect_event (try_networks handle fuel candidates).
Proof.
  induction candidates as [|[ssid pass] rest IH]; cbn [try_networks];
    unfold print, println, millis;
    only_go; apply await_link_only.
Qed.

Lemma connectWiFi_pure (fuel : nat) : pure (connectWiFi handle fuel).
Proof. apply try_networks_pure. Qed.

Lemma connectWiFi_only (fuel : nat) : only reconnect_event (connectWiFi handle fuel).
Proof. apply try_networks_only. Qed.

(** *** getCurrentTimestamp *)

Lemma getCurrentTimestamp_pure : pure (getCurrentTimestamp handle).
Proof. unfold getCurrentTimestamp, millis. pure_go. Qed.

Lemma getCurrentTimestamp_only : only clock_event (getCurrentTimestamp handle).
Proof. unfold getCurrentTimestamp, millis. only_go. Qed.

(** *** The retry loop *)

Lemma post_loop_pure (rounds : nat) (payload : string) (retryCount : Z) :
  pure (post_loop handle rounds payload retryCount).
Proof.
  revert retryCount. induction rounds as [|r IH]; intros retryCount;
    cbn [post_loop]; unfold print, println; pure_go; apply IH.
Qed.

Lemma post_loop_only (rounds : nat) (payload : string) (retryCount : Z) :
  only delivery_event (post_loop handle rounds payload retryCount).
Proof.
  revert retryCount. induction rounds as [|r IH]; intros retryCount;
    cbn [post_loop]; unfold print, println; only_go; apply IH.
Qed.

Lemma classify (code : Z) :
  transient code = negb ((code =? 200) || (code =? 201))
                   && negb ((code =? 301) || (code =? 302)).
Proof. reflexivity. Qed.

(** One round of the loop: the attempt, what is printed about it, and, after
    a transient failure only, the wait (unless it was the last round) and the
    remaining rounds. *)
Lemma post_loop_round (r : nat) (payload : string) (retryCount : Z) (g : Globals) (w : W) :
  retryCount < maxRetries ->
  exists (report : list Event) (w1 : W),
    forallb report_event report = true /\
    evs (post_loop handle (S r) payload retryCount g w) =
      Ev (HttpPost payload) (handle Z (HttpPost payload) w).1 :: report ++
        (if transient (handle Z (HttpPost payload) w).1
         then (if retryCount + 1 <? maxRetries then [Ev (Delay 2000) tt] else [])
              ++ evs (post_loop handle r payload (retryCount + 1) g w1)
         else []).
Proof.
  intros Hrc. apply Z.ltb_lt in Hrc. cbn [post_loop]. rewrite Hrc.
  rewrite bind_call. destruct (handle Z (HttpPost payload) w) as [code w0].
  cbn [fst snd]. rewrite evs_after, classify. unfold print, println.
  assert (forall (rep : list Event) (w' : W),
    forallb report_event rep = true ->
    exists (report : list Event) (w1 : W),
      forallb report_event report = true /\
      [Ev (HttpPost payload) code] ++ rep ++
        evs (bind (if retryCount + 1 <? maxRetries then call handle (Delay 2000) else ret ())
               (fun _ => post_loop handle r payload (retryCount + 1)) g w') =
      Ev (HttpPost payload) code :: report ++
        (if retryCount + 1 <? maxRetries then [Ev (Delay 2000) tt] else []) ++
        evs (post_loop handle r payload (retryCount + 1) g w1)) as Hretry.
  { intros rep w' Hrep. rewrite bind_run, evs_after.
    destruct (retryCount + 1 <? maxRetries).
    - rewrite run_call, ?evs_mk, ?glob_mk, ?wld_mk, ?val_mk.
      destruct (handle unit (Delay 2000) w') as [[] w2]. eauto.
    - rewrite run_ret, ?evs_mk, ?glob_mk, ?wld_mk, ?val_mk. eauto. }
  destruct (0 <? code) eqn:Epos.
  - run. destruct ((code =? 200) || (code =? 201)) eqn:Eok;
      [|destruct ((code =? 301) || (code =? 302)) eqn:Ered].
    + run. rewrite run_call. rewrite !evs_after, evs_mk.
      eexists [_; _; _; _; _], w0. split; cycle 1.
      { cbn [negb andb app]. reflexivity. }
      reflexivity.
    + run. rewrite run_call. rewrite !evs_after, evs_mk.
      eexists [_; _; _; _; _], w0. split; cycle 1.
      { cbn [negb andb app]. reflexivity. }
      reflexivity.
    + run. rewrite !evs_after. cbn [negb andb app].
      apply (Hretry [_; _; _; _; _]). reflexivity.
  - assert ((code =? 200) = false) as -> by lia.
    assert ((code =? 201) = false) as -> by lia.
    assert ((code =? 301) = false) as -> by lia.
    assert ((code =? 302) = false) as -> by lia.
    run. rewrite !evs_after. cbn [negb andb orb app].
    apply (Hretry [_; _; _; _; _]). reflexivity.
Qed.

Lemma report_steps (report : list Event) :
  forallb report_event report = true -> delivery_steps report = [].
Proof. apply omap_none. by_call. Qed.

Lemma report_posts (report : list Event) :
  forallb report_event report = true -> count is_post report = O.
Proof. apply count_none. by_call. Qed.

Lemma post_loop_idle (rounds : nat) (payload : string) (retryCount : Z) (g : Globals) (w : W) :
  maxRetries <= retryCount ->
  evs (post_loop handle rounds payload retryCount g w) = [].
Proof.
  intros H. destruct rounds as [|r]; [reflexivity|]. cbn [post_loop].
  replace (retryCount <? maxRetries) with false by lia. reflexivity.
Qed.

(** The steps of one round. *)
Lemma post_loop_steps (r : nat) (payload : string) (retryCount : Z) (g : Globals) (w : W) :
  retryCount < maxRetries ->
  exists w1 : W,
    delivery_steps (evs (post_loop handle (S r) payload retryCount g w)) =
      Attempt payload (handle Z (HttpPost payload) w).1 ::
        (if transient (handle Z (HttpPost payload) w).1
         then (if retryCount + 1 <? maxRetries then [Backoff 2000] else [])
              ++ delivery_steps (evs (post_loop handle r payload (retryCount + 1) g w1))
         else []) /\
    count is_post (evs (post_loop handle (S r) payload retryCount g w)) =
      S (if transient (handle Z (HttpPost payload) w).1
         then count is_post (evs (post_loop handle r payload (retryCount + 1) g w1))
         else O).
Proof.
  intros Hrc. destruct (post_loop_round r payload retryCount g w Hrc)
    as (report & w1 & Hrep & ->).
  exists w1. unfold delivery_steps.
  rewrite (omap_keep step_of (Ev (HttpPost payload) _) (Attempt payload _)) by reflexivity.
  rewrite omap_app. fold (delivery_steps report). rewrite (report_steps report Hrep).
  cbn [count is_post]. rewrite count_app, (report_posts report Hrep).
  destruct (transient _); [|split; reflexivity].
  rewrite omap_app, count_app.
  destruct (retryCount + 1 <? maxRetries); split; reflexivity.
Qed.

(** At most one attempt per round. *)
Lemma post_loop_attempts (rounds : nat) (payload : string) (retryCount : Z) (g : Globals) (w : W) :
  (count is_post (evs (post_loop handle rounds payload retryCount g w)) <= rounds)%nat.
Proof.
  revert retryCount w. induction rounds as [|r IH]; intros retryCount w; [reflexivity|].
  destruct (Z.lt_ge_cases retryCount maxRetries) as [Hrc|Hrc].
  - destruct (post_loop_steps r payload retryCount g w Hrc) as (w1 & _ & ->).
    destruct (transient _); [|lia]. specialize (IH (retryCount + 1) w1). lia.
  - rewrite post_loop_idle by exact Hrc. simpl. lia.
Qed.

(** Nothing follows an attempt that was not a transient failure: neither
    another attempt nor a wait. *)
Lemma post_loop_stops (rounds : nat) (payload : string) (retryCount : Z) (g : Globals) (w : W)
    (before : list Step) (p : string) (code : Z) (later : list Step) :
  delivery_steps (evs (post_loop handle rounds payload retryCount g w)) =
    before ++ Attempt p code :: later ->
  transient code = false ->
  later = [].
Proof.
  revert retryCount w before. induction rounds as [|r IH]; intros retryCount w before Hsplit Hcode.
  { destruct before; discriminate. }
  destruct (Z.lt_ge_cases retryCount maxRetries) as [Hrc|Hrc]; cycle 1.
  { rewrite post_loop_idle in Hsplit by exact Hrc. destruct before; discriminate. }
  destruct (post_loop_steps r payload retryCount g w Hrc) as (w1 & Hsteps & _).
  rewrite Hsteps in Hsplit. clear Hsteps.
  destruct before as [|s before]; cbn [app] in Hsplit.
  - injection Hsplit as _ Hc Hl. rewrite Hc, Hcode in Hl. auto.
  - injection Hsplit as _ Hl.
    destruct (transient (handle Z (HttpPost payload) w).1);
      [|destruct before; discriminate].
    destruct (retryCount + 1 <? maxRetries); cbn [app] in Hl.
    + destruct before as [|s' before]; [discriminate|]. injection Hl as _ Hl.
      eapply IH; eauto.
    + eapply IH; eauto.
Qed.

(** Three transient failures in a row: three attempts with the same payload,
    a wait of 2000 ms between two attempts and none after the last. *)
Lemma post_loop_exhausted (payload : string) (g : Globals) (w : W) :
  Forall (fun code => transient code = true)
    (post_codes (evs (post_loop handle 3 payload 0 g w))) ->
  exists c1 c2 c3 : Z,
    delivery_steps (evs (post_loop handle 3 payload 0 g w)) =
      [Attempt payload c1; Backoff 2000; Attempt payload c2; Backoff 2000;
       Attempt payload c3].
Proof.
  unfold post_codes. intros Hall.
  destruct (post_loop_steps 2 payload 0 g w) as (w1 & H1 & _); [done|].
  rewrite H1 in *. clear H1.
  rewrite (omap_keep code_of (Attempt _ _) _) in Hall by reflexivity.
  apply Forall_cons in Hall as [E1 Hall]. rewrite E1 in *.
  change (0 + 1 <? maxRetries) with true in *. cbv iota in *.
  rewrite omap_app, (omap_skip code_of (Backoff _)), omap_empty, app_nil_l in Hall
    by reflexivity.
  destruct (post_loop_steps 1 payload (0 + 1) g w1) as (w2 & H2 & _); [done|].
  rewrite H2 in *. clear H2.
  rewrite (omap_keep code_of (Attempt _ _) _) in Hall by reflexivity.
  apply Forall_cons in Hall as [E2 Hall]. rewrite E2 in *.
  change (0 + 1 + 1 <? maxRetries) with true in *. cbv iota in *.
  rewrite omap_app, (omap_skip code_of (Backoff _)), omap_empty, app_nil_l in Hall
    by reflexivity.
  destruct (post_loop_steps 0 payload (0 + 1 + 1) g w2) as (w3 & H3 & _); [done|].
  rewrite H3 in *. clear H3.
  rewrite (omap_keep code_of (Attempt _ _) _) in Hall by reflexivity.
  apply Forall_cons in Hall as [E3 Hall]. rewrite E3 in *.
  change (0 + 1 + 1 + 1 <? maxRetries) with false. cbv iota.
  eexists _, _, _. reflexivity.
Qed.

(** *** sendDataToBackend *)

(** Without a link the tick is the reconnection, and nothing else. *)
Lemma sendDataToBackend_down (fuel : nat) (g : Globals) (w : W) :
  is_connected (handle wl_status_t WifiStatus w).1 = false ->
  exists w1 : W,
    sendDataToBackend handle fuel g w =
      after [Ev WifiStatus (handle wl_status_t WifiStatus w).1;
             Ev (SerialPrintln (PStr "WiFi desconectado, reconectando..."%string)) tt]
        (connectWiFi handle fuel g w1).
Proof.
  intros Hdown. unfold sendDataToBackend, println. run. rewrite Hdown. cbn [negb]. run.
  destruct (handle unit _ (handle wl_status_t WifiStatus w).2) as [[] w1].
  exists w1. cbn [fst snd]. rewrite after_after. reflexivity.
Qed.

(** With a link the tick builds one record from the globals, a temperature
    it reads and a timestamp, serializes it, runs the retry loop on the
    serialized text and closes the connection. *)
Lemma sendDataToBackend_up (fuel : nat) (g : Globals) (w : W) :
  is_connected (handle wl_status_t WifiStatus w).1 = true ->
  exists (temp : float) (timestamp jsonPayload : string) (before : list Event) (w1 : W),
    evs (sendDataToBackend handle fuel g w) =
      before ++ evs (post_loop handle 3 jsonPayload 0 g w1) ++ [Ev HttpEnd tt] /\
    val (sendDataToBackend handle fuel g w) = Returned /\
    glob (sendDataToBackend handle fuel g w) = g /\
    records before = [(build_doc g temp timestamp, jsonPayload)] /\
    temps before = [temp] /\
    delivery_steps before = [] /\
    count is_post before = O /\
    forallb transmission_event before = true.
Proof.
  intros Hup. unfold sendDataToBackend, println.
  rewrite bind_call. destruct (handle wl_status_t WifiStatus w) as [s w0].
  cbn [fst snd] in *. rewrite Hup. cbn [negb].
  rewrite bind_call. destruct (handle unit (HttpBegin backendUrl) w0) as [[] w1].
  rewrite bind_call. destruct (handle unit (HttpAddHeader _ _) _) as [[] w2].
  rewrite bind_call. destruct (handle unit (HttpSetTimeout _) _) as [[] w3].
  rewrite bind_get, bind_call. destruct (handle float MlxReadObjectTempC _) as [temp w4].
  cbn [fst snd]. rewrite bind_run.
  pose proof (getCurrentTimestamp_pure g w4) as Hg.
  pose proof (getCurrentTimestamp_only g w4) as Hc.
  destruct (getCurrentTimestamp handle g w4) as [timestamp g' w5 clock].
  cbn [glob evs] in Hg, Hc. subst g'. rewrite ?val_mk, ?glob_mk, ?wld_mk, ?evs_mk.
  rewrite bind_call. destruct (handle string (SerializeJson _) w5) as [jsonPayload w6].
  cbn [fst snd].
  rewrite bind_call. destruct (handle unit (SerialPrintln (PStr "Enviando datos:")) w6) as [[] w7].
  rewrite bind_call. destruct (handle unit (SerialPrintln (PStr jsonPayload)) _) as [[] w8].
  cbn [fst snd]. change (Z.to_nat maxRetries) with 3%nat. rewrite bind_run.
  pose proof (post_loop_pure 3 jsonPayload 0 g w8) as Hp.
  destruct (post_loop handle 3 jsonPayload 0 g w8) as [[] g' w9 posts] eqn:Eposts.
  cbn [glob] in Hp. subst g'. rewrite ?val_mk, ?glob_mk, ?wld_mk, ?evs_mk.
  rewrite bind_call. destruct (handle unit HttpEnd w9) as [[] w10]. cbn [fst snd].
  rewrite !after_after, after_ret, ?val_mk, ?glob_mk, ?wld_mk, ?evs_mk.
  rewrite <- (app_assoc _ posts).
  eexists temp, timestamp, jsonPayload, _, w8. rewrite Eposts, evs_mk.
  split; [reflexivity|]. split; [reflexivity|]. split; [reflexivity|].
  assert (records clock = [] /\ temps clock = [] /\ delivery_steps clock = []
          /\ count is_post clock = O /\ forallb transmission_event clock = true)
    as (Hr & Ht & Hs & Hn & Hf).
  { repeat split.
    - eapply omap_none; [|exact Hc]. by_call.
    - eapply omap_none; [|exact Hc]. by_call.
    - eapply omap_none; [|exact Hc]. by_call.
    - eapply count_none; [|exact Hc]. by_call.
    - clear -Hc. induction clock as [|e cl IH]; [done|]. simpl in *.
      apply andb_prop in Hc as [He Hcl]. rewrite IH by exact Hcl.
      destruct e as [X c x]; destruct c; done. }
  unfold records, temps, delivery_steps in *.
  rewrite !omap_app, !count_app, !forallb_app, Hr, Ht, Hs, Hn, Hf.
  repeat split.
Qed.

Lemma post_loop_payload (rounds : nat) (payload : string) (retryCount : Z) (g : Globals) (w : W) :
  forallb (step_for payload)
    (delivery_steps (evs (post_loop handle rounds payload retryCount g w))) = true.
Proof.
  revert retryCount w. induction rounds as [|r IH]; intros retryCount w; [reflexivity|].
  destruct (Z.lt_ge_cases retryCount maxRetries) as [Hrc|Hrc].
  - destruct (post_loop_steps r payload retryCount g w Hrc) as (w1 & -> & _).
    cbn [forallb step_for]. rewrite String.eqb_refl. cbn [andb].
    destruct (transient _); [|reflexivity].
    rewrite forallb_app, IH. destruct (_ <? _); reflexivity.
  - rewrite post_loop_idle by exact Hrc. reflexivity.
Qed.

Lemma build_doc_fields (g : Globals) (temp : float) (timestamp : string) :
  build_doc g temp timestamp =
    [("device_id"%string, JInt DEVICE_ID);
     ("heart_rate"%string, JInt (reported (validHeartRate g) (heartRate g)));
     ("spo2"%string, JInt (reported (validSPO2 g) (spo2 g)));
     ("temp_skin"%string, JFloat temp);
     ("timestamp"%string, JString timestamp)].
Proof. reflexivity. Qed.

(** What a tick with a link does, in full. *)
Lemma sendDataToBackend_delivery (fuel : nat) (g : Globals) (w : W) :
  is_connected (handle wl_status_t WifiStatus w).1 = true ->
  exists (temp : float) (timestamp jsonPayload : string) (w1 : W),
    records (evs (sendDataToBackend handle fuel g w)) =
      [(build_doc g temp timestamp, jsonPayload)] /\
    temps (evs (sendDataToBackend handle fuel g w)) = [temp] /\
    delivery_steps (evs (sendDataToBackend handle fuel g w)) =
      delivery_steps (evs (post_loop handle 3 jsonPayload 0 g w1)) /\
    count is_post (evs (sendDataToBackend handle fuel g w)) =
      count is_post (evs (post_loop handle 3 jsonPayload 0 g w1)) /\
    val (sendDataToBackend handle fuel g w) = Returned /\
    glob (sendDataToBackend handle fuel g w) = g /\
    last (evs (sendDataToBackend handle fuel g w)) = Some (Ev HttpEnd tt).
Proof.
  intros Hup.
  destruct (sendDataToBackend_up fuel g w Hup)
    as (temp & timestamp & jsonPayload & before & w1 & -> & Hv & Hg & Hr & Ht & Hs & Hn & _).
  exists temp, timestamp, jsonPayload, w1.
  pose proof (post_loop_only 3 jsonPayload 0 g w1) as Hp.
  unfold records, temps, delivery_steps in *.
  rewrite !omap_app, !count_app, Hr, Ht, Hs, Hn.
  rewrite (omap_none record_of delivery_event _ ltac:(by_call) Hp).
  rewrite (omap_none temp_of delivery_event _ ltac:(by_call) Hp).
  rewrite !(omap_skip _ (Ev HttpEnd tt)), !omap_empty, !app_nil_r by reflexivity.
  cbn [count is_post]. rewrite Nat.add_0_r.
  repeat split; try assumption.
  rewrite app_assoc. apply last_snoc.
Qed.

Lemma sendDataToBackend_reconnect (fuel : nat) (g : Globals) (w : W) :
  is_connected (handle wl_status_t WifiStatus w).1 = false ->
  forallb reconnect_event (evs (sendDataToBackend handle fuel g w)) = true /\
  glob (sendDataToBackend handle fuel g w) = g.
Proof.
  intros Hdown. destruct (sendDataToBackend_down fuel g w Hdown) as (w1 & ->).
  rewrite evs_after, glob_after, forallb_app. split.
  - rewrite (connectWiFi_only fuel g w1). reflexivity.
  - apply connectWiFi_pure.
Qed.

Lemma sendDataToBackend_pure (fuel : nat) : pure (sendDataToBackend handle fuel).
Proof.
  intros g w. destruct (is_connected (handle wl_status_t WifiStatus w).1) eqn:E.
  - destruct (sendDataToBackend_up fuel g w E) as (? & ? & ? & ? & ? & _ & _ & Hg & _).
    exact Hg.
  - apply sendDataToBackend_reconnect, E.
Qed.

Lemma sendDataToBackend_only (fuel : nat) :
  only transmission_event (sendDataToBackend handle fuel).
Proof.
  intros g w. destruct (is_connected (handle wl_status_t WifiStatus w).1) eqn:E.
  - destruct (sendDataToBackend_up fuel g w E)
      as (? & ? & p & before & w1 & -> & _ & _ & _ & _ & _ & _ & Hb).
    rewrite !forallb_app, Hb.
    rewrite (only_weaken delivery_event transmission_event (post_loop handle 3 p 0)
               ltac:(by_call) (post_loop_only 3 p 0)).
    reflexivity.
  - destruct (sendDataToBackend_reconnect fuel g w E) as [Hr _].
    clear -Hr. induction (evs _) as [|e tr IH]; [done|]. simpl in *.
    apply andb_prop in Hr as [He Htr]. rewrite IH by exact Htr.
    destruct e as [X c x]; destruct c; done.
Qed.

Lemma rejected_not_transient (code : Z) : rejected code = true -> transient code = false.
Proof. unfold transient. intros ->. apply andb_false_r. Qed.

Lemma reconnect_no_attempt (tr : list Event) :
  forallb reconnect_event tr = true -> post_codes tr = [] /\ count is_post tr = O.
Proof.
  intros H. split; [|apply (count_none is_post reconnect_event); [by_call | exact H]].
  unfold post_codes, delivery_steps.
  induction tr as [|e tr IH]; [reflexivity|]. simpl in H.
  apply andb_prop in H as [He Htr]. specialize (IH Htr).
  destruct e as [X c x]; destruct c; try discriminate He; exact IH.
Qed.

(** C2.  Every record a transmission tick serializes reports [heart_rate] 0
    when [validHeartRate] is zero and the value of [heartRate] otherwise, and
    [spo2] 0 when [validSPO2] is zero and the value of [spo2] otherwise. *)
Theorem invalid_fields_reported_as_zero (fuel : nat) (g : Globals) (w : W)
    (doc : JsonDocument) (text : string) :
  In (doc, text) (records (evs (sendDataToBackend handle fuel g w))) ->
  (validHeartRate g = 0 -> json_get "heart_rate" doc = Some (JInt 0)) /\
  (validHeartRate g <> 0 -> json_get "heart_rate" doc = Some (JInt (heartRate g))) /\
  (validSPO2 g = 0 -> json_get "spo2" doc = Some (JInt 0)) /\
  (validSPO2 g <> 0 -> json_get "spo2" doc = Some (JInt (spo2 g))).
Proof.
  intros Hin. destruct (is_connected (handle wl_status_t WifiStatus w).1) eqn:E.
  - destruct (sendDataToBackend_delivery fuel g w E) as (temp & ts & p & w1 & Hr & _).
    rewrite Hr in Hin. destruct Hin as [Hd|[]]. injection Hd as <- _.
    rewrite build_doc_fields. cbn [json_get String.eqb Ascii.eqb Bool.eqb]. unfold reported, truthy.
    repeat split; intros H.
    + rewrite H. reflexivity.
    + apply Z.eqb_neq in H. rewrite H. reflexivity.
    + rewrite H. reflexivity.
    + apply Z.eqb_neq in H. rewrite H. reflexivity.
  - destruct (sendDataToBackend_reconnect fuel g w E) as [Hr _].
    unfold records in Hin.
    rewrite (omap_none record_of reconnect_event _ ltac:(by_call) Hr) in Hin.
    destruct Hin.
Qed.

(** C4.  A transmission tick makes at most three send attempts.  When the
    link is up and every attempt fails transiently (a transport error or a
    status other than 200, 201, 301 and 302) it makes exactly three, all with
    the same text, with a wait of 2000 ms between two attempts and none after
    the last; the tick then closes the connection and returns with the
    globals as they were: the record is kept nowhere. *)
Theorem delivery_bounded_retry (fuel : nat) (g : Globals) (w : W) :
  (count is_post (evs (sendDataToBackend handle fuel g w)) <= 3)%nat /\
  (is_connected (handle wl_status_t WifiStatus w).1 = true ->
   Forall (fun code => transient code = true)
     (post_codes (evs (sendDataToBackend handle fuel g w))) ->
   exists (jsonPayload : string) (c1 c2 c3 : Z),
     delivery_steps (evs (sendDataToBackend handle fuel g w)) =
       [Attempt jsonPayload c1; Backoff 2000; Attempt jsonPayload c2; Backoff 2000;
        Attempt jsonPayload c3] /\
     last (evs (sendDataToBackend handle fuel g w)) = Some (Ev HttpEnd tt) /\
     val (sendDataToBackend handle fuel g w) = Returned /\
     glob (sendDataToBackend handle fuel g w) = g).
Proof.
  split.
  - destruct (is_connected (handle wl_status_t WifiStatus w).1) eqn:E.
    + destruct (sendDataToBackend_delivery fuel g w E)
        as (temp & ts & p & w1 & _ & _ & _ & -> & _).
      apply post_loop_attempts.
    + destruct (sendDataToBackend_reconnect fuel g w E) as [Hr _].
      destruct (reconnect_no_attempt _ Hr) as [_ ->]. lia.
  - intros E Hall.
    destruct (sendDataToBackend_delivery fuel g w E)
      as (temp & ts & p & w1 & _ & _ & Hs & _ & Hv & Hg & Hl).
    unfold post_codes in Hall. rewrite Hs in *.
    destruct (post_loop_exhausted p g w1 Hall) as (c1 & c2 & c3 & ->).
    exists p, c1, c2, c3. auto.
Qed.

(** C5.  Nothing follows an attempt answered with 301 or 302: no further
    attempt and no wait.  When the first attempt of a tick is answered so,
    that attempt is all the tick does on the network, and the tick returns
    with the globals as they were. *)
Theorem redirect_stops_delivery (fuel : nat) (g : Globals) (w : W) :
  (forall (before : list Step) (p : string) (code : Z) (later : list Step),
     delivery_steps (evs (sendDataToBackend handle fuel g w)) =
       before ++ Attempt p code :: later ->
     rejected code = true ->
     later = []) /\
  (forall code : Z,
     head (post_codes (evs (sendDataToBackend handle fuel g w))) = Some code ->
     rejected code = true ->
     exists jsonPayload : string,
       delivery_steps (evs (sendDataToBackend handle fuel g w)) = [Attempt jsonPayload code] /\
       count is_post (evs (sendDataToBackend handle fuel g w)) = 1%nat /\
       glob (sendDataToBackend handle fuel g w) = g).
Proof.
  destruct (is_connected (handle wl_status_t WifiStatus w).1) eqn:E.
  - destruct (sendDataToBackend_delivery fuel g w E)
      as (temp & ts & p & w1 & _ & _ & Hs & Hn & _ & Hg & _).
    unfold post_codes. rewrite Hs, Hn, Hg. clear Hs Hn Hg. split.
    + intros before p' code later Hsplit Hcode.
      eapply post_loop_stops; [exact Hsplit | apply rejected_not_transient, Hcode].
    + intros code Hhead Hcode.
      destruct (post_loop_steps 2 p 0 g w1) as (w2 & Hs & Hn); [done|].
      rewrite Hs, Hn in *. clear Hs Hn.
      rewrite (omap_keep code_of (Attempt _ _) _) in Hhead by reflexivity.
      injection Hhead as Hc. rewrite Hc in *.
      rewrite (rejected_not_transient code Hcode). eauto.
  - destruct (sendDataToBackend_reconnect fuel g w E) as [Hr _].
    destruct (reconnect_no_attempt _ Hr) as [Hcodes _]. split.
    + intros before p code later Hsplit _. unfold post_codes in Hcodes.
      rewrite Hsplit, omap_app in Hcodes.
      rewrite (omap_keep code_of (Attempt _ _) _) in Hcodes by reflexivity.
      destruct (omap code_of before); discriminate.
    + intros code Hhead. rewrite Hcodes in Hhead. discriminate.
Qed.

(** [connectWiFi] starts by announcing the first candidate and calling
    [WiFi.begin] on it. *)
Lemma connectWiFi_begins (fuel : nat) (g : Globals) (w : W) :
  exists rest : list Event,
    evs (connectWiFi handle fuel g w) =
      Ev (SerialPrint (PStr "Conectando a WiFi: "%string)) tt ::
      Ev (SerialPrintln (PStr "RYGREDES"%string)) tt ::
      Ev (WifiBegin "RYGREDES" "erikaleon") tt :: rest.
Proof.
  unfold connectWiFi.
  change (take _ _) with
    [("RYGREDES", "erikaleon"); ("RYGREDES PLUS", "erikaleon");
     ("TECNOLOGICA", "tecnologica")]%string.
  cbn [try_networks]. unfold print, println.
  rewrite bind_call. destruct (handle unit (SerialPrint _) w) as [[] w1].
  rewrite bind_call. destruct (handle unit (SerialPrintln _) _) as [[] w2].
  rewrite bind_call. destruct (handle unit (WifiBegin _ _) _) as [[] w3].
  rewrite !evs_after. cbn [app fst snd]. eauto.
Qed.

(** C6.  A transmission tick that finds no link checks the link, says so on
    the serial port and runs [connectWiFi]: the outcome, the world and the
    remaining events of the tick are those of that run, which starts with
    [WiFi.begin] on the first candidate.  The tick makes no send attempt,
    opens no connection and serializes no record, and leaves the globals as
    they were, so nothing of this tick is kept; a later tick that finds the
    link up builds its own record, from the globals, a temperature and a
    timestamp it reads itself. *)
Theorem link_down_reconnects (fuel : nat) (g : Globals) (w : W) :
  is_connected (handle wl_status_t WifiStatus w).1 = false ->
  (exists w1 : W,
     sendDataToBackend handle fuel g w =
       after [Ev WifiStatus (handle wl_status_t WifiStatus w).1;
              Ev (SerialPrintln (PStr "WiFi desconectado, reconectando..."%string)) tt]
         (connectWiFi handle fuel g w1)) /\
  (1 <= count is_wifi_begin (evs (sendDataToBackend handle fuel g w)))%nat /\
  count is_post (evs (sendDataToBackend handle fuel g w)) = O /\
  count is_http_begin (evs (sendDataToBackend handle fuel g w)) = O /\
  records (evs (sendDataToBackend handle fuel g w)) = [] /\
  glob (sendDataToBackend handle fuel g w) = g /\
  (forall (fuel' : nat) (w' : W),
     is_connected (handle wl_status_t WifiStatus w').1 = true ->
     exists (temp : float) (timestamp jsonPayload : string),
       records (evs (sendDataToBackend handle fuel'
                       (glob (sendDataToBackend handle fuel g w)) w')) =
         [(build_doc g temp timestamp, jsonPayload)] /\
       temps (evs (sendDataToBackend handle fuel'
                     (glob (sendDataToBackend handle fuel g w)) w')) = [temp]).
Proof.
  intros Hdown.
  destruct (sendDataToBackend_reconnect fuel g w Hdown) as [Hr Hg].
  split; [exact (sendDataToBackend_down fuel g w Hdown)|].
  split.
  { destruct (sendDataToBackend_down fuel g w Hdown) as (w1 & ->).
    destruct (connectWiFi_begins fuel g w1) as (rest & Hb).
    rewrite evs_after, Hb. cbn [app count is_wifi_begin]. lia. }
  split; [apply (count_none is_post reconnect_event); [by_call | exact Hr]|].
  split; [apply (count_none is_http_begin reconnect_event); [by_call | exact Hr]|].
  split; [apply (omap_none record_of reconnect_event); [by_call | exact Hr]|].
  split; [exact Hg|].
  intros fuel' w' Hup. rewrite Hg.
  destruct (sendDataToBackend_delivery fuel' g w' Hup) as (temp & ts & p & w1 & Hrec & Ht & _).
  eauto.
Qed.

(** C7.  A transmission tick that finds the link up reads the temperature
    once and serializes one document, with exactly the members [device_id]
    (the constant 1), [heart_rate], [spo2], [temp_skin] (the temperature just
    read) and [timestamp], in this order; it makes at least one send attempt
    and every attempt carries the serialized text.  With the estimate (72,
    valid, 98, valid) and a temperature of 36.5 the document carries
    [device_id] 1, [heart_rate] 72, [spo2] 98 and [temp_skin] 36.5. *)
Theorem outbound_record_fields (fuel : nat) (g : Globals) (w : W) :
  is_connected (handle wl_status_t WifiStatus w).1 = true ->
  exists (temp : float) (timestamp jsonPayload : string),
    temps (evs (sendDataToBackend handle fuel g w)) = [temp] /\
    records (evs (sendDataToBackend handle fuel g w)) =
      [([("device_id"%string, JInt 1);
         ("heart_rate"%string, JInt (reported (validHeartRate g) (heartRate g)));
         ("spo2"%string, JInt (reported (validSPO2 g) (spo2 g)));
         ("temp_skin"%string, JFloat temp);
         ("timestamp"%string, JString timestamp)], jsonPayload)] /\
    (1 <= count is_post (evs (sendDataToBackend handle fuel g w)))%nat /\
    forallb (step_for jsonPayload)
      (delivery_steps (evs (sendDataToBackend handle fuel g w))) = true /\
    (estimate g = (72, 1, 98, 1) ->
     temp = 36.5%float ->
     records (evs (sendDataToBackend handle fuel g w)) =
       [([("device_id"%string, JInt 1);
          ("heart_rate"%string, JInt 72);
          ("spo2"%string, JInt 98);
          ("temp_skin"%string, JFloat 36.5%float);
          ("timestamp"%string, JString timestamp)], jsonPayload)]).
Proof.
  intros Hup.
  destruct (sendDataToBackend_delivery fuel g w Hup)
    as (temp & ts & p & w1 & Hrec & Ht & Hs & Hn & _).
  exists temp, ts, p. rewrite Hrec, Ht, Hs, Hn, build_doc_fields.
  split; [reflexivity|]. split; [reflexivity|].
  destruct (post_loop_steps 2 p 0 g w1) as (w2 & _ & Hc); [done|].
  split; [rewrite Hc; lia|]. split; [apply post_loop_payload|].
  unfold estimate. intros He ->. injection He as -> -> -> ->. reflexivity.
Qed.

(** *** loop *)

Lemma glob_bind_pure {A B} (m : M W A) (k : A -> M W B) (g : Globals) (w : W) :
  (forall a, pure (k a)) -> glob (bind m k g w) = glob (m g w).
Proof. intros Hk. rewrite bind_run, glob_after. apply Hk. Qed.

Lemma loop_acquire_glob (g : Globals) (w : W) :
  glob (loop_acquire handle g w) = glob (readSensors handle g w).
Proof.
  unfold loop_acquire. apply glob_bind_pure. intros [|]; unfold print; pure_go.
Qed.

Lemma loop_acquire_run (g : Globals) (w : W) :
  exists report : list Event,
    evs (loop_acquire handle g w) = evs (readSensors handle g w) ++ report /\
    forallb summary_event report = true.
Proof.
  unfold loop_acquire. rewrite bind_run, evs_after.
  destruct (val (readSensors handle g w)).
  - eexists. split; [reflexivity|]. unfold print.
    set (g1 := glob _). set (w1 := wld _). clearbody g1 w1.
    rewrite bind_call. destruct (handle float MlxReadObjectTempC w1) as [t w2].
    rewrite bind_call. destruct (handle unit (SerialPrint _) _) as [[] w3].
    rewrite bind_get, bind_call. destruct (handle unit (SerialPrint _) _) as [[] w4].
    rewrite bind_call. destruct (handle unit (SerialPrint _) _) as [[] w5].
    rewrite bind_call. destruct (handle unit (SerialPrint _) _) as [[] w6].
    rewrite bind_call. destruct (handle unit (SerialPrint _) _) as [[] w7].
    rewrite run_call. destruct (handle unit (SerialPrintln _) _) as [[] w8].
    rewrite !evs_after, evs_mk. reflexivity.
  - exists []. split; reflexivity.
Qed.

Lemma loop_transmit_idle (fuel : nat) (currentTime : Z) (g : Globals) (w : W) :
  transmission_due currentTime g = false ->
  loop_transmit handle fuel currentTime g w = mkRes Returned g w [].
Proof.
  unfold transmission_due, loop_transmit. intros E. rewrite bind_get, E. reflexivity.
Qed.

Lemma loop_transmit_due (fuel : nat) (currentTime : Z) (g : Globals) (w : W) :
  transmission_due currentTime g = true ->
  loop_transmit handle fuel currentTime g w =
    sendDataToBackend handle fuel (set_lastDataSend currentTime g) w.
Proof.
  unfold transmission_due, loop_transmit. intros E. rewrite bind_get, E, bind_modify.
  reflexivity.
Qed.

Lemma loop_run (fuel : nat) (g : Globals) (w : W) :
  let t0 := (handle Z Millis w).1 in
  let a := loop_acquire handle g (handle Z Millis w).2 in
  let tx := loop_transmit handle fuel (wrap32 t0) (glob a) (wld a) in
  evs (loop handle fuel g w) =
    Ev Millis t0 :: evs a ++ evs tx ++
      (match val tx with Returned => [Ev (Delay 100) tt] | OutOfFuel => [] end) /\
  val (loop handle fuel g w) = val tx /\
  glob (loop handle fuel g w) = glob tx.
Proof.
  cbv zeta. unfold loop, andThen. rewrite bind_millis, bind_run.
  set (a := loop_acquire handle g _). rewrite bind_run.
  set (tx := loop_transmit handle fuel _ _ _).
  rewrite !evs_after, !val_after, !glob_after.
  destruct (val tx).
  - rewrite bind_call. destruct (handle unit (Delay 100) _) as [[] w1].
    rewrite after_ret. repeat split.
  - rewrite run_ret, ?evs_mk, !app_nil_r. repeat split.
Qed.

(** C10.  A transmission tick that is due and finds no link has already set
    [lastDataSend] to the [currentTime] of the pass: that is the only change
    to the globals, whether or not the reconnection returns, so
    [lastSensorRead], the estimate and the buffers are as before.  The tick
    reads no temperature, opens no connection, serializes no record and makes
    no send attempt.  Until a full interval has passed since that
    [currentTime], a later tick does nothing at all. *)
Theorem link_down_tick_consumes_interval (fuel : nat) (currentTime : Z) (g : Globals) (w : W) :
  transmission_due currentTime g = true ->
  is_connected (handle wl_status_t WifiStatus w).1 = false ->
  glob (loop_transmit handle fuel currentTime g w) = set_lastDataSend currentTime g /\
  lastSensorRead (glob (loop_transmit handle fuel currentTime g w)) = lastSensorRead g /\
  estimate (glob (loop_transmit handle fuel currentTime g w)) = estimate g /\
  count is_temp (evs (loop_transmit handle fuel currentTime g w)) = O /\
  count is_http_begin (evs (loop_transmit handle fuel currentTime g w)) = O /\
  count is_serialize (evs (loop_transmit handle fuel currentTime g w)) = O /\
  count is_post (evs (loop_transmit handle fuel currentTime g w)) = O /\
  (forall (fuel' : nat) (later : Z) (w' : W),
     sub32 later currentTime < DATA_SEND_INTERVAL ->
     loop_transmit handle fuel' later (glob (loop_transmit handle fuel currentTime g w)) w' =
       mkRes Returned (glob (loop_transmit handle fuel currentTime g w)) w' []).
Proof.
  intros Hdue Hdown. rewrite (loop_transmit_due fuel currentTime g w Hdue).
  destruct (sendDataToBackend_reconnect fuel (set_lastDataSend currentTime g) w Hdown)
    as [Hr ->].
  split; [reflexivity|]. split; [reflexivity|]. split; [reflexivity|].
  split; [apply (count_none is_temp reconnect_event); [by_call | exact Hr]|].
  split; [apply (count_none is_http_begin reconnect_event); [by_call | exact Hr]|].
  split; [apply (count_none is_serialize reconnect_event); [by_call | exact Hr]|].
  split; [apply (count_none is_post reconnect_event); [by_call | exact Hr]|].
  intros fuel' later w' Hsoon. apply loop_transmit_idle.
  unfold transmission_due. cbn [lastDataSend set_lastDataSend]. lia.
Qed.

(** *** What a pass shows of the two gates *)

Lemma wrap32_wrap32 (z : Z) : wrap32 (wrap32 z) = wrap32 z.
Proof. unfold wrap32. apply Z.mod_mod. lia. Qed.

Lemma existsb_app_false {A} (p : A -> bool) (l1 l2 : list A) :
  existsb p (l1 ++ l2) = existsb p l1 || existsb p l2.
Proof. apply existsb_app. Qed.

Lemma existsb_none (p q : Event -> bool) (tr : list Event) :
  (forall e, q e = true -> p e = false) ->
  forallb q tr = true -> existsb p tr = false.
Proof.
  intros Hpq Hq. apply existsb_count. eapply count_none; eauto.
Qed.

Lemma readSensors_acquired (g : Globals) (w : W) :
  acquired (evs (readSensors handle g w)) = acquisition_due (handle Z Millis w).1 g.
Proof.
  unfold acquired. destruct (acquisition_due _ g) eqn:E.
  - destruct (readSensors_open g w E) as (_ & -> & _). cbv zeta.
    cbn [existsb is_available orb]. rewrite existsb_app, fill_polls. reflexivity.
  - rewrite (readSensors_closed g w E). reflexivity.
Qed.

Lemma readSensors_clock (g : Globals) (w : W) :
  exists rest : list Z,
    clock_readings (evs (readSensors handle g w)) = (handle Z Millis w).1 :: rest /\
    (acquisition_due (handle Z Millis w).1 g = true ->
     exists (t2 : Z) (rest' : list Z),
       rest = t2 :: rest' /\
       lastSensorRead (glob (readSensors handle g w)) = wrap32 t2) /\
    (acquisition_due (handle Z Millis w).1 g = false ->
     lastSensorRead (glob (readSensors handle g w)) = lastSensorRead g).
Proof.
  unfold clock_readings. destruct (acquisition_due _ g) eqn:E.
  - destruct (readSensors_open g w E) as (_ & -> & -> & _). cbv zeta.
    rewrite (omap_keep clock_of (Ev Millis _) _) by reflexivity.
    rewrite (omap_keep clock_of (Ev Millis _) _) by reflexivity.
    eexists. split; [reflexivity|]. split; [|discriminate]. intros _.
    eexists _, _. split; [reflexivity|].
    match goal with
    | |- context [fill handle 100 0 ?a ?b] =>
        destruct (fill_registers 100 0 a b) as [Hreg _];
        destruct (val (fill handle 100 0 a b))
    end; unfold registers in Hreg;
      cbn [heartRate validHeartRate spo2 validSPO2 lastSensorRead lastDataSend
           set_bufferLength set_lastSensorRead set_estimate] in *; congruence.
  - rewrite (readSensors_closed g w E). eexists. split; [reflexivity|].
    split; [discriminate|]. reflexivity.
Qed.

Lemma sendDataToBackend_checks_link (fuel : nat) (g : Globals) (w : W) :
  exists rest : list Event,
    evs (sendDataToBackend handle fuel g w) =
      Ev WifiStatus (handle wl_status_t WifiStatus w).1 :: rest.
Proof.
  unfold sendDataToBackend. rewrite bind_call, evs_after. eexists. reflexivity.
Qed.

Lemma loop_transmit_observed (fuel : nat) (currentTime : Z) (g : Globals) (w : W) :
  transmitted (evs (loop_transmit handle fuel currentTime g w)) =
    transmission_due currentTime g /\
  forallb transmission_event (evs (loop_transmit handle fuel currentTime g w)) = true /\
  glob (loop_transmit handle fuel currentTime g w) =
    (if transmission_due currentTime g then set_lastDataSend currentTime g else g).
Proof.
  destruct (transmission_due currentTime g) eqn:E.
  - rewrite (loop_transmit_due fuel currentTime g w E).
    destruct (sendDataToBackend_checks_link fuel (set_lastDataSend currentTime g) w)
      as (rest & Hrest).
    split; [unfold transmitted; rewrite Hrest; reflexivity|].
    split; [apply sendDataToBackend_only | apply sendDataToBackend_pure].
  - rewrite (loop_transmit_idle fuel currentTime g w E). repeat split.
Qed.

Lemma loop_acquire_observed (g : Globals) (w : W) :
  exists rest : list Z,
    clock_readings (evs (loop_acquire handle g w)) = (handle Z Millis w).1 :: rest /\
    acquired (evs (loop_acquire handle g w)) = acquisition_due (handle Z Millis w).1 g /\
    transmitted (evs (loop_acquire handle g w)) = false /\
    lastDataSend (glob (loop_acquire handle g w)) = lastDataSend g /\
    (acquisition_due (handle Z Millis w).1 g = true ->
     exists (t2 : Z) (rest' : list Z),
       rest = t2 :: rest' /\
       lastSensorRead (glob (loop_acquire handle g w)) = wrap32 t2) /\
    (acquisition_due (handle Z Millis w).1 g = false ->
     lastSensorRead (glob (loop_acquire handle g w)) = lastSensorRead g).
Proof.
  destruct (loop_acquire_run g w) as (report & -> & Hrep).
  rewrite loop_acquire_glob, readSensors_lastDataSend.
  destruct (readSensors_clock g w) as (rest & Hclock & Hopen & Hclosed).
  unfold clock_readings, acquired, transmitted in *.
  rewrite omap_app, !existsb_app, Hclock.
  rewrite (omap_none clock_of summary_event report ltac:(by_call) Hrep), app_nil_r.
  rewrite (existsb_none is_available summary_event report ltac:(by_call) Hrep), orb_false_r.
  rewrite (existsb_none is_status summary_event report ltac:(by_call) Hrep), orb_false_r.
  rewrite (existsb_none is_status acquisition_event _ ltac:(by_call) (readSensors_only g w)).
  fold (acquired (evs (readSensors handle g w))). rewrite readSensors_acquired.
  exists rest. repeat split; assumption.
Qed.

(** A pass of [loop] as the scheduler sees it: the first uptime read is the
    [currentTime] of the pass, the second is the one the acquisition gate
    compares; the sensor is polled exactly when the acquisition gate is open
    and the link is checked exactly when the transmission gate is open; and
    the two timers move only with their gates. *)
Lemma pass_observed (fuel : nat) (g : Globals) (w : W) :
  let t0 := (handle Z Millis w).1 in
  let t1 := (handle Z Millis (handle Z Millis w).2).1 in
  exists rest : list Z,
    clock_readings (evs (loop handle fuel g w)) = t0 :: t1 :: rest /\
    acquired (evs (loop handle fuel g w)) = acquisition_due t1 g /\
    transmitted (evs (loop handle fuel g w)) = transmission_due (wrap32 t0) g /\
    lastDataSend (glob (loop handle fuel g w)) =
      (if transmission_due (wrap32 t0) g then wrap32 t0 else lastDataSend g) /\
    (acquisition_due t1 g = true ->
     exists (t2 : Z) (rest' : list Z),
       rest = t2 :: rest' /\ lastSensorRead (glob (loop handle fuel g w)) = wrap32 t2) /\
    (acquisition_due t1 g = false ->
     lastSensorRead (glob (loop handle fuel g w)) = lastSensorRead g).
Proof.
  cbv zeta. destruct (loop_run fuel g w) as (-> & _ & ->). cbv zeta.
  set (w0 := (handle Z Millis w).2).
  destruct (loop_acquire_observed g w0) as (rest & Hclock & Hacq & Htx & Hsend & Hopen & Hclosed).
  set (a := loop_acquire handle g w0) in *.
  destruct (loop_transmit_observed fuel (wrap32 (handle Z Millis w).1) (glob a) (wld a))
    as (Htx' & Honly & Hglob).
  set (tx := loop_transmit handle fuel _ _ _) in *.
  assert (transmission_due (wrap32 (handle Z Millis w).1) (glob a) =
          transmission_due (wrap32 (handle Z Millis w).1) g) as Hdue.
  { unfold transmission_due. rewrite Hsend. reflexivity. }
  rewrite Hdue in *. clear Hdue.
  unfold clock_readings, acquired, transmitted in *.
  rewrite (omap_keep clock_of (Ev Millis _) _) by reflexivity.
  rewrite !omap_app, Hclock. cbn [existsb is_available is_status orb].
  rewrite !existsb_app, Hacq, Htx, Htx'.
  rewrite (existsb_none is_available transmission_event (evs tx) ltac:(by_call) Honly).
  exists (rest ++ omap clock_of (evs tx) ++
          omap clock_of (match val tx with Returned => [Ev (Delay 100) tt] | OutOfFuel => [] end)).
  split; [reflexivity|].
  split; [destruct (val tx); cbn [existsb is_available orb]; rewrite ?orb_false_r; reflexivity|].
  split; [destruct (val tx); cbn [existsb is_status orb]; rewrite ?orb_false_r; reflexivity|].
  rewrite Hglob. destruct (transmission_due _ g).
  - cbn [lastDataSend lastSensorRead set_lastDataSend].
    split; [reflexivity|]. split.
    + intros E. destruct (Hopen E) as (t2 & rest' & -> & Hl). eauto.
    + exact Hclosed.
  - split; [exact Hsend|]. split.
    + intros E. destruct (Hopen E) as (t2 & rest' & -> & Hl). eauto.
    + exact Hclosed.
Qed.

(** *** Passes *)

Lemma elapsed_at_least (T t d : Z) :
  T <= t -> d <= sub32 (wrap32 t) (wrap32 T) -> d <= t - T.
Proof.
  unfold sub32, wrap32. intros Hle Hd. rewrite <- Zminus_mod in Hd.
  pose proof (Z.mod_le (t - T) (2 ^ 32)). lia.
Qed.

Lemma nondecreasing_cons (a : Z) (l : list Z) :
  nondecreasing (a :: l) = true <-> Forall (fun b => a <= b) l /\ nondecreasing l = true.
Proof.
  cbn [nondecreasing]. rewrite andb_true_iff, forallb_forall, Forall_forall.
  split; intros [H1 H2]; (split; [|exact H2]); intros b Hb.
  - apply Z.leb_le, H1, list_elem_of_In, Hb.
  - apply Z.leb_le, H1, list_elem_of_In, Hb.
Qed.

Lemma nondecreasing_app (l1 l2 : list Z) :
  nondecreasing (l1 ++ l2) = true -> nondecreasing l2 = true.
Proof.
  induction l1 as [|a l1 IH]; [auto|]. cbn [app]. intros [_ H]%nondecreasing_cons. auto.
Qed.

Lemma nondecreasing_skip (a : Z) (l1 l2 : list Z) :
  nondecreasing (a :: l1 ++ l2) = true -> nondecreasing (a :: l2) = true.
Proof.
  intros [Ha Hl]%nondecreasing_cons. apply nondecreasing_cons. split.
  - apply Forall_app in Ha. tauto.
  - eapply nondecreasing_app, Hl.
Qed.

Lemma nondecreasing_head (a b : Z) (l : list Z) :
  nondecreasing (a :: b :: l) = true -> a <= b /\ nondecreasing (b :: l) = true.
Proof.
  intros [Ha Hl]%nondecreasing_cons. apply Forall_cons in Ha. tauto.
Qed.

Lemma clock_readings_app (a b : list Event) :
  clock_readings (a ++ b) = clock_readings a ++ clock_readings b.
Proof. apply omap_app. Qed.

Lemma passes_S (fuel n : nat) (g : Globals) (w : W) :
  (passes handle fuel (S n) g w).1.1 =
    evs (loop handle fuel g w) ::
    match val (loop handle fuel g w) with
    | Returned => (passes handle fuel n (glob (loop handle fuel g w))
                     (wld (loop handle fuel g w))).1.1
    | OutOfFuel => []
    end.
Proof.
  cbn [passes]. destruct (val (loop handle fuel g w)); [|reflexivity].
  destruct (passes handle fuel n _ _) as [[rest g'] w']. reflexivity.
Qed.

(** The logs of the passes after the first one. *)
Lemma passes_later (fuel n : nat) (g : Globals) (w : W) :
  exists later : list (list Event),
    (passes handle fuel (S n) g w).1.1 = evs (loop handle fuel g w) :: later /\
    (later = [] \/
     later = (passes handle fuel n (glob (loop handle fuel g w))
                (wld (loop handle fuel g w))).1.1).
Proof.
  rewrite passes_S. destruct (val _); eauto.
Qed.

(** After a transmission stamped [T], every transmission of the following
    passes is stamped at least an interval later. *)
Lemma transmission_after (fuel n : nat) (g : Globals) (w : W) (T : Z) (p : list Event) :
  lastDataSend g = wrap32 T ->
  nondecreasing (T :: clock_readings (concat (passes handle fuel n g w).1.1)) = true ->
  In p (passes handle fuel n g w).1.1 ->
  transmitted p = true ->
  exists t : Z, pass_time p = Some t /\ T + DATA_SEND_INTERVAL <= t.
Proof.
  revert g w T. induction n as [|n IH]; intros g w T Hlast Hnd Hin Htx; [destruct Hin|].
  destruct (passes_later fuel n g w) as (later & Hlogs & Hlater).
  rewrite Hlogs in Hnd, Hin. clear Hlogs.
  destruct (pass_observed fuel g w) as (rest & Hclock & _ & Hdue & Hsend & _).
  cbv zeta in *. cbn [concat] in Hnd. rewrite clock_readings_app, Hclock in Hnd.
  set (t0 := (handle Z Millis w).1) in *.
  cbn [app] in Hnd. apply nondecreasing_head in Hnd as [HT Hnd].
  destruct Hin as [<-|Hin].
  - exists t0. split; [unfold pass_time; rewrite Hclock; reflexivity|].
    rewrite Hdue in Htx. unfold transmission_due in Htx. rewrite Hlast in Htx.
    apply Z.leb_le in Htx.
    pose proof (elapsed_at_least T t0 DATA_SEND_INTERVAL HT Htx). lia.
  - destruct Hlater as [->| ->]; [destruct Hin|].
    apply (nondecreasing_skip t0 ((handle Z Millis (handle Z Millis w).2).1 :: rest)) in Hnd.
    destruct (transmission_due (wrap32 t0) g).
    + destruct (IH _ _ t0 Hsend Hnd Hin Htx) as (t & Ht & Hle).
      exists t. split; [exact Ht | lia].
    + rewrite Hlast in Hsend.
      assert (nondecreasing (T :: clock_readings
                (concat (passes handle fuel n (glob (loop handle fuel g w))
                           (wld (loop handle fuel g w))).1.1)) = true) as Hnd'.
      { apply nondecreasing_cons in Hnd as [Hall Hnd]. apply nondecreasing_cons.
        split; [|exact Hnd]. eapply Forall_impl; [exact Hall|]. cbn. lia. }
      exact (IH _ _ T Hsend Hnd' Hin Htx).
Qed.

(** After an acquisition that set [lastSensorRead] at uptime [T], every
    acquisition of the following passes passes its gate at least an interval
    later. *)
Lemma acquisition_after (fuel n : nat) (g : Globals) (w : W) (T : Z) (p : list Event) :
  lastSensorRead g = wrap32 T ->
  nondecreasing (T :: clock_readings (concat (passes handle fuel n g w).1.1)) = true ->
  In p (passes handle fuel n g w).1.1 ->
  acquired p = true ->
  exists t : Z, gate_time p = Some t /\ T + SENSOR_READ_INTERVAL <= t.
Proof.
  revert g w T. induction n as [|n IH]; intros g w T Hlast Hnd Hin Hacq; [destruct Hin|].
  destruct (passes_later fuel n g w) as (later & Hlogs & Hlater).
  rewrite Hlogs in Hnd, Hin. clear Hlogs.
  destruct (pass_observed fuel g w) as (rest & Hclock & Hdue & _ & _ & Hopen & Hclosed).
  cbv zeta in *. cbn [concat] in Hnd. rewrite clock_readings_app, Hclock in Hnd.
  set (t0 := (handle Z Millis w).1) in *.
  set (t1 := (handle Z Millis (handle Z Millis w).2).1) in *.
  cbn [app] in Hnd. apply nondecreasing_head in Hnd as [HT0 Hnd].
  apply nondecreasing_head in Hnd as [HT1 Hnd].
  destruct Hin as [<-|Hin].
  - exists t1. split; [unfold gate_time; rewrite Hclock; reflexivity|].
    rewrite Hdue in Hacq. unfold acquisition_due in Hacq. rewrite Hlast in Hacq.
    apply negb_true_iff, Z.ltb_ge in Hacq.
    assert (T <= t1) as HT by lia.
    pose proof (elapsed_at_least T t1 SENSOR_READ_INTERVAL HT Hacq). lia.
  - destruct Hlater as [->| ->]; [destruct Hin|].
    destruct (acquisition_due t1 g).
    + destruct Hopen as (t2 & rest' & -> & Hl); [reflexivity|].
      cbn [app] in Hnd. apply nondecreasing_head in Hnd as [HT2 Hnd].
      apply (nondecreasing_skip t2 rest') in Hnd.
      destruct (IH _ _ t2 Hl Hnd Hin Hacq) as (t & Ht & Hle).
      exists t. split; [exact Ht | lia].
    + specialize (Hclosed eq_refl). rewrite Hlast in Hclosed.
      apply (nondecreasing_skip t1 rest) in Hnd.
      assert (nondecreasing (T :: clock_readings
                (concat (passes handle fuel n (glob (loop handle fuel g w))
                           (wld (loop handle fuel g w))).1.1)) = true) as Hnd'.
      { apply nondecreasing_cons in Hnd as [Hall Hnd]. apply nondecreasing_cons.
        split; [|exact Hnd]. eapply Forall_impl; [exact Hall|]. cbn. lia. }
      exact (IH _ _ T Hclosed Hnd' Hin Hacq).
Qed.

(** C3, as the code has it.  Over any number of passes of [loop], with an
    uptime clock that never goes back: two passes in which the transmission
    tick ran have [currentTime] stamps (the uptime at the start of the pass,
    against which the gate compares) at least 1000 ms apart, and two passes
    in which the acquisition ran passed the acquisition gate at uptimes at
    least 2000 ms apart, whatever the number of passes in between and
    however close the passes are to each other. *)
Theorem cycles_rate_limited (fuel n : nat) (g : Globals) (w : W) :
  nondecreasing (clock_readings (concat (passes handle fuel n g w).1.1)) = true ->
  forall (i j : nat) (pi pj : list Event),
    (i < j)%nat ->
    (passes handle fuel n g w).1.1 !! i = Some pi ->
    (passes handle fuel n g w).1.1 !! j = Some pj ->
    (transmitted pi = true -> transmitted pj = true ->
     exists ti tj : Z,
       pass_time pi = Some ti /\ pass_time pj = Some tj /\
       ti + DATA_SEND_INTERVAL <= tj) /\
    (acquired pi = true -> acquired pj = true ->
     exists ti tj : Z,
       gate_time pi = Some ti /\ gate_time pj = Some tj /\
       ti + SENSOR_READ_INTERVAL <= tj).
Proof.
  revert g w. induction n as [|n IH]; intros g w Hnd i j pi pj Hij Hi Hj; [discriminate|].
  destruct (passes_later fuel n g w) as (later & Hlogs & Hlater).
  rewrite Hlogs in Hnd, Hi, Hj. clear Hlogs.
  destruct j as [|j]; [lia|]. rewrite lookup_cons in Hj.
  assert (later = (passes handle fuel n (glob (loop handle fuel g w))
                     (wld (loop handle fuel g w))).1.1) as ->.
  { destruct Hlater as [->|]; [discriminate | assumption]. }
  cbn [concat] in Hnd. rewrite clock_readings_app in Hnd.
  destruct i as [|i]; cycle 1.
  { rewrite lookup_cons in Hi. apply nondecreasing_app in Hnd.
    exact (IH _ _ Hnd i j pi pj ltac:(lia) Hi Hj). }
  rewrite lookup_cons in Hi.
  assert (pi = evs (loop handle fuel g w)) as -> by congruence. clear Hi.
  apply list_elem_of_lookup_2, list_elem_of_In in Hj.
  destruct (pass_observed fuel g w) as (rest & Hclock & Hacq & Hdue & Hsend & Hopen & _).
  cbv zeta in *. rewrite Hclock in Hnd.
  set (t0 := (handle Z Millis w).1) in *.
  set (t1 := (handle Z Millis (handle Z Millis w).2).1) in *.
  cbn [app] in Hnd. split.
  - intros Hti Htj. rewrite Hdue in Hti. rewrite Hti in Hsend.
    apply (nondecreasing_skip t0 (t1 :: rest)) in Hnd.
    destruct (transmission_after fuel n _ _ t0 pj Hsend Hnd Hj Htj) as (tj & Hpj & Hle).
    exists t0, tj. split; [unfold pass_time; rewrite Hclock; reflexivity|]. auto.
  - intros Hai Haj. rewrite Hacq in Hai.
    destruct (Hopen Hai) as (t2 & rest' & -> & Hl).
    apply nondecreasing_head in Hnd as [_ Hnd]. cbn [app] in Hnd.
    apply nondecreasing_head in Hnd as [H12 Hnd].
    apply (nondecreasing_skip t2 rest') in Hnd.
    destruct (acquisition_after fuel n _ _ t2 pj Hl Hnd Hj Haj) as (tj & Hpj & Hle).
    exists t1, tj. split; [unfold gate_time; rewrite Hclock; reflexivity|].
    split; [exact Hpj | lia].
Qed.

(** *** Before the first estimate *)

Lemma keeps_pure {A B} (f : Globals -> B) (m : M W A) : pure m -> keeps f m.
Proof. intros H g w. rewrite H. reflexivity. Qed.

Lemma keeps_modify {B} (f : Globals -> B) (h : Globals -> Globals) :
  (forall g, f (h g) = f g) -> keeps f (modify (W:=W) h).
Proof. intros H g w. apply H. Qed.

Lemma keeps_bind {A B C} (f : Globals -> C) (m : M W A) (k : A -> M W B) :
  keeps f m -> (forall a, keeps f (k a)) -> keeps f (bind m k).
Proof. intros Hm Hk g w. rewrite bind_run, glob_after, Hk, Hm. reflexivity. Qed.

Lemma keeps_andThen {C} (f : Globals -> C) (m k : M W Outcome) :
  keeps f m -> keeps f k -> keeps f (andThen m k).
Proof.
  intros Hm Hk. apply keeps_bind; [exact Hm|].
  intros [|]; [exact Hk | apply keeps_pure, pure_ret].
Qed.

Lemma retry_begin_pure (fuel : nat) (begin : Call bool) (retrying ready : string) :
  pure (retry_begin handle fuel begin retrying ready).
Proof. induction fuel as [|f IH]; cbn [retry_begin]; unfold println; pure_go. Qed.

Lemma retry_begin_only (q : Event -> bool) (fuel : nat) (begin : Call bool)
    (retrying ready : string) :
  (forall e, serial_event e = true -> q e = true) ->
  (forall ms x, q (Ev (Delay ms) x) = true) ->
  (forall x, q (Ev begin x) = true) ->
  only q (retry_begin handle fuel begin retrying ready).
Proof.
  intros Hs Hd Hb. induction fuel as [|f IH]; cbn [retry_begin]; unfold println.
  - apply only_ret.
  - apply only_bind; [apply only_call, Hd|]. intros _.
    apply only_bind; [apply only_call; intros; apply Hs; reflexivity|]. intros _.
    apply only_bind; [apply only_call, Hb|]. intros [|]; [|exact IH].
    apply only_bind; [apply only_call; intros; apply Hs; reflexivity|]. intros _.
    apply only_ret.
Qed.

Lemma keeps_call {X B} (f : Globals -> B) (c : Call X) : keeps f (call handle c).
Proof. intros g w. reflexivity. Qed.

Lemma keeps_ret {A B} (f : Globals -> B) (a : A) : keeps f (ret (W:=W) a).
Proof. intros g w. reflexivity. Qed.

Ltac keeps_step :=
  lazymatch goal with
  | |- keeps _ (ret _) => apply keeps_ret
  | |- keeps _ (call _ _) => apply keeps_call
  | |- keeps _ (modify _) => apply keeps_modify; reflexivity
  | |- keeps _ (andThen _ _) => apply keeps_andThen
  | |- keeps _ (bind _ _) => apply keeps_bind; [|intros ?]
  | |- keeps _ (connectWiFi _ _) => apply keeps_pure, connectWiFi_pure
  | |- keeps _ (retry_begin _ _ _ _ _) => apply keeps_pure, retry_begin_pure
  | |- keeps _ (if ?b then _ else _) => destruct b
  end.

(** [setup] leaves the estimate alone. *)
Lemma setup_estimate (fuel : nat) : keeps estimate (setup handle fuel).
Proof. unfold setup, println. repeat keeps_step. Qed.

Lemma setup_only (fuel : nat) : only plain_event (setup handle fuel).
Proof.
  unfold setup, println. only_go.
  - eapply only_weaken; [|apply connectWiFi_only]. by_call.
  - apply retry_begin_only; [by_call | reflexivity | reflexivity].
  - apply retry_begin_only; [by_call | reflexivity | reflexivity].
Qed.

Lemma before_estimate_app (a b : list Event) :
  records_before_estimate (a ++ b) =
    records_before_estimate a ++
    (if existsb is_maxim a then [] else records_before_estimate b).
Proof.
  induction a as [|e a IH]; [reflexivity|]. cbn [app records_before_estimate existsb].
  destruct (is_maxim e); [reflexivity|]. cbn [orb].
  destruct (record_of e); rewrite IH; reflexivity.
Qed.

Lemma before_estimate_records (tr : list Event) (d : JsonDocument * string) :
  In d (records_before_estimate tr) -> In d (records tr).
Proof.
  induction tr as [|e tr IH]; [auto|]. cbn [records_before_estimate]. unfold records.
  cbn [omap list_omap]. fold (omap record_of tr). fold (records tr).
  destruct (is_maxim e); [intros []|].
  destruct (record_of e); [intros [->|H]; [left; reflexivity | right; auto] | auto].
Qed.

Lemma before_estimate_none (q : Event -> bool) (tr : list Event) :
  (forall e, q e = true -> record_of e = None) ->
  forallb q tr = true -> records_before_estimate tr = [].
Proof.
  intros Hq. induction tr as [|e tr IH]; [reflexivity|]. cbn [forallb records_before_estimate].
  intros [He Htr]%andb_prop. rewrite (Hq e He), (IH Htr). destruct (is_maxim e); reflexivity.
Qed.

(** Without an estimate every record of a transmission tick reports zeros. *)
Lemma records_zero (fuel : nat) (g : Globals) (w : W) :
  no_estimate g ->
  Forall (fun d => reports_zero d.1) (records (evs (sendDataToBackend handle fuel g w))).
Proof.
  intros [Hh Hs]. destruct (is_connected (handle wl_status_t WifiStatus w).1) eqn:E.
  - destruct (sendDataToBackend_delivery fuel g w E) as (temp & ts & p & w1 & -> & _).
    apply Forall_cons. split; [|apply Forall_nil; exact I].
    rewrite build_doc_fields. unfold reports_zero, reported. rewrite Hh, Hs. split; reflexivity.
  - destruct (sendDataToBackend_reconnect fuel g w E) as [Hr _].
    unfold records. rewrite (omap_none record_of reconnect_event _ ltac:(by_call) Hr).
    apply Forall_nil. exact I.
Qed.

Lemma readSensors_no_estimate (g : Globals) (w : W) :
  existsb is_maxim (evs (readSensors handle g w)) = false ->
  estimate (glob (readSensors handle g w)) = estimate g.
Proof.
  destruct (acquisition_due (handle Z Millis w).1 g) eqn:E.
  - destruct (readSensors_open g w E) as (_ & -> & -> & _). cbv zeta.
    cbn [existsb is_maxim orb]. rewrite existsb_app.
    match goal with
    | |- context [fill handle 100 0 ?a ?b] =>
        destruct (fill_registers 100 0 a b) as [Hreg _];
        destruct (val (fill handle 100 0 a b))
    end.
    + cbn [existsb is_maxim orb]. rewrite orb_true_r. discriminate.
    + intros _. unfold registers, estimate in *.
      cbn [heartRate validHeartRate spo2 validSPO2 lastSensorRead lastDataSend
           set_bufferLength set_lastSensorRead] in Hreg. congruence.
  - rewrite (readSensors_closed g w E). reflexivity.
Qed.

Lemma classic_no_estimate (g : Globals) : no_estimate g \/ ~ no_estimate g.
Proof.
  unfold no_estimate.
  destruct (Z.eq_dec (validHeartRate g) 0), (Z.eq_dec (validSPO2 g) 0); tauto.
Qed.

Lemma no_estimate_estimate (g g' : Globals) :
  estimate g' = estimate g -> no_estimate g -> no_estimate g'.
Proof. unfold estimate, no_estimate. intros H [H1 H2]. injection H as _ -> _ ->. auto. Qed.

(** A pass that starts without an estimate: every record serialized before
    the estimator is called reports zeros, and when the estimator is not
    called in the pass there is still no estimate after it. *)
Lemma pass_before_estimate (fuel : nat) (g : Globals) (w : W) :
  no_estimate g ->
  Forall (fun d => reports_zero d.1) (records_before_estimate (evs (loop handle fuel g w))) /\
  (existsb is_maxim (evs (loop handle fuel g w)) = false ->
   no_estimate (glob (loop handle fuel g w))).
Proof.
  intros Hno. destruct (loop_run fuel g w) as (-> & _ & ->). cbv zeta.
  set (w0 := (handle Z Millis w).2).
  destruct (loop_acquire_run g w0) as (report & Ha & Hrep).
  pose proof (loop_acquire_glob g w0) as Hg.
  set (a := loop_acquire handle g w0) in *.
  set (ct := wrap32 (handle Z Millis w).1).
  destruct (loop_transmit_observed fuel ct (glob a) (wld a)) as (_ & Honly & Hglob).
  assert (Forall (fun d => reports_zero d.1)
            (records (evs (loop_transmit handle fuel ct (glob a) (wld a)))) \/
          ~ no_estimate (glob a)) as Hrec.
  { destruct (classic_no_estimate (glob a)) as [Hn|Hn]; [left | right; exact Hn].
    destruct (transmission_due ct (glob a)) eqn:E.
    - rewrite (loop_transmit_due fuel ct (glob a) (wld a) E).
      apply records_zero. destruct Hn. split; assumption.
    - rewrite (loop_transmit_idle fuel ct (glob a) (wld a) E). apply Forall_nil. exact I. }
  set (tx := loop_transmit handle fuel ct (glob a) (wld a)) in *.
  assert (records_before_estimate (evs a) = []) as Hnone.
  { rewrite Ha, before_estimate_app.
    rewrite (before_estimate_none acquisition_event (evs (readSensors handle g w0))
               ltac:(by_call) (readSensors_only g w0)).
    rewrite (before_estimate_none summary_event report ltac:(by_call) Hrep).
    destruct (existsb _ _); reflexivity. }
  assert (existsb is_maxim (evs a) = false -> no_estimate (glob a)) as Hkeep.
  { rewrite Ha, existsb_app, Hg. intros [H _]%orb_false_elim.
    eapply no_estimate_estimate; [apply readSensors_no_estimate, H | exact Hno]. }
  change (Ev Millis ?t :: ?l) with ([Ev Millis t] ++ l).
  rewrite !before_estimate_app, !existsb_app, Hnone.
  cbn [records_before_estimate existsb is_maxim record_of orb app].
  split.
  - destruct (existsb is_maxim (evs a)) eqn:Ea; [apply Forall_nil; exact I|].
    apply Forall_app. split.
    + destruct Hrec as [Hrec|Hn]; [|destruct (Hn (Hkeep eq_refl))].
      rewrite Forall_forall in *. intros d Hd%list_elem_of_In.
      apply Hrec, list_elem_of_In, before_estimate_records, Hd.
    + destruct (existsb is_maxim (evs tx)); [apply Forall_nil; exact I|].
      destruct (val tx); apply Forall_nil; exact I.
  - intros [Ea _]%orb_false_elim. rewrite Hglob.
    destruct (transmission_due ct (glob a)); [|exact (Hkeep Ea)].
    eapply no_estimate_estimate; [|exact (Hkeep Ea)]. reflexivity.
Qed.

Lemma passes_before_estimate (fuel n : nat) (g : Globals) (w : W) :
  no_estimate g ->
  Forall (fun d => reports_zero d.1)
    (records_before_estimate (concat (passes handle fuel n g w).1.1)).
Proof.
  revert g w. induction n as [|n IH]; intros g w Hno; [apply Forall_nil; exact I|].
  destruct (passes_later fuel n g w) as (later & -> & Hlater).
  destruct (pass_before_estimate fuel g w Hno) as [Hpass Hkeep].
  cbn [concat]. rewrite before_estimate_app. apply Forall_app. split; [exact Hpass|].
  destruct (existsb is_maxim (evs (loop handle fuel g w))); [apply Forall_nil; exact I|].
  destruct Hlater as [->| ->]; [apply Forall_nil; exact I|].
  apply IH, Hkeep. reflexivity.
Qed.

(** C9.  From power-on ([setup] over the zero-initialised globals, then any
    number of passes of [loop]), every record serialized before the estimator
    is called for the first time, that is before an acquisition completes,
    reports [heart_rate] 0 and [spo2] 0. *)
Theorem records_before_first_estimate (fuel n : nat) (w : W)
    (doc : JsonDocument) (text : string) :
  In (doc, text) (records_before_estimate (power_on handle fuel n w)) ->
  json_get "heart_rate" doc = Some (JInt 0) /\ json_get "spo2" doc = Some (JInt 0).
Proof.
  unfold power_on. intros Hin.
  pose proof (setup_only fuel boot_globals w) as Hs.
  pose proof (setup_estimate fuel boot_globals w) as He.
  assert (records_before_estimate (evs (setup handle fuel boot_globals w)) = []) as Hnone.
  { apply (before_estimate_none plain_event); [|exact Hs].
    intros [X c x]; destruct c; done. }
  assert (existsb is_maxim (evs (setup handle fuel boot_globals w)) = false) as Hquiet.
  { apply (existsb_none is_maxim plain_event); [|exact Hs].
    intros [X c x]; destruct c; done. }
  destruct (val (setup handle fuel boot_globals w)).
  - rewrite before_estimate_app, Hnone, Hquiet in Hin. cbn [app] in Hin.
    pose proof (passes_before_estimate fuel n (glob (setup handle fuel boot_globals w))
                  (wld (setup handle fuel boot_globals w))) as Hall.
    rewrite Forall_forall in Hall.
    apply (Hall ltac:(eapply no_estimate_estimate; [exact He | split; reflexivity])
             (doc, text)), list_elem_of_In, Hin.
  - rewrite Hnone in Hin. destruct Hin.
Qed.

(** ** Further properties *)

(** *** connectWiFi, one candidate after the other *)

Lemma await_link_waits (fuel : nat) (startAttempt : Z) :
  only wait_event (await_link handle fuel startAttempt).
Proof.
  induction fuel as [|f IH]; cbn [await_link]; unfold print, millis; only_go.
Qed.

(** One candidate: the announcement, [WiFi.begin], the wait, the test of the
    link after it, and then either the report and [configTime], or the next
    candidates. *)
Lemma try_networks_round (fuel : nat) (ssid pass : string) (rest : list (string * string))
    (g : Globals) (w : W) :
  exists (w0 w2 : W) (report : list Event),
    let t := (handle Z Millis w0).1 in
    let a := await_link handle fuel (wrap32 t) g (handle Z Millis w0).2 in
    let s := (handle wl_status_t WifiStatus (wld a)).1 in
    forallb announce_event report = true /\
    evs (try_networks handle fuel ((ssid, pass) :: rest) g w) =
      [Ev (SerialPrint (PStr "Conectando a WiFi: "%string)) tt;
       Ev (SerialPrintln (PStr ssid)) tt;
       Ev (WifiBegin ssid pass) tt;
       Ev Millis t]
      ++ evs a
      ++ match val a with
         | OutOfFuel => []
         | Returned =>
             Ev WifiStatus s ::
             (if is_connected s
              then report ++ [Ev (ConfigTime 0 0 "pool.ntp.org") tt]
              else Ev (SerialPrintln
                         (PStr (newline +:+ "No se pudo conectar, intentando siguiente..."))) tt
                   :: evs (try_networks handle fuel rest g w2))
         end /\
    val (try_networks handle fuel ((ssid, pass) :: rest) g w) =
      match val a with
      | OutOfFuel => OutOfFuel
      | Returned =>
          if is_connected s then Returned
          else val (try_networks handle fuel rest g w2)
      end.
Proof.
  cbn [try_networks]. unfold print, println, andThen.
  rewrite bind_call. destruct (handle unit (SerialPrint _) w) as [[] wa]. cbn [fst snd].
  rewrite bind_call. destruct (handle unit (SerialPrintln _) wa) as [[] wb]. cbn [fst snd].
  rewrite bind_call. destruct (handle unit (WifiBegin _ _) wb) as [[] w0]. cbn [fst snd].
  rewrite bind_millis. exists w0. cbv zeta.
  rewrite bind_run.
  pose proof (await_link_pure fuel (wrap32 (handle Z Millis w0).1) g (handle Z Millis w0).2)
    as Hg.
  destruct (await_link handle fuel (wrap32 (handle Z Millis w0).1) g (handle Z Millis w0).2)
    as [o g' w1 tr].
  cbn [val glob wld evs] in *. subst g'.
  destruct o.
  - rewrite bind_call. destruct (handle wl_status_t WifiStatus w1) as [s w2]. cbn [fst snd].
    destruct (is_connected s).
    + rewrite bind_call. destruct (handle unit (SerialPrintln _) w2) as [[] w3]. cbn [fst snd].
      rewrite bind_call. destruct (handle unit (SerialPrint _) w3) as [[] w4]. cbn [fst snd].
      rewrite bind_call. destruct (handle unit (SerialPrintln _) w4) as [[] w5]. cbn [fst snd].
      rewrite bind_call. destruct (handle unit (SerialPrint _) w5) as [[] w6]. cbn [fst snd].
      rewrite bind_call. destruct (handle Z WifiLocalIP w6) as [ip w7]. cbn [fst snd].
      rewrite bind_call. destruct (handle unit (SerialPrintln _) w7) as [[] w8]. cbn [fst snd].
      rewrite bind_call. destruct (handle unit (ConfigTime _ _ _) w8) as [[] w9]. cbn [fst snd].
      rewrite !after_after, after_ret, ?val_mk, ?evs_mk.
      exists w0,
        [Ev (SerialPrintln (PStr (newline +:+ "WiFi conectado!"))) tt;
         Ev (SerialPrint (PStr "SSID: ")) tt;
         Ev (SerialPrintln (PStr ssid)) tt;
         Ev (SerialPrint (PStr "IP del ESP32: ")) tt;
         Ev WifiLocalIP ip;
         Ev (SerialPrintln (PIp ip)) tt].
      split; [reflexivity|]. split; [|reflexivity].
      cbn [app]. rewrite <- ?app_assoc, ?app_nil_r. reflexivity.
    + rewrite bind_call. destruct (handle unit (SerialPrintln _) w2) as [[] w3]. cbn [fst snd].
      rewrite !after_after, !evs_after, !val_after.
      exists w3, []. split; [reflexivity|]. split; [|reflexivity].
      cbn [app]. rewrite <- ?app_assoc, ?app_nil_r. reflexivity.
  - rewrite !after_after, after_ret, ?val_mk, ?evs_mk.
    exists w0, []. split; [reflexivity|]. split; [|reflexivity].
    cbn [app]. rewrite <- ?app_assoc, ?app_nil_r. reflexivity.
Qed.

Lemma wait_event_quiet {A} (f : Event -> option A) (fuel : nat) (startAttempt : Z)
    (g : Globals) (w : W) :
  (forall e, wait_event e = true -> f e = None) ->
  omap f (evs (await_link handle fuel startAttempt g w)) = [].
Proof. intros H. eapply omap_none; [exact H | apply await_link_waits]. Qed.

Lemma wait_event_count (p : Event -> bool) (fuel : nat) (startAttempt : Z)
    (g : Globals) (w : W) :
  (forall e, wait_event e = true -> p e = false) ->
  count p (evs (await_link handle fuel startAttempt g w)) = O.
Proof. intros H. eapply count_none; [exact H | apply await_link_waits]. Qed.

Lemma last_app_cons {A} (l1 l2 : list A) (x : A) :
  last (l1 ++ x :: l2) = last (x :: l2).
Proof.
  rewrite last_app. destruct (last (x :: l2)) eqn:E; [reflexivity|].
  apply last_None in E. discriminate.
Qed.

Lemma last_cons_some {A} (l : list A) (x y : A) :
  last l = Some y -> last (x :: l) = Some y.
Proof. destruct l; [discriminate|]. auto. Qed.

Lemma try_networks_trace (fuel : nat) (cands : list (string * string)) (g : Globals) (w : W) :
  (exists k : nat,
     (k <= length cands)%nat /\ (k = O -> cands = []) /\
     wifi_begins (evs (try_networks handle fuel cands g w)) = take k cands) /\
  match val (try_networks handle fuel cands g w) with
  | OutOfFuel => count is_config_time (evs (try_networks handle fuel cands g w)) = O
  | Returned =>
      (count is_config_time (evs (try_networks handle fuel cands g w)) = 1%nat /\
       last (evs (try_networks handle fuel cands g w)) =
         Some (Ev (ConfigTime 0 0 "pool.ntp.org") tt) /\
       last (status_answers (evs (try_networks handle fuel cands g w))) = Some WL_CONNECTED)
      \/
      (count is_config_time (evs (try_networks handle fuel cands g w)) = O /\
       last (evs (try_networks handle fuel cands g w)) =
         Some (Ev (SerialPrintln (PStr "No se pudo conectar a ninguna red WiFi.")) tt) /\
       wifi_begins (evs (try_networks handle fuel cands g w)) = cands)
  end.
Proof.
  revert w. induction cands as [|[ssid pass] rest IH]; intros w.
  { cbn [try_networks]. unfold println. rewrite bind_call.
    destruct (handle unit (SerialPrintln _) w) as [[] w1]. cbn [fst snd].
    rewrite after_ret, val_mk, evs_mk. split.
    - exists O. cbn [length]. split; [lia|]. split; reflexivity.
    - right. split; [reflexivity|]. split; reflexivity. }
  destruct (try_networks_round fuel ssid pass rest g w)
    as (w0 & w2 & report & Hrep & -> & ->). cbv zeta.
  set (t := (handle Z Millis w0).1).
  set (a := await_link handle fuel (wrap32 t) g (handle Z Millis w0).2).
  set (s := (handle wl_status_t WifiStatus (wld a)).1).
  set (head := [Ev (SerialPrint (PStr "Conectando a WiFi: ")) tt;
                Ev (SerialPrintln (PStr ssid)) tt; Ev (WifiBegin ssid pass) tt;
                Ev Millis t]).
  assert (wifi_begins head = [(ssid, pass)]) as Hhb by reflexivity.
  assert (count is_config_time head = O) as Hhc by reflexivity.
  assert (status_answers head = []) as Hhs by reflexivity.
  assert (wifi_begins (evs a) = []) as Hab by (apply wait_event_quiet; by_call).
  assert (count is_config_time (evs a) = O) as Hac by (apply wait_event_count; by_call).
  assert (wifi_begins report = [] /\ count is_config_time report = O
          /\ status_answers report = []) as (Hrb & Hrc & Hrs).
  { repeat split.
    - eapply omap_none; [|exact Hrep]. by_call.
    - eapply count_none; [|exact Hrep]. by_call.
    - eapply omap_none; [|exact Hrep]. by_call. }
  clearbody head. unfold wifi_begins, status_answers in *.
  rewrite !omap_app, !count_app, Hhb, Hhc, Hhs, Hab, Hac.
  destruct (val a).
  - rewrite (omap_skip begin_of (Ev WifiStatus s)), (omap_keep status_of (Ev WifiStatus s) s)
      by reflexivity.
    cbn [count is_config_time Nat.add app].
    destruct (is_connected s) eqn:Es.
    + rewrite !omap_app, !count_app, Hrb, Hrc, Hrs. split.
      * exists 1%nat. cbn [length]. repeat split; [lia | discriminate].
      * left. split; [reflexivity|]. split.
        -- rewrite !app_assoc. change (?l ++ [?x]) with (l ++ [x]).
           rewrite app_comm_cons, !app_assoc. apply last_snoc.
        -- change (omap status_of [Ev (ConfigTime 0 0 "pool.ntp.org") tt]) with
             (@nil wl_status_t).
           cbn [app]. rewrite last_snoc. destruct s; try discriminate. reflexivity.
    + rewrite (omap_skip begin_of (Ev (SerialPrintln _) tt)),
        (omap_skip status_of (Ev (SerialPrintln _) tt)) by reflexivity.
      cbn [count is_config_time Nat.add].
      destruct (IH w2) as [(k & Hk & Hk0 & Hb) Hv]. split.
      * exists (S k). cbn [length take]. rewrite Hb.
        repeat split; [lia | discriminate].
      * destruct (val (try_networks handle fuel rest g w2)); [|exact Hv].
        destruct Hv as [(Hc & Hl & Hs) | (Hc & Hl & Hb')]; [left | right].
        -- split; [exact Hc|]. split.
           ++ rewrite app_assoc, last_app_cons.
              apply last_cons_some, last_cons_some, Hl.
           ++ rewrite last_app_cons. apply last_cons_some. fold status_answers.
              unfold status_answers. exact Hs.
        -- split; [exact Hc|]. split.
           ++ rewrite app_assoc, last_app_cons.
              apply last_cons_some, last_cons_some, Hl.
           ++ rewrite Hb'. reflexivity.
  - rewrite omap_empty. split.
    + exists 1%nat. cbn [length]. repeat split; [lia | discriminate].
    + reflexivity.
Qed.

(** X1.  [connectWiFi] calls [WiFi.begin] on the candidates in the order of the
    lists, on the first one always and on a later one only after the ones
    before it; when it returns it has either found the link up after a
    wait, called [configTime] once, as its last call, and stopped going
    through the list, or tried all three candidates, never called
    [configTime] and ended on the line that says no network could be
    joined. *)
Theorem connectWiFi_candidates (fuel : nat) (g : Globals) (w : W) :
  (exists k : nat,
     (1 <= k <= 3)%nat /\
     wifi_begins (evs (connectWiFi handle fuel g w)) = take k candidates) /\
  (val (connectWiFi handle fuel g w) = Returned ->
   (count is_config_time (evs (connectWiFi handle fuel g w)) = 1%nat /\
    last (evs (connectWiFi handle fuel g w)) = Some (Ev (ConfigTime 0 0 "pool.ntp.org") tt) /\
    last (status_answers (evs (connectWiFi handle fuel g w))) = Some WL_CONNECTED)
   \/
   (count is_config_time (evs (connectWiFi handle fuel g w)) = O /\
    last (evs (connectWiFi handle fuel g w)) =
      Some (Ev (SerialPrintln (PStr "No se pudo conectar a ninguna red WiFi.")) tt) /\
    wifi_begins (evs (connectWiFi handle fuel g w)) = candidates)).
Proof.
  unfold connectWiFi. fold candidates.
  destruct (try_networks_trace fuel candidates g w) as [(k & Hk & Hk0 & Hb) Hv].
  split.
  - exists k. split; [|exact Hb]. change (length candidates) with 3%nat in Hk.
    destruct k; [specialize (Hk0 eq_refl); discriminate | lia].
  - intros E. rewrite E in Hv. exact Hv.
Qed.

(** *** connectWiFi comes back *)

Lemma sub32_elapsed (T t : Z) :
  T <= t -> t - T < 2 ^ 32 -> sub32 (wrap32 t) (wrap32 T) = t - T.
Proof.
  unfold sub32, wrap32. intros Hle Hlt. rewrite <- Zminus_mod.
  apply Z.mod_small. lia.
Qed.

(** The wait for one candidate, entered [up w - start] ms after the start of
    the attempt, returns after at most [n] more calls of [delay(500)] when
    [500 * n] ms are enough to reach the timeout: 20 calls from the start. *)
Lemma await_link_returns (up : W -> Z) (fuel n : nat) (start : Z) (g : Globals) (w : W) :
  ticking handle up ->
  (n <= fuel)%nat ->
  start <= up w ->
  up w - start <= 10500 + 3 * CALL_SLACK ->
  LINK_TIMEOUT - 500 * Z.of_nat n <= up w - start ->
  val (await_link handle fuel (wrap32 start) g w) = Returned /\
  (count is_delay (evs (await_link handle fuel (wrap32 start) g w)) <= n)%nat.
Proof.
  intros (Hm & Hlo & Hhi). unfold CALL_SLACK, LINK_TIMEOUT in *.
  revert n w. induction fuel as [|f IH]; intros n w Hn H0 H1 H2.
  - cbn [await_link]. rewrite bind_call, val_after, evs_after, count_app.
    pose proof (Hlo _ WifiStatus w ltac:(done)) as L1.
    pose proof (Hhi _ WifiStatus w eq_refl ltac:(done)) as U1.
    cbn [asked] in L1, U1.
    destruct (is_connected _); [split; [reflexivity | cbn; lia]|].
    rewrite bind_millis, val_after, evs_after, count_app, Hm.
    rewrite sub32_elapsed by lia.
    replace (_ <? 10000) with false by lia.
    split; [reflexivity | cbn; lia].
  - cbn [await_link]. rewrite bind_call, val_after, evs_after, count_app.
    pose proof (Hlo _ WifiStatus w ltac:(done)) as L1.
    pose proof (Hhi _ WifiStatus w eq_refl ltac:(done)) as U1.
    cbn [asked] in L1, U1.
    set (w1 := (handle wl_status_t WifiStatus w).2) in *.
    destruct (is_connected _); [split; [reflexivity | cbn; lia]|].
    rewrite bind_millis, val_after, evs_after, count_app, Hm.
    rewrite sub32_elapsed by lia.
    pose proof (Hlo _ Millis w1 ltac:(done)) as L2.
    pose proof (Hhi _ Millis w1 eq_refl ltac:(done)) as U2.
    cbn [asked] in L2, U2.
    set (w2 := (handle Z Millis w1).2) in *.
    destruct (up w1 - start <? 10000) eqn:E; [|split; [reflexivity | cbn; lia]].
    apply Z.ltb_lt in E.
    unfold print. rewrite bind_call, val_after, evs_after, count_app.
    pose proof (Hlo _ (Delay 500) w2 ltac:(done)) as L3.
    pose proof (Hhi _ (Delay 500) w2 eq_refl ltac:(done)) as U3.
    cbn [asked] in L3, U3.
    set (w3 := (handle unit (Delay 500) w2).2) in *.
    rewrite bind_call, val_after, evs_after, count_app.
    pose proof (Hlo _ (SerialPrint (PStr ".")) w3 ltac:(done)) as L4.
    pose proof (Hhi _ (SerialPrint (PStr ".")) w3 eq_refl ltac:(done)) as U4.
    cbn [asked] in L4, U4.
    set (w4 := (handle unit (SerialPrint (PStr ".")) w3).2) in *.
    destruct n as [|n']; [lia|].
    destruct (IH n' w4) as [Hv Hc]; try lia.
    split; [exact Hv|]. cbn [count is_delay]. lia.
Qed.

Lemma try_networks_returns (up : W -> Z) (fuel : nat) (cands : list (string * string))
    (g : Globals) (w : W) :
  ticking handle up ->
  (20 <= fuel)%nat ->
  val (try_networks handle fuel cands g w) = Returned /\
  (count is_delay (evs (try_networks handle fuel cands g w)) <= 20 * length cands)%nat.
Proof.
  intros Htick Hfuel. revert w. induction cands as [|[ssid pass] rest IH]; intros w.
  { cbn [try_networks]. unfold println. rewrite bind_call, val_after, evs_after.
    split; [reflexivity | cbn; lia]. }
  destruct (try_networks_round fuel ssid pass rest g w)
    as (w0 & w2 & report & Hrep & -> & ->). cbv zeta.
  pose proof Htick as (Hm & Hlo & Hhi).
  pose proof (Hlo _ Millis w0 ltac:(done)) as L.
  pose proof (Hhi _ Millis w0 eq_refl ltac:(done)) as U.
  cbn [asked] in L, U. unfold CALL_SLACK in U.
  assert (val (await_link handle fuel (wrap32 (handle Z Millis w0).1) g
                 (handle Z Millis w0).2) = Returned /\
          (count is_delay (evs (await_link handle fuel (wrap32 (handle Z Millis w0).1) g
                                  (handle Z Millis w0).2)) <= 20)%nat) as [Hv Hc].
  { apply (await_link_returns up fuel 20); [exact Htick | exact Hfuel | ..];
      rewrite ?Hm; unfold CALL_SLACK, LINK_TIMEOUT; lia. }
  rewrite Hv. rewrite !count_app.
  assert (count is_delay report = O) as Hr
    by (eapply count_none; [|exact Hrep]; by_call).
  destruct (IH w2) as [IHv IHc].
  destruct (is_connected _).
  - split; [reflexivity|]. cbn [count is_delay length]. rewrite count_app, Hr.
    cbn [count is_delay]. lia.
  - split; [exact IHv|]. cbn [count is_delay length]. lia.
Qed.

Lemma paced_delay (tr : list Event) :
  forallb paced_event tr = true ->
  total_delay tr = 500 * Z.of_nat (count is_delay tr).
Proof.
  induction tr as [|[X c x] tr IH]; [reflexivity|].
  cbn [forallb]. intros [He Htr]%andb_prop. specialize (IH Htr).
  destruct c; cbn [total_delay count is_delay]; try lia.
  cbn [paced_event] in He. apply Z.eqb_eq in He. lia.
Qed.

Lemma await_link_paced (fuel : nat) (startAttempt : Z) :
  only paced_event (await_link handle fuel startAttempt).
Proof.
  induction fuel as [|f IH]; cbn [await_link]; unfold print, millis; only_go.
Qed.

Lemma try_networks_paced (fuel : nat) (candidates : list (string * string)) :
  only paced_event (try_networks handle fuel candidates).
Proof.
  induction candidates as [|[ssid pass] rest IH]; cbn [try_networks];
    unfold print, println, millis;
    only_go; apply await_link_paced.
Qed.

(** X2.  In a world with a clock, [connectWiFi] returns, also across a
    rollover of [millis()]: the waits for the three candidates end because
    [delay(500)] moves the uptime on until 10 s have passed since the start
    of the attempt.  The function sleeps in steps of 500 ms, 60 of them at
    most, 30 s in all. *)
Theorem connectWiFi_returns (up : W -> Z) (fuel : nat) (g : Globals) (w : W) :
  ticking handle up ->
  (20 <= fuel)%nat ->
  val (connectWiFi handle fuel g w) = Returned /\
  (count is_delay (evs (connectWiFi handle fuel g w)) <= 60)%nat /\
  total_delay (evs (connectWiFi handle fuel g w)) =
    500 * Z.of_nat (count is_delay (evs (connectWiFi handle fuel g w))).
Proof.
  intros Htick Hfuel. unfold connectWiFi.
  destruct (try_networks_returns up fuel (take (Z.to_nat wifiCount) (zip ssidList passList))
              g w Htick Hfuel) as [Hv Hc].
  split; [exact Hv|]. split; [exact Hc|].
  apply paced_delay, try_networks_paced.
Qed.

(** *** The timestamp without a wall clock *)

Lemma String_of_Z_back (z : Z) : uptime_of_timestamp (String_of_Z z) = Some z.
Proof.
  unfold uptime_of_timestamp, String_of_Z.
  rewrite DecimalString.NilZero.isi.
  - cbn [option_map]. rewrite DecimalZ.of_to. reflexivity.
  - destruct z; [discriminate| |discriminate].
    cbn [Z.to_int]. intros [= H]. exact (DecimalPos.Unsigned.to_uint_nonnil _ H).
  - destruct z; [discriminate|discriminate|].
    cbn [Z.to_int]. intros [= H]. exact (DecimalPos.Unsigned.to_uint_nonnil _ H).
Qed.

(** X3.  When [getLocalTime] fails, the timestamp is not a date: it is the
    decimal text of the uptime read by one [millis()] call made right after,
    a number of milliseconds below 2^32 that can be read back from the text;
    [strftime] is not called.  Two such timestamps are equal exactly when
    the two readings are. *)
Theorem timestamp_fallback (g : Globals) (w : W) :
  (handle (option tm) GetLocalTime w).1 = None ->
  let t := (handle Z Millis (handle (option tm) GetLocalTime w).2).1 in
  evs (getCurrentTimestamp handle g w) = [Ev GetLocalTime None; Ev Millis t] /\
  uptime_of_timestamp (val (getCurrentTimestamp handle g w)) = Some (wrap32 t) /\
  0 <= wrap32 t < 2 ^ 32 /\
  (forall (g' : Globals) (w' : W),
     (handle (option tm) GetLocalTime w').1 = None ->
     (val (getCurrentTimestamp handle g' w') = val (getCurrentTimestamp handle g w) <->
      wrap32 (handle Z Millis (handle (option tm) GetLocalTime w').2).1 = wrap32 t)).
Proof.
  intros Hnone. cbv zeta.
  assert (forall g0 w0, (handle (option tm) GetLocalTime w0).1 = None ->
            getCurrentTimestamp handle g0 w0 =
              mkRes (String_of_Z (wrap32 (handle Z Millis
                                            (handle (option tm) GetLocalTime w0).2).1))
                g0 (handle Z Millis (handle (option tm) GetLocalTime w0).2).2
                [Ev GetLocalTime None;
                 Ev Millis (handle Z Millis (handle (option tm) GetLocalTime w0).2).1]) as Hrun.
  { intros g0 w0 H0. unfold getCurrentTimestamp. rewrite bind_call, H0, bind_millis.
    rewrite after_after. apply after_ret. }
  rewrite (Hrun g w Hnone), evs_mk, val_mk.
  split; [reflexivity|]. split; [apply String_of_Z_back|].
  split; [apply Z.mod_pos_bound; lia|].
  intros g' w' Hnone'. rewrite (Hrun g' w' Hnone'), val_mk. split.
  - intros E. apply (f_equal uptime_of_timestamp) in E.
    rewrite !String_of_Z_back in E. congruence.
  - intros ->. reflexivity.
Qed.

(** *** What an acquisition leaves behind *)

Lemma fill_slot_timeout (i : Z) (g : Globals) (w : W) :
  val (fill_slot handle i g w) = false ->
  glob (fill_slot handle i g w) = g /\
  reds (evs (fill_slot handle i g w)) = [] /\
  irs (evs (fill_slot handle i g w)) = [].
Proof.
  destruct (fill_slot_run i g w)
    as (n & a0 & a & tail & _ & _ & He & _ & _ & _ & Hv & Hfalse & _).
  rewrite Hv. intros E. destruct (Hfalse E) as (-> & Hg).
  rewrite He. unfold reds, irs. rewrite !omap_app.
  rewrite (poll_event_quiet red_of), (poll_event_quiet ir_of) by by_call. auto.
Qed.

Lemma store_more (l : list Z) (n k : nat) (x : Z) (rest : list Z) :
  (n < length l)%nat ->
  take (S n) (<[n:=x]> l) ++ rest ++ drop (S n + k) (<[n:=x]> l) =
  take n l ++ (x :: rest) ++ drop (n + S k) l.
Proof.
  intros Hlen. replace (n + S k)%nat with (S n + k)%nat by lia.
  rewrite (take_S_r _ n x) by (apply list_lookup_insert_eq; lia).
  rewrite take_insert_ge by lia. rewrite drop_insert_lt by lia.
  rewrite <- app_assoc. reflexivity.
Qed.

(** Whatever its outcome, a fill leaves the samples it read, in order, in the
    slots from [i] on, and the rest of both buffers as it was. *)
Lemma fill_contents (slots : nat) (i : Z) (g : Globals) (w : W) :
  0 <= i ->
  (Z.to_nat i + slots <= length (redBuffer g))%nat ->
  (Z.to_nat i + slots <= length (irBuffer g))%nat ->
  redBuffer (glob (fill handle slots i g w)) =
    take (Z.to_nat i) (redBuffer g) ++ reds (evs (fill handle slots i g w))
      ++ drop (Z.to_nat i + length (reds (evs (fill handle slots i g w)))) (redBuffer g) /\
  irBuffer (glob (fill handle slots i g w)) =
    take (Z.to_nat i) (irBuffer g) ++ irs (evs (fill handle slots i g w))
      ++ drop (Z.to_nat i + length (irs (evs (fill handle slots i g w)))) (irBuffer g).
Proof.
  revert i g w. induction slots as [|k IH]; intros i g w Hi Hred Hir.
  - cbn [fill]. rewrite run_ret, glob_mk, evs_mk. unfold reds, irs. rewrite !omap_empty.
    cbn [length app]. rewrite Nat.add_0_r, !take_drop. auto.
  - destruct (val (fill_slot handle i g w)) eqn:E.
    + destruct (fill_continue k i g w E) as (_ & -> & ->).
      destruct (fill_slot_stores i g w E) as (red & ir & Hr & Hi' & Hg).
      pose proof (fill_counts k (i + 1) (glob (fill_slot handle i g w))
                    (wld (fill_slot handle i g w))) as (_ & _ & _ & _ & Hlen).
      pose proof (fill_pairs k (i + 1) (glob (fill_slot handle i g w))
                    (wld (fill_slot handle i g w))) as Hpairs.
      unfold reds, irs in *. rewrite !omap_app, Hr, Hi'.
      destruct (IH (i + 1) (glob (fill_slot handle i g w)) (wld (fill_slot handle i g w)))
        as [-> ->]; try lia.
      * rewrite Hg. cbn [redBuffer set_irBuffer set_redBuffer]. rewrite length_insert. lia.
      * rewrite Hg. cbn [irBuffer set_irBuffer set_redBuffer]. rewrite length_insert. lia.
      * rewrite Hg. cbn [redBuffer irBuffer set_irBuffer set_redBuffer length app].
        replace (Z.to_nat (i + 1)) with (S (Z.to_nat i)) by lia.
        split; apply store_more; lia.
    + destruct (fill_abort k i g w E) as (_ & -> & ->).
      destruct (fill_slot_timeout i g w E) as (-> & -> & ->).
      cbn [length app]. rewrite Nat.add_0_r, !take_drop. auto.
Qed.

(** X4.  An acquisition that passes its gate has, whether the fill completes or
    times out, set [lastSensorRead] to the uptime it read after the gate and
    [bufferLength] to 100, and left [lastDataSend] alone; both buffers keep
    their 100 slots and hold the samples read so far in their first slots,
    in order, followed by what was there before.  A timed-out fill therefore
    leaves the buffers half overwritten, and the next acquisition is a full
    interval away. *)
Theorem acquisition_leaves (g : Globals) (w : W) :
  acquisition_due (handle Z Millis w).1 g = true ->
  length (redBuffer g) = 100%nat ->
  length (irBuffer g) = 100%nat ->
  lastSensorRead (glob (readSensors handle g w)) =
    wrap32 (handle Z Millis (handle Z Millis w).2).1 /\
  bufferLength (glob (readSensors handle g w)) = BUFFER_SIZE /\
  lastDataSend (glob (readSensors handle g w)) = lastDataSend g /\
  redBuffer (glob (readSensors handle g w)) =
    reds (evs (readSensors handle g w))
    ++ drop (length (reds (evs (readSensors handle g w)))) (redBuffer g) /\
  irBuffer (glob (readSensors handle g w)) =
    irs (evs (readSensors handle g w))
    ++ drop (length (irs (evs (readSensors handle g w)))) (irBuffer g) /\
  length (redBuffer (glob (readSensors handle g w))) = 100%nat /\
  length (irBuffer (glob (readSensors handle g w))) = 100%nat.
Proof.
  intros E Hred Hir.
  destruct (readSensors_open g w E) as (_ & He & Hg & _). cbv zeta in He, Hg.
  rewrite He, Hg. clear He Hg.
  set (g1 := set_bufferLength BUFFER_SIZE _).
  set (w2 := (handle Z Millis (handle Z Millis w).2).2).
  destruct (fill_registers 100 0 g1 w2) as [Hreg Hbl].
  destruct (fill_contents 100 0 g1 w2) as [Hr Hi];
    [lia | subst g1; cbn [redBuffer set_bufferLength set_lastSensorRead]; lia
    | subst g1; cbn [irBuffer set_bufferLength set_lastSensorRead]; lia |].
  destruct (fill_counts 100 0 g1 w2) as (_ & _ & _ & _ & Hlen).
  pose proof (fill_pairs 100 0 g1 w2) as Hpairs.
  rewrite take_0 in Hr, Hi. cbn [app Z.to_nat Nat.add] in Hr, Hi.
  assert (reds (Ev Millis (handle Z Millis w).1
                :: Ev Millis (handle Z Millis (handle Z Millis w).2).1
                :: evs (fill handle 100 0 g1 w2)
                   ++ (if val (fill handle 100 0 g1 w2)
                       then [Ev (Maxim (irBuffer (glob (fill handle 100 0 g1 w2)))
                                   (bufferLength (glob (fill handle 100 0 g1 w2)))
                                   (redBuffer (glob (fill handle 100 0 g1 w2))))
                                (handle MaximResult
                                   (Maxim (irBuffer (glob (fill handle 100 0 g1 w2)))
                                      (bufferLength (glob (fill handle 100 0 g1 w2)))
                                      (redBuffer (glob (fill handle 100 0 g1 w2))))
                                   (wld (fill handle 100 0 g1 w2))).1]
                       else []))
          = reds (evs (fill handle 100 0 g1 w2)) /\
          irs (Ev Millis (handle Z Millis w).1
                :: Ev Millis (handle Z Millis (handle Z Millis w).2).1
                :: evs (fill handle 100 0 g1 w2)
                   ++ (if val (fill handle 100 0 g1 w2)
                       then [Ev (Maxim (irBuffer (glob (fill handle 100 0 g1 w2)))
                                   (bufferLength (glob (fill handle 100 0 g1 w2)))
                                   (redBuffer (glob (fill handle 100 0 g1 w2))))
                                (handle MaximResult
                                   (Maxim (irBuffer (glob (fill handle 100 0 g1 w2)))
                                      (bufferLength (glob (fill handle 100 0 g1 w2)))
                                      (redBuffer (glob (fill handle 100 0 g1 w2))))
                                   (wld (fill handle 100 0 g1 w2))).1]
                       else []))
          = irs (evs (fill handle 100 0 g1 w2))) as [-> ->].
  { unfold reds, irs. rewrite !(omap_skip _ (Ev Millis _)) by reflexivity.
    rewrite !omap_app. destruct (val (fill handle 100 0 g1 w2));
      rewrite ?(omap_skip _ (Ev (Maxim _ _ _) _)) by reflexivity;
      rewrite !omap_empty, !app_nil_r; auto. }
  assert (length (redBuffer (glob (fill handle 100 0 g1 w2))) = 100%nat /\
          length (irBuffer (glob (fill handle 100 0 g1 w2))) = 100%nat) as [Hlr Hli].
  { rewrite Hr, Hi, !length_app, !length_drop.
    subst g1. cbn [redBuffer irBuffer set_bufferLength set_lastSensorRead].
    destruct (val (fill handle 100 0 _ w2)); lia. }
  unfold registers in Hreg.
  assert (lastSensorRead (glob (fill handle 100 0 g1 w2)) =
            wrap32 (handle Z Millis (handle Z Millis w).2).1 /\
          lastDataSend (glob (fill handle 100 0 g1 w2)) = lastDataSend g) as [Hls Hld].
  { subst g1.
    cbn [heartRate validHeartRate spo2 validSPO2 lastSensorRead lastDataSend
         set_bufferLength set_lastSensorRead] in Hreg.
    split; congruence. }
  destruct (val (fill handle 100 0 g1 w2));
    cbn [lastSensorRead bufferLength lastDataSend redBuffer irBuffer set_estimate];
    rewrite Hls, Hld, Hbl; repeat split; assumption.
Qed.

(** *** The time an acquisition sleeps *)

Lemma total_delay_app (tr1 tr2 : list Event) :
  total_delay (tr1 ++ tr2) = total_delay tr1 + total_delay tr2.
Proof.
  induction tr1 as [|[X c x] tr1 IH]; [reflexivity|].
  cbn [app total_delay]. destruct c; rewrite IH; lia.
Qed.

Lemma await_sample_delay (budget : nat) (g : Globals) (w : W) :
  total_delay (evs (await_sample handle budget g w)) =
  10 * Z.of_nat (count is_check (evs (await_sample handle budget g w))).
Proof.
  revert g w. induction budget as [|b IH]; intros g w.
  - simpl. destruct (truthy _); reflexivity.
  - simpl. destruct (truthy (handle Z SensorAvailable w).1) eqn:E; simpl.
    + reflexivity.
    + rewrite IH. lia.
Qed.

Lemma fill_slot_delay (i : Z) (g : Globals) (w : W) :
  total_delay (evs (fill_slot handle i g w)) =
  10 * Z.of_nat (count is_check (evs (fill_slot handle i g w)))
  + 5 * Z.of_nat (length (reds (evs (fill_slot handle i g w)))).
Proof.
  destruct (fill_slot_run i g w)
    as (n & a0 & a & tail & _ & _ & He & _ & _ & _ & _ & Hfalse & Htrue).
  rewrite He, total_delay_app, count_app. unfold reds. rewrite omap_app, length_app.
  rewrite (poll_event_quiet red_of) by by_call. rewrite await_sample_delay.
  destruct (truthy a).
  - destruct (Htrue eq_refl) as (red & ir & -> & _). cbn. lia.
  - destruct (Hfalse eq_refl) as (-> & _). cbn. lia.
Qed.

Lemma fill_delay (slots : nat) (i : Z) (g : Globals) (w : W) :
  total_delay (evs (fill handle slots i g w)) =
  10 * Z.of_nat (count is_check (evs (fill handle slots i g w)))
  + 5 * Z.of_nat (length (reds (evs (fill handle slots i g w)))).
Proof.
  revert i g w. induction slots as [|k IH]; intros i g w.
  - cbn [fill]. rewrite run_ret, evs_mk. reflexivity.
  - destruct (val (fill_slot handle i g w)) eqn:E.
    + destruct (fill_continue k i g w E) as (_ & -> & _).
      unfold reds in *. rewrite total_delay_app, count_app, omap_app, length_app.
      rewrite IH. pose proof (fill_slot_delay i g w) as H. unfold reds in H. lia.
    + destruct (fill_abort k i g w E) as (_ & -> & _). apply fill_slot_delay.
Qed.

(** X5.  The time [readSensors] spends in [delay] is 10 ms for each [check()] and
    5 ms for each sample it stored, and never more than 100 500 ms: one call
    can hold the main loop back for about 100 s, when every slot is served
    just before its wait runs out. *)
Theorem acquisition_sleep_accounting (g : Globals) (w : W) :
  total_delay (evs (readSensors handle g w)) =
    10 * Z.of_nat (count is_check (evs (readSensors handle g w)))
    + 5 * Z.of_nat (length (reds (evs (readSensors handle g w)))) /\
  0 <= total_delay (evs (readSensors handle g w)) <= 100 * (100 * 10 + 5).
Proof.
  destruct (acquisition_due (handle Z Millis w).1 g) eqn:E.
  - destruct (readSensors_open g w E) as (_ & He & _). cbv zeta in He. rewrite He.
    set (g1 := set_bufferLength BUFFER_SIZE _).
    set (w2 := (handle Z Millis (handle Z Millis w).2).2).
    destruct (fill_counts 100 0 g1 w2) as (Hc & _ & _ & _ & Hlen).
    pose proof (fill_delay 100 0 g1 w2) as Hd.
    unfold reds in *.
    change (Ev Millis ?a :: Ev Millis ?b :: ?l) with ([Ev Millis a; Ev Millis b] ++ l).
    rewrite !total_delay_app, !count_app, !omap_app, !length_app.
    change (total_delay [Ev Millis _; Ev Millis _]) with 0.
    change (count is_check [Ev Millis _; Ev Millis _]) with O.
    change (omap red_of [Ev Millis _; Ev Millis _]) with (@nil Z).
    match goal with
    | |- context [total_delay (if ?b then ?l else [])] =>
        assert (total_delay (if b then l else []) = 0 /\
                count is_check (if b then l else []) = O /\
                length (omap red_of (if b then l else [])) = O) as (-> & -> & ->)
          by (destruct b; auto)
    end.
    change (length (@nil Z)) with O.
    destruct (val (fill handle 100 0 g1 w2)); lia.
  - rewrite (readSensors_closed g w E), evs_mk. cbn. lia.
Qed.

(** *** The shape and the duration of a delivery *)

Lemma total_delay_steps (tr : list Event) :
  total_delay tr = waits (delivery_steps tr).
Proof.
  induction tr as [|[X c x] tr IH]; [reflexivity|].
  unfold delivery_steps in *. destruct c; cbn [total_delay omap step_of waits];
    rewrite ?IH; reflexivity.
Qed.

Lemma protocol_waits (rounds : nat) (steps : list Step) :
  protocol rounds steps = true ->
  waits steps = 2000 * (Z.of_nat (length (omap code_of steps)) - 1) /\
  (1 <= length (omap code_of steps) <= rounds)%nat.
Proof.
  revert steps. induction rounds as [|r IH]; intros steps H; [discriminate|].
  destruct steps as [|[p c|ms] rest]; try discriminate.
  destruct rest as [|[p' c'|ms] rest]; try discriminate.
  - cbn. lia.
  - cbn [protocol] in H. apply andb_prop in H as [H Hrest]. apply andb_prop in H as [_ Hms].
    apply Z.eqb_eq in Hms. subst ms. destruct (IH rest Hrest) as [Hw Hl].
    rewrite (omap_keep code_of (Attempt p c) c) by reflexivity.
    rewrite (omap_skip code_of (Backoff 2000)) by reflexivity.
    cbn [waits length]. rewrite Hw. lia.
Qed.

Lemma post_loop_protocol (rounds : nat) (payload : string) (retryCount : Z)
    (g : Globals) (w : W) :
  Z.of_nat rounds = maxRetries - retryCount ->
  (1 <= rounds)%nat ->
  protocol rounds (delivery_steps (evs (post_loop handle rounds payload retryCount g w))) = true.
Proof.
  revert retryCount w. induction rounds as [|r IH]; intros retryCount w Hinv Hpos; [lia|].
  destruct (post_loop_steps r payload retryCount g w) as (w1 & -> & _); [lia|].
  destruct (transient (handle Z (HttpPost payload) w).1) eqn:Ecode; cycle 1.
  { cbn [protocol]. rewrite Ecode. reflexivity. }
  destruct r as [|r'].
  - replace (retryCount + 1 <? maxRetries) with false by lia.
    rewrite (post_loop_idle 0 payload (retryCount + 1) g w1) by lia.
    cbn [app delivery_steps omap protocol]. rewrite Ecode. reflexivity.
  - replace (retryCount + 1 <? maxRetries) with true by lia.
    cbn [app protocol]. rewrite Ecode, Z.eqb_refl. cbn [andb].
    apply IH; lia.
Qed.

(** X6.  With the link up, the delivery follows the retry protocol for three
    rounds: attempts separated by waits of 2000 ms, every attempt before the
    last a transient failure, and a last attempt that is a transient failure
    only if it was the third.  So one to three requests are made, the
    function sleeps 2000 ms for each request after the first, 4000 ms at
    most, and no wait follows the last request. *)
Theorem delivery_follows_protocol (fuel : nat) (g : Globals) (w : W) :
  is_connected (handle wl_status_t WifiStatus w).1 = true ->
  protocol 3 (delivery_steps (evs (sendDataToBackend handle fuel g w))) = true /\
  (1 <= length (post_codes (evs (sendDataToBackend handle fuel g w))) <= 3)%nat /\
  total_delay (evs (sendDataToBackend handle fuel g w)) =
    2000 * (Z.of_nat (length (post_codes (evs (sendDataToBackend handle fuel g w)))) - 1) /\
  forall code, last (delivery_steps (evs (sendDataToBackend handle fuel g w)))
               <> Some (Backoff code).
Proof.
  intros Hup.
  destruct (sendDataToBackend_delivery fuel g w Hup)
    as (temp & timestamp & jsonPayload & w1 & _ & _ & Hs & _).
  pose proof (post_loop_protocol 3 jsonPayload 0 g w1 eq_refl ltac:(lia)) as Hp.
  rewrite <- Hs in Hp. destruct (protocol_waits _ _ Hp) as [Hw Hl].
  rewrite total_delay_steps. unfold post_codes.
  repeat split; try assumption; try lia.
  clear -Hp. revert Hp.
  generalize (delivery_steps (evs (sendDataToBackend handle fuel g w))) as steps.
  generalize 3%nat as rounds.
  induction rounds as [|r IH]; intros steps H code; [discriminate|].
  destruct steps as [|[p c|ms] rest]; try discriminate.
  destruct rest as [|[p' c'|ms] rest]; try discriminate.
  cbn [protocol] in H. apply andb_prop in H as [_ Hrest].
  specialize (IH rest Hrest code).
  destruct rest as [|s rest]; [destruct r; discriminate Hrest|]. exact IH.
Qed.

(** *** The HTTP client *)

Lemma sendDataToBackend_session (fuel : nat) (g : Globals) (w : W) :
  is_connected (handle wl_status_t WifiStatus w).1 = true ->
  exists (temp : float) (clock report : list Event) (jsonPayload : string) (w1 : W),
    evs (sendDataToBackend handle fuel g w) =
      [Ev WifiStatus (handle wl_status_t WifiStatus w).1;
       Ev (HttpBegin backendUrl) tt;
       Ev (HttpAddHeader "Content-Type" "application/json") tt;
       Ev (HttpSetTimeout 10000) tt;
       Ev MlxReadObjectTempC temp]
      ++ clock ++ report
      ++ evs (post_loop handle 3 jsonPayload 0 g w1) ++ [Ev HttpEnd tt] /\
    forallb clock_event clock = true /\
    forallb (fun e => is_serialize e || serial_event e) report = true.
Proof.
  intros Hup. unfold sendDataToBackend, println.
  rewrite bind_call. destruct (handle wl_status_t WifiStatus w) as [s w0].
  cbn [fst snd] in *. rewrite Hup. cbn [negb].
  rewrite bind_call. destruct (handle unit (HttpBegin backendUrl) w0) as [[] w1].
  rewrite bind_call. destruct (handle unit (HttpAddHeader _ _) _) as [[] w2].
  rewrite bind_call. destruct (handle unit (HttpSetTimeout _) _) as [[] w3].
  rewrite bind_get, bind_call. destruct (handle float MlxReadObjectTempC _) as [temp w4].
  cbn [fst snd]. rewrite bind_run.
  pose proof (getCurrentTimestamp_pure g w4) as Hg.
  pose proof (getCurrentTimestamp_only g w4) as Hc.
  destruct (getCurrentTimestamp handle g w4) as [timestamp g' w5 clock].
  cbn [glob evs] in Hg, Hc. subst g'. rewrite ?val_mk, ?glob_mk, ?wld_mk, ?evs_mk.
  rewrite bind_call. destruct (handle string (SerializeJson _) w5) as [jsonPayload w6].
  cbn [fst snd].
  rewrite bind_call. destruct (handle unit (SerialPrintln (PStr "Enviando datos:")) w6) as [[] w7].
  rewrite bind_call. destruct (handle unit (SerialPrintln (PStr jsonPayload)) _) as [[] w8].
  cbn [fst snd]. change (Z.to_nat maxRetries) with 3%nat. rewrite bind_run.
  pose proof (post_loop_pure 3 jsonPayload 0 g w8) as Hp.
  destruct (post_loop handle 3 jsonPayload 0 g w8) as [[] g' w9 posts] eqn:Eposts.
  cbn [glob] in Hp. subst g'. rewrite ?val_mk, ?glob_mk, ?wld_mk, ?evs_mk.
  rewrite bind_call. destruct (handle unit HttpEnd w9) as [[] w10]. cbn [fst snd].
  rewrite !after_after, after_ret, ?val_mk, ?glob_mk, ?wld_mk, ?evs_mk.
  exists temp, clock,
    [Ev (SerializeJson (build_doc g temp timestamp)) jsonPayload;
     Ev (SerialPrintln (PStr "Enviando datos:")) tt;
     Ev (SerialPrintln (PStr jsonPayload)) tt], jsonPayload, w8.
  rewrite Eposts, evs_mk. split; [|split; [exact Hc|reflexivity]].
  cbn [app]. rewrite <- !app_assoc. reflexivity.
Qed.

(** X7.  With the link up, [sendDataToBackend] asks for the link status once,
    then opens the client on [backendUrl], sets the JSON content type and
    the timeout of 10 s, in this order and before anything else; it opens
    the client once and closes it once, as its last call, whatever the
    requests answered; every request comes between the two, and it never
    calls [WiFi.begin].  With the link down it makes no call on the client
    at all. *)
Theorem http_session (fuel : nat) (g : Globals) (w : W) :
  (is_connected (handle wl_status_t WifiStatus w).1 = true ->
   take 4 (evs (sendDataToBackend handle fuel g w)) =
     [Ev WifiStatus (handle wl_status_t WifiStatus w).1;
      Ev (HttpBegin backendUrl) tt;
      Ev (HttpAddHeader "Content-Type" "application/json") tt;
      Ev (HttpSetTimeout 10000) tt] /\
   last (evs (sendDataToBackend handle fuel g w)) = Some (Ev HttpEnd tt) /\
   count is_http_begin (evs (sendDataToBackend handle fuel g w)) = 1%nat /\
   count is_http_end (evs (sendDataToBackend handle fuel g w)) = 1%nat /\
   count is_status (evs (sendDataToBackend handle fuel g w)) = 1%nat /\
   count is_wifi_begin (evs (sendDataToBackend handle fuel g w)) = 0%nat) /\
  (is_connected (handle wl_status_t WifiStatus w).1 = false ->
   existsb http_event (evs (sendDataToBackend handle fuel g w)) = false).
Proof.
  split; intros E.
  - destruct (sendDataToBackend_session fuel g w E)
      as (temp & clock & report & p & w1 & -> & Hc & Hr).
    pose proof (post_loop_only 3 p 0 g w1) as Hp.
    split; [reflexivity|].
    split; [rewrite !app_assoc; apply last_snoc|].
    rewrite !count_app.
    rewrite !(count_none _ clock_event clock) by (by_call || exact Hc).
    rewrite !(count_none _ delivery_event (evs (post_loop handle 3 p 0 g w1)))
      by (by_call || exact Hp).
    rewrite !(count_none _ (fun e => is_serialize e || serial_event e) report)
      by (by_call || exact Hr).
    repeat split.
  - destruct (sendDataToBackend_reconnect fuel g w E) as [Hr _].
    apply existsb_count. eapply count_none; [|exact Hr]. by_call.
Qed.

(** *** The two halves of the main loop keep to themselves *)

(** X8.  [readSensors] makes no call on the radio or on the HTTP client and does
    not touch [lastDataSend]; [sendDataToBackend] makes no call on the pulse
    oximeter or the estimator and leaves every global as it was: the buffers,
    the estimate and both schedulers' stamps. *)
Theorem halves_are_separate (fuel : nat) (g : Globals) (w : W) :
  existsb radio_event (evs (readSensors handle g w)) = false /\
  lastDataSend (glob (readSensors handle g w)) = lastDataSend g /\
  existsb pulse_event (evs (sendDataToBackend handle fuel g w)) = false /\
  glob (sendDataToBackend handle fuel g w) = g.
Proof.
  split; [|split; [apply readSensors_lastDataSend|split]].
  - apply existsb_count. eapply count_none; [|apply readSensors_only]. by_call.
  - apply existsb_count. eapply count_none; [|apply sendDataToBackend_only]. by_call.
  - apply sendDataToBackend_pure.
Qed.

(** *** setup *)

Lemma retry_begin_answers (f : Event -> option bool) (fuel : nat) (begin : Call bool)
    (retrying ready : string) (g : Globals) (w : W) :
  (forall b, f (Ev begin b) = Some b) ->
  (forall e, serial_event e = true -> f e = None) ->
  (forall ms x, f (Ev (Delay ms) x) = None) ->
  match val (retry_begin handle fuel begin retrying ready g w) with
  | Returned =>
      exists k : nat,
        (k < fuel)%nat /\
        omap f (evs (retry_begin handle fuel begin retrying ready g w)) =
          replicate k false ++ [true]
  | OutOfFuel =>
      omap f (evs (retry_begin handle fuel begin retrying ready g w)) = replicate fuel false
  end.
Proof.
  intros Hb Hs Hd. revert w. induction fuel as [|n IH]; intros w; [reflexivity|].
  cbn [retry_begin]. unfold println.
  rewrite bind_call. destruct (handle unit (Delay 1000) w) as [[] w1]. cbn [fst snd].
  rewrite bind_call. destruct (handle unit (SerialPrintln _) w1) as [[] w2]. cbn [fst snd].
  rewrite bind_call. destruct (handle bool begin w2) as [ok w3]. cbn [fst snd].
  rewrite !after_after. cbn [app].
  destruct ok.
  - rewrite bind_call. destruct (handle unit (SerialPrintln _) w3) as [[] w4]. cbn [fst snd].
    rewrite after_after, after_ret, val_mk, evs_mk. cbn [app].
    exists O. split; [lia|].
    rewrite (omap_skip f (Ev (Delay 1000) tt)) by apply Hd.
    rewrite (omap_skip f (Ev (SerialPrintln _) tt)) by (apply Hs; reflexivity).
    rewrite (omap_keep f (Ev begin true) true) by apply Hb.
    rewrite (omap_skip f (Ev (SerialPrintln _) tt)) by (apply Hs; reflexivity).
    reflexivity.
  - rewrite val_after, evs_after. cbn [app].
    rewrite (omap_skip f (Ev (Delay 1000) tt)) by apply Hd.
    rewrite (omap_skip f (Ev (SerialPrintln _) tt)) by (apply Hs; reflexivity).
    rewrite (omap_keep f (Ev begin false) false) by apply Hb.
    specialize (IH w3). destruct (val (retry_begin handle n begin retrying ready g w3)).
    + destruct IH as (k & Hk & ->). exists (S k). split; [lia|]. reflexivity.
    + rewrite IH. reflexivity.
Qed.

(** The initialisation of one sensor: the first [begin()] and, after a
    failure, the retry loop. *)
Lemma begin_phase (f : Event -> option bool) (q : Event -> bool) (fuel : nat) (found : bool)
    (begin : Call bool) (err retrying ready : string) (g : Globals) (w : W) :
  (forall b, f (Ev begin b) = Some b) ->
  (forall e, serial_event e = true -> f e = None) ->
  (forall ms x, f (Ev (Delay ms) x) = None) ->
  (forall e, serial_event e = true -> q e = true) ->
  (forall ms x, q (Ev (Delay ms) x) = true) ->
  (forall x, q (Ev begin x) = true) ->
  let r := (if found then ret Returned
            else bind (call handle (SerialPrintln (PStr err)))
                   (fun _ => retry_begin handle fuel begin retrying ready)) g w in
  glob r = g /\
  forallb q (evs r) = true /\
  (val r = Returned ->
   exists k : nat, omap f (Ev begin found :: evs r) = replicate k false ++ [true]).
Proof.
  intros Hb Hs Hd Hqs Hqd Hqb. cbv zeta. destruct found.
  - rewrite run_ret, glob_mk, evs_mk, val_mk. repeat split.
    exists O. rewrite (omap_keep f (Ev begin true) true) by apply Hb. reflexivity.
  - rewrite bind_call. destruct (handle unit (SerialPrintln _) w) as [[] w1]. cbn [fst snd].
    rewrite glob_after, evs_after, val_after.
    split; [apply retry_begin_pure|]. split.
    + cbn [app forallb]. rewrite Hqs by reflexivity.
      apply (retry_begin_only q fuel begin retrying ready Hqs Hqd Hqb).
    + intros Hv.
      pose proof (retry_begin_answers f fuel begin retrying ready g w1 Hb Hs Hd) as H.
      rewrite Hv in H. destruct H as (k & _ & H).
      exists (S k). rewrite (omap_keep f (Ev begin false) false) by apply Hb.
      cbn [app]. rewrite (omap_skip f (Ev (SerialPrintln _) tt)) by (apply Hs; reflexivity).
      rewrite H. reflexivity.
Qed.

(** X9.  [setup] that returns has seen both sensors answer [begin()] with a
    success, each exactly once and as its last answer, after any number of
    failures; it has called [particleSensor.setup()] once, has zeroed both
    timers and left every other global alone, and its last call prints the
    line that says the sensors are ready.  A [setup] that does not come
    back, held in a retry loop or in [connectWiFi], has changed no global. *)
Theorem setup_ready (fuel : nat) (g : Globals) (w : W) :
  (val (setup handle fuel g w) = Returned ->
   (exists k : nat,
      sensor_begin_answers (evs (setup handle fuel g w)) = replicate k false ++ [true]) /\
   (exists k : nat,
      mlx_begin_answers (evs (setup handle fuel g w)) = replicate k false ++ [true]) /\
   count is_sensor_setup (evs (setup handle fuel g w)) = 1%nat /\
   glob (setup handle fuel g w) = set_lastDataSend 0 (set_lastSensorRead 0 g) /\
   last (evs (setup handle fuel g w)) =
     Some (Ev (SerialPrintln (PStr "=== Todos los sensores listos! ===")) tt)) /\
  (val (setup handle fuel g w) = OutOfFuel -> glob (setup handle fuel g w) = g).
Proof.
  unfold setup, println, andThen.
  rewrite bind_call. destruct (handle unit (SerialBegin 115200) w) as [[] w1]. cbn [fst snd].
  rewrite bind_call. destruct (handle unit (Delay 1000) w1) as [[] w2]. cbn [fst snd].
  rewrite bind_call. destruct (handle unit (SerialPrintln _) w2) as [[] w3]. cbn [fst snd].
  rewrite bind_run.
  pose proof (connectWiFi_pure fuel g w3) as Hcg.
  pose proof (connectWiFi_only fuel g w3) as Hco.
  destruct (connectWiFi handle fuel g w3) as [oc g' wc trc].
  cbn [val glob wld evs] in *. subst g'.
  destruct oc; cycle 1.
  { rewrite !after_after, after_ret, val_mk, glob_mk. split; [discriminate | reflexivity]. }
  rewrite bind_call. destruct (handle unit (WireBegin 21 22) wc) as [[] w4]. cbn [fst snd].
  rewrite bind_call. destruct (handle unit (Delay 100) w4) as [[] w5]. cbn [fst snd].
  rewrite bind_call. destruct (handle bool SensorBegin w5) as [b1 w6]. cbn [fst snd].
  rewrite bind_run.
  destruct (begin_phase sensor_begin_of sensor_retry_event fuel b1 SensorBegin
              "ERROR: MAX30105 no encontrado!"
              "Reintentando inicializar MAX30105..."
              "MAX30105 inicializado exitosamente!" g w6)
    as (Hg1 & Hq1 & Ha1); try by_call; try reflexivity.
  cbv zeta in Hg1, Hq1, Ha1.
  destruct ((if b1 then ret Returned else _) g w6) as [o1 g' wp tr1].
  cbn [val glob wld evs] in *. subst g'.
  destruct o1; cycle 1.
  { rewrite !after_after, after_ret, val_mk, glob_mk. split; [discriminate | reflexivity]. }
  destruct (Ha1 eq_refl) as (k1 & Hk1). clear Ha1.
  rewrite bind_call. destruct (handle unit SensorSetup wp) as [[] w7]. cbn [fst snd].
  rewrite bind_call. destruct (handle unit (SensorSetPulseAmplitudeRed 10) w7) as [[] w8].
  cbn [fst snd].
  rewrite bind_call. destruct (handle unit (SensorSetPulseAmplitudeGreen 0) w8) as [[] w9].
  cbn [fst snd].
  rewrite bind_call. destruct (handle unit (SerialPrintln _) w9) as [[] w10]. cbn [fst snd].
  rewrite bind_call. destruct (handle bool MlxBegin w10) as [b2 w11]. cbn [fst snd].
  rewrite bind_run.
  destruct (begin_phase mlx_begin_of mlx_retry_event fuel b2 MlxBegin
              "ERROR: MLX90614 no encontrado!"
              "Reintentando inicializar MLX90614..."
              "MLX90614 inicializado exitosamente!" g w11)
    as (Hg2 & Hq2 & Ha2); try by_call; try reflexivity.
  cbv zeta in Hg2, Hq2, Ha2.
  destruct ((if b2 then ret Returned else _) g w11) as [o2 g' wq tr2].
  cbn [val glob wld evs] in *. subst g'.
  destruct o2; cycle 1.
  { rewrite !after_after, after_ret, val_mk, glob_mk. split; [discriminate | reflexivity]. }
  destruct (Ha2 eq_refl) as (k2 & Hk2). clear Ha2.
  rewrite bind_call. destruct (handle unit (SerialPrintln _) wq) as [[] w12]. cbn [fst snd].
  rewrite bind_call. destruct (handle unit (SerialPrintln _) w12) as [[] w13]. cbn [fst snd].
  rewrite !bind_modify, run_ret.
  rewrite !after_after, ?val_after, ?glob_after, ?evs_after, ?val_mk, ?glob_mk, ?evs_mk.
  split; [intros _ | discriminate].
  rewrite app_nil_r.
  assert (sensor_begin_answers trc = [] /\ mlx_begin_answers trc = []
          /\ count is_sensor_setup trc = O) as (Hc1 & Hc2 & Hc3).
  { repeat split.
    - eapply omap_none; [|exact Hco]. by_call.
    - eapply omap_none; [|exact Hco]. by_call.
    - eapply count_none; [|exact Hco]. by_call. }
  assert (mlx_begin_answers tr1 = [] /\ count is_sensor_setup tr1 = O) as (Hp1 & Hp2).
  { split.
    - eapply omap_none; [|exact Hq1]. by_call.
    - eapply count_none; [|exact Hq1]. by_call. }
  assert (sensor_begin_answers tr2 = [] /\ count is_sensor_setup tr2 = O) as (Hp3 & Hp4).
  { split.
    - eapply omap_none; [|exact Hq2]. by_call.
    - eapply count_none; [|exact Hq2]. by_call. }
  unfold sensor_begin_answers, mlx_begin_answers in *.
  rewrite !omap_app, !count_app, Hc1, Hc2, Hc3, Hp1, Hp2, Hp3, Hp4.
  split; [|split; [|split; [|split]]].
  - exists k1. cbn [app omap sensor_begin_of] in Hk1 |- *. rewrite ?app_nil_r. exact Hk1.
  - exists k2. cbn [app omap mlx_begin_of] in Hk2 |- *. rewrite ?app_nil_r. exact Hk2.
  - reflexivity.
  - reflexivity.
  - apply last_snoc.
Qed.

(** *** The gates and the rollover of [millis()] *)

(** X10.  Both gates decide on the time that really elapsed since their timer was
    set, also when [millis()] rolled over in between, as long as less than
    2^32 ms elapsed: with [lastSensorRead] set at uptime [T], [readSensors]
    called at uptime [t] polls the sensor exactly when [t - T >= 2000]; with
    [lastDataSend] set at uptime [T], the transmission tick of a pass stamped
    [t] checks the link exactly when [t - T >= 1000]. *)
Theorem gates_survive_rollover (T : Z) (g : Globals) (w : W) :
  T <= (handle Z Millis w).1 ->
  (handle Z Millis w).1 - T < 2 ^ 32 ->
  (lastSensorRead g = wrap32 T ->
   acquired (evs (readSensors handle g w)) =
     (SENSOR_READ_INTERVAL <=? (handle Z Millis w).1 - T)) /\
  (lastDataSend g = wrap32 T ->
   forall fuel : nat,
     transmitted (evs (loop_transmit handle fuel (wrap32 (handle Z Millis w).1) g
                         (handle Z Millis w).2)) =
       (DATA_SEND_INTERVAL <=? (handle Z Millis w).1 - T)).
Proof.
  intros Hle Hlt. split.
  - intros Hlast. rewrite readSensors_acquired. unfold acquisition_due.
    rewrite Hlast, (sub32_elapsed T _ Hle Hlt). lia.
  - intros Hlast fuel.
    destruct (loop_transmit_observed fuel (wrap32 (handle Z Millis w).1) g
                (handle Z Millis w).2) as (-> & _).
    unfold transmission_due. rewrite Hlast, (sub32_elapsed T _ Hle Hlt). reflexivity.
Qed.

(** *** An idle pass *)

(** X11.  A pass in which neither gate is open reads the uptime twice, waits
    100 ms and returns: it touches no global, no sensor and no network.  In
    every pass the sensor is polled exactly when the acquisition gate is open
    at the second uptime read, and the link is checked exactly when the
    transmission gate is open at the first one. *)
Theorem idle_pass (fuel : nat) (g : Globals) (w : W) :
  let t0 := (handle Z Millis w).1 in
  let t1 := (handle Z Millis (handle Z Millis w).2).1 in
  acquired (evs (loop handle fuel g w)) = acquisition_due t1 g /\
  transmitted (evs (loop handle fuel g w)) = transmission_due (wrap32 t0) g /\
  (acquisition_due t1 g = false ->
   transmission_due (wrap32 t0) g = false ->
   evs (loop handle fuel g w) = [Ev Millis t0; Ev Millis t1; Ev (Delay 100) tt] /\
   val (loop handle fuel g w) = Returned /\
   glob (loop handle fuel g w) = g).
Proof.
  cbv zeta. destruct (pass_observed fuel g w) as (rest & _ & Hacq & Htx & _).
  cbv zeta in *. split; [exact Hacq|]. split; [exact Htx|].
  intros Ea Et. destruct (loop_run fuel g w) as (-> & -> & ->). cbv zeta.
  set (w0 := (handle Z Millis w).2).
  assert (loop_acquire handle g w0 = mkRes tt g (handle Z Millis w0).2
            [Ev Millis (handle Z Millis w0).1]) as Hidle.
  { unfold loop_acquire. rewrite bind_run, (readSensors_closed g w0 Ea).
    rewrite val_mk, glob_mk, wld_mk, evs_mk. apply after_ret. }
  rewrite Hidle, glob_mk, wld_mk, evs_mk.
  rewrite (loop_transmit_idle fuel _ g _ Et), val_mk, glob_mk, evs_mk.
  repeat split.
Qed.

(** *** The estimate a pass sends *)

Lemma readSensors_estimation (g : Globals) (w : W) :
  records (evs (readSensors handle g w)) = [] /\
  (if val (readSensors handle g w)
   then exists ir len red r,
          estimations (evs (readSensors handle g w)) = [(ir, len, red, r)] /\
          estimate (glob (readSensors handle g w)) =
            (r_heartRate r, r_validHeartRate r, r_spo2 r, r_validSPO2 r) /\
          exists before, evs (readSensors handle g w) = before ++ [Ev (Maxim ir len red) r]
   else estimations (evs (readSensors handle g w)) = [] /\
        estimate (glob (readSensors handle g w)) = estimate g).
Proof.
  split.
  { eapply omap_none; [|apply readSensors_only]. by_call. }
  destruct (acquisition_due (handle Z Millis w).1 g) eqn:E.
  - destruct (readSensors_open g w E) as (-> & -> & -> & _). cbv zeta.
    set (g1 := set_bufferLength BUFFER_SIZE _).
    set (w2 := (handle Z Millis (handle Z Millis w).2).2).
    destruct (fill_registers 100 0 g1 w2) as [Hreg _].
    pose proof (fill_only 100 0 g1 w2) as Hf.
    assert (estimations (evs (fill handle 100 0 g1 w2)) = []) as Hnone
      by (eapply omap_none; [|exact Hf]; by_call).
    unfold estimations in *.
    rewrite !(omap_skip maxim_of (Ev Millis _)) by reflexivity.
    rewrite omap_app, Hnone.
    destruct (val (fill handle 100 0 g1 w2)).
    + eexists _, _, _, _. split; [reflexivity|]. split; [reflexivity|].
      eexists (_ :: _ :: _). reflexivity.
    + split; [reflexivity|]. unfold registers, estimate in *. subst g1.
      cbn [heartRate validHeartRate spo2 validSPO2 lastSensorRead lastDataSend
           set_bufferLength set_lastSensorRead] in Hreg. congruence.
  - rewrite (readSensors_closed g w E). split; reflexivity.
Qed.

(** X12.  A pass of the main loop runs the estimator at most once and serializes
    at most one record, and the record carries the estimate the globals
    hold when the pass ends: the outputs of the estimator call of this very
    pass when there was one, since the acquisition comes first, and
    otherwise the estimate the pass started with, sent again unchanged. *)
Theorem pass_sends_current_estimate (fuel : nat) (g : Globals) (w : W) :
  (length (estimations (evs (loop handle fuel g w))) <= 1)%nat /\
  (length (records (evs (loop handle fuel g w))) <= 1)%nat /\
  (forall ir len red r,
     estimations (evs (loop handle fuel g w)) = [(ir, len, red, r)] ->
     estimate (glob (loop handle fuel g w)) =
       (r_heartRate r, r_validHeartRate r, r_spo2 r, r_validSPO2 r)) /\
  (estimations (evs (loop handle fuel g w)) = [] ->
   estimate (glob (loop handle fuel g w)) = estimate g) /\
  (forall doc payload,
     In (doc, payload) (records (evs (loop handle fuel g w))) ->
     json_get "heart_rate" doc =
       Some (JInt (reported (validHeartRate (glob (loop handle fuel g w)))
                     (heartRate (glob (loop handle fuel g w))))) /\
     json_get "spo2" doc =
       Some (JInt (reported (validSPO2 (glob (loop handle fuel g w)))
                     (spo2 (glob (loop handle fuel g w)))))).
Proof.
  destruct (loop_run fuel g w) as (-> & _ & ->). cbv zeta.
  set (w0 := (handle Z Millis w).2).
  destruct (loop_acquire_run g w0) as (report & Ha & Hrep).
  pose proof (loop_acquire_glob g w0) as Hg.
  set (a := loop_acquire handle g w0) in *.
  set (ct := wrap32 (handle Z Millis w).1).
  destruct (loop_transmit_observed fuel ct (glob a) (wld a)) as (_ & Honly & Hglob).
  set (tx := loop_transmit handle fuel ct (glob a) (wld a)) in *.
  destruct (readSensors_estimation g w0) as [Hrr Hre].
  assert (estimate (glob tx) = estimate (glob a)) as Hest
    by (rewrite Hglob; destruct (transmission_due ct (glob a)); reflexivity).
  assert (estimations (evs tx) = []) as Hte
    by (eapply omap_none; [|exact Honly]; by_call).
  assert (estimations report = [] /\ records report = []) as [Hpe Hpr].
  { split; (eapply omap_none; [|exact Hrep]); by_call. }
  assert (estimations (match val tx with
                       | Returned => [Ev (Delay 100) tt]
                       | OutOfFuel => []
                       end) = [] /\
          records (match val tx with
                   | Returned => [Ev (Delay 100) tt]
                   | OutOfFuel => []
                   end) = []) as [Hde Hdr]
    by (destruct (val tx); split; reflexivity).
  assert (records (evs tx) = [] \/
          exists temp ts p,
            records (evs tx) = [(build_doc (glob tx) temp ts, p)]) as Htr.
  { subst tx. destruct (transmission_due ct (glob a)) eqn:Edue.
    - rewrite (loop_transmit_due fuel ct (glob a) (wld a) Edue) in *.
      destruct (is_connected (handle wl_status_t WifiStatus (wld a)).1) eqn:Eup.
      + destruct (sendDataToBackend_delivery fuel (set_lastDataSend ct (glob a)) (wld a) Eup)
          as (temp & ts & p & w1 & Hr & _).
        right. exists temp, ts, p. rewrite Hr, Hglob. reflexivity.
      + destruct (sendDataToBackend_reconnect fuel (set_lastDataSend ct (glob a)) (wld a) Eup)
          as [Hr _].
        left. eapply omap_none; [|exact Hr]. by_call.
    - rewrite (loop_transmit_idle fuel ct (glob a) (wld a) Edue). left. reflexivity. }
  unfold estimations, records in *.
  rewrite !(omap_skip _ (Ev Millis _)) by reflexivity.
  rewrite !omap_app, Ha, !omap_app, Hrr, Hpe, Hpr, Hte, Hde, Hdr, !app_nil_r.
  cbn [app]. unfold estimate in *. rewrite Hg in *.
  split; [|split; [|split; [|split]]].
  - destruct (val (readSensors handle g w0)).
    + destruct Hre as (ir & len & red & r & -> & _ & _). cbn [length]. lia.
    + destruct Hre as [-> _]. cbn [length]. lia.
  - destruct Htr as [-> | (temp & ts & p & ->)]; cbn [length]; lia.
  - intros ir len red r Hr. destruct (val (readSensors handle g w0)).
    + destruct Hre as (ir' & len' & red' & r' & Her & Hes & _).
      rewrite Her in Hr. injection Hr as _ _ _ ->. rewrite Hest. exact Hes.
    + destruct Hre as [Her _]. rewrite Her in Hr. discriminate.
  - intros Hr. destruct (val (readSensors handle g w0)).
    + destruct Hre as (ir' & len' & red' & r' & Her & _ & _).
      rewrite Her in Hr. discriminate.
    + destruct Hre as [_ Hes]. rewrite Hest. exact Hes.
  - intros doc payload Hin.
    destruct Htr as [Htr | (temp & ts & p & Htr)]; rewrite Htr in Hin.
    + destruct Hin.
    + destruct Hin as [Hin | []]. injection Hin as <- _.
      rewrite build_doc_fields. split; reflexivity.
Qed.

(** *** The summary on the serial port *)

Lemma loop_acquire_report (g : Globals) (w : W) :
  evs (loop_acquire handle g w) =
    evs (readSensors handle g w) ++
    (if val (readSensors handle g w)
     then summary (glob (readSensors handle g w))
            (handle float MlxReadObjectTempC (wld (readSensors handle g w))).1
     else []).
Proof.
  unfold loop_acquire. rewrite bind_run, evs_after.
  destruct (val (readSensors handle g w)); [|reflexivity].
  f_equal. unfold print, summary.
  set (g1 := glob _). set (w1 := wld _). clearbody g1 w1.
  rewrite bind_call. destruct (handle float MlxReadObjectTempC w1) as [t w2].
  rewrite bind_call. destruct (handle unit (SerialPrint _) _) as [[] w3].
  rewrite bind_get, bind_call. destruct (handle unit (SerialPrint _) _) as [[] w4].
  rewrite bind_call. destruct (handle unit (SerialPrint _) _) as [[] w5].
  rewrite bind_call. destruct (handle unit (SerialPrint _) _) as [[] w6].
  rewrite bind_call. destruct (handle unit (SerialPrint _) _) as [[] w7].
  rewrite run_call. destruct (handle unit (SerialPrintln _) _) as [[] w8].
  rewrite !evs_after, evs_mk. reflexivity.
Qed.

Lemma count_temps (tr : list Event) : count is_temp tr = length (temps tr).
Proof.
  unfold temps. induction tr as [|[X c x] tr IH]; [reflexivity|].
  destruct c; cbn [count is_temp omap temp_of length]; rewrite ?IH; reflexivity.
Qed.

(** X13.  The thermometer is read once for every completed acquisition and once
    for every record, and nowhere else: a pass that both acquires and sends
    reads it twice, so the temperature it prints and the one it sends are
    two readings.  Right after the estimator call of a pass come the
    temperature read and the summary line, which shows the heart rate and
    the SpO2 as the record reports them, 0 for a value flagged invalid, and
    the reading narrowed to a [float], where a record carries the [double]
    as it was read. *)
Theorem summary_and_temperature (fuel : nat) (g : Globals) (w : W) :
  count is_temp (evs (loop handle fuel g w)) =
    (length (estimations (evs (loop handle fuel g w)))
     + length (records (evs (loop handle fuel g w))))%nat /\
  (forall ir len red r,
     estimations (evs (loop handle fuel g w)) = [(ir, len, red, r)] ->
     exists (reading : float) (before after : list Event),
       evs (loop handle fuel g w) =
         before ++ Ev (Maxim ir len red) r
         :: summary (set_estimate r g) reading ++ after).
Proof.
  destruct (loop_run fuel g w) as (-> & _ & _). cbv zeta.
  set (w0 := (handle Z Millis w).2).
  pose proof (loop_acquire_report g w0) as Ha.
  pose proof (loop_acquire_glob g w0) as Hg.
  set (a := loop_acquire handle g w0) in *.
  set (ct := wrap32 (handle Z Millis w).1).
  destruct (loop_transmit_observed fuel ct (glob a) (wld a)) as (_ & Honly & _).
  destruct (readSensors_estimation g w0) as [Hrr Hre].
  pose proof (readSensors_only g w0) as Hro.
  assert (count is_temp (evs (readSensors handle g w0)) = O) as Hrt
    by (eapply count_none; [|exact Hro]; by_call).
  assert (estimations (evs (loop_transmit handle fuel ct (glob a) (wld a))) = []) as Hte
    by (eapply omap_none; [|exact Honly]; by_call).
  assert (count is_temp (evs (loop_transmit handle fuel ct (glob a) (wld a))) =
          length (records (evs (loop_transmit handle fuel ct (glob a) (wld a))))) as Htt.
  { destruct (transmission_due ct (glob a)) eqn:Edue.
    - rewrite (loop_transmit_due fuel ct (glob a) (wld a) Edue) in *.
      destruct (is_connected (handle wl_status_t WifiStatus (wld a)).1) eqn:Eup.
      + destruct (sendDataToBackend_delivery fuel (set_lastDataSend ct (glob a)) (wld a) Eup)
          as (temp & ts & p & w1 & -> & Ht & _).
        rewrite count_temps, Ht. reflexivity.
      + destruct (sendDataToBackend_reconnect fuel (set_lastDataSend ct (glob a)) (wld a) Eup)
          as [Hr _].
        rewrite (count_none is_temp reconnect_event _ ltac:(by_call) Hr).
        unfold records. rewrite (omap_none record_of reconnect_event _ ltac:(by_call) Hr).
        reflexivity.
    - rewrite (loop_transmit_idle fuel ct (glob a) (wld a) Edue). reflexivity. }
  set (tx := loop_transmit handle fuel ct (glob a) (wld a)) in *.
  set (tail := match val tx with Returned => [Ev (Delay 100) tt] | OutOfFuel => [] end).
  assert (count is_temp tail = O /\ estimations tail = [] /\ records tail = [])
    as (Hd1 & Hd2 & Hd3) by (subst tail; destruct (val tx); repeat split).
  set (rep := if val (readSensors handle g w0)
              then summary (glob (readSensors handle g w0))
                     (handle float MlxReadObjectTempC (wld (readSensors handle g w0))).1
              else []) in *.
  assert (estimations rep = [] /\ records rep = [] /\
          count is_temp rep = (if val (readSensors handle g w0) then 1 else 0)%nat)
    as (Hp1 & Hp2 & Hp3) by (subst rep; destruct (val _); repeat split).
  unfold estimations, records in *.
  split.
  - rewrite !(omap_skip _ (Ev Millis _)) by reflexivity.
    cbn [count is_temp]. rewrite Ha.
    rewrite !omap_app, !count_app, Hrr, Hrt, Hp1, Hp2, Hp3, Hte, Htt, Hd1, Hd2, Hd3.
    rewrite !app_nil_r, !length_app. cbn [length app Nat.add].
    destruct (val (readSensors handle g w0)).
    + destruct Hre as (ir & len & red & r & -> & _). cbn [length]. lia.
    + destruct Hre as [-> _]. cbn [length]. lia.
  - intros ir len red r.
    rewrite !(omap_skip _ (Ev Millis _)) by reflexivity.
    rewrite Ha, !omap_app, Hp1, Hte, Hd2, !app_nil_r.
    subst rep. destruct (val (readSensors handle g w0)).
    + destruct Hre as (ir' & len' & red' & r' & -> & Hes & pre & Hpre).
      intros [= -> -> -> ->]. rewrite Hpre.
      exists (handle float MlxReadObjectTempC (wld (readSensors handle g w0))).1,
        (Ev Millis (handle Z Millis w).1 :: pre), (evs tx ++ tail).
      assert (summary (glob (readSensors handle g w0))
                (handle float MlxReadObjectTempC (wld (readSensors handle g w0))).1 =
              summary (set_estimate r g)
                (handle float MlxReadObjectTempC (wld (readSensors handle g w0))).1) as ->.
      { unfold estimate in Hes. unfold summary.
        cbn [validHeartRate heartRate validSPO2 spo2 set_estimate].
        replace (heartRate (glob (readSensors handle g w0))) with (r_heartRate r)
          by congruence.
        replace (validHeartRate (glob (readSensors handle g w0))) with (r_validHeartRate r)
          by congruence.
        replace (spo2 (glob (readSensors handle g w0))) with (r_spo2 r) by congruence.
        replace (validSPO2 (glob (readSensors handle g w0))) with (r_validSPO2 r)
          by congruence.
        reflexivity. }
      cbn [app]. rewrite <- !app_assoc. reflexivity.
    + destruct Hre as [-> _]. discriminate.
Qed.

(** *** A pass comes back *)

(** X14.  In a world with a clock, a pass of the main loop returns, whatever the
    sensor, the link and the collector do, and ends on its [delay(100)]. *)
Theorem loop_returns (up : W -> Z) (fuel : nat) (g : Globals) (w : W) :
  ticking handle up ->
  (20 <= fuel)%nat ->
  val (loop handle fuel g w) = Returned /\
  last (evs (loop handle fuel g w)) = Some (Ev (Delay 100) tt).
Proof.
  intros Htick Hfuel.
  destruct (loop_run fuel g w) as (He & Hv & _). cbv zeta in He, Hv.
  set (a := loop_acquire handle g (handle Z Millis w).2) in *.
  set (t := wrap32 (handle Z Millis w).1) in *.
  assert (val (loop_transmit handle fuel t (glob a) (wld a)) = Returned) as Htx.
  { destruct (transmission_due t (glob a)) eqn:Edue.
    - rewrite (loop_transmit_due fuel t (glob a) (wld a) Edue).
      destruct (is_connected (handle wl_status_t WifiStatus (wld a)).1) eqn:Eup.
      + destruct (sendDataToBackend_up fuel (set_lastDataSend t (glob a)) (wld a) Eup)
          as (? & ? & ? & ? & ? & _ & Hret & _).
        exact Hret.
      + destruct (sendDataToBackend_down fuel (set_lastDataSend t (glob a)) (wld a) Eup)
          as (w1 & ->).
        rewrite val_after. apply (try_networks_returns up); assumption.
    - rewrite (loop_transmit_idle fuel t (glob a) (wld a) Edue). reflexivity. }
  rewrite Hv, He, Htx. split; [reflexivity|].
  rewrite app_comm_cons, !app_assoc. apply last_snoc.
Qed.

(** *** How long a pass can sleep *)

Lemma readSensors_delay_bound (g : Globals) (w : W) :
  0 <= total_delay (evs (readSensors handle g w)) <= 100 * (100 * 10 + 5).
Proof.
  destruct (acquisition_due (handle Z Millis w).1 g) eqn:E.
  - destruct (readSensors_open g w E) as (_ & He & _). cbv zeta in He. rewrite He.
    set (g1 := set_bufferLength BUFFER_SIZE _).
    set (w2 := (handle Z Millis (handle Z Millis w).2).2).
    destruct (fill_counts 100 0 g1 w2) as (Hc & _ & _ & _ & Hlen).
    pose proof (fill_delay 100 0 g1 w2) as Hd.
    change (Ev Millis ?a :: Ev Millis ?b :: ?l) with ([Ev Millis a; Ev Millis b] ++ l).
    rewrite !total_delay_app.
    change (total_delay [Ev Millis _; Ev Millis _]) with 0.
    match goal with
    | |- context [total_delay (if ?b then ?l else [])] =>
        assert (total_delay (if b then l else []) = 0) as -> by (destruct b; auto)
    end.
    destruct (val (fill handle 100 0 g1 w2)); lia.
  - rewrite (readSensors_closed g w E), evs_mk. cbn. lia.
Qed.

Lemma delivery_delay_bound (fuel : nat) (g : Globals) (w : W) :
  is_connected (handle wl_status_t WifiStatus w).1 = true ->
  0 <= total_delay (evs (sendDataToBackend handle fuel g w)) <= 4000.
Proof.
  intros Hup.
  destruct (sendDataToBackend_delivery fuel g w Hup)
    as (temp & timestamp & jsonPayload & w1 & _ & _ & Hs & _).
  pose proof (post_loop_protocol 3 jsonPayload 0 g w1 eq_refl ltac:(lia)) as Hp.
  rewrite <- Hs in Hp. destruct (protocol_waits _ _ Hp) as [Hw Hl].
  rewrite total_delay_steps. lia.
Qed.

Lemma reconnect_delay_bound (up : W -> Z) (fuel : nat) (g : Globals) (w : W) :
  ticking handle up ->
  (20 <= fuel)%nat ->
  is_connected (handle wl_status_t WifiStatus w).1 = false ->
  0 <= total_delay (evs (sendDataToBackend handle fuel g w)) <= 30000.
Proof.
  intros Htick Hfuel Hdown.
  destruct (sendDataToBackend_down fuel g w Hdown) as (w1 & ->).
  rewrite evs_after, total_delay_app. unfold connectWiFi.
  destruct (try_networks_returns up fuel (take (Z.to_nat wifiCount) (zip ssidList passList))
              g w1 Htick Hfuel) as [_ Hc].
  rewrite (paced_delay _ (try_networks_paced fuel _ g w1)).
  change (length (take (Z.to_nat wifiCount) (zip ssidList passList))) with 3%nat in Hc.
  cbn [total_delay]. lia.
Qed.

(** X16.  In a world with a clock, the time one pass of the main loop spends in
    [delay] is at least the 100 ms of its last call and at most
    100 * 1005 + 30000 + 100 ms: the acquisition sleeps up to 100.5 s, the
    transmission up to 4 s with the link up and up to 30 s with the link
    down, and nothing else in the pass sleeps. *)
Theorem pass_sleep_bound (up : W -> Z) (fuel : nat) (g : Globals) (w : W) :
  ticking handle up ->
  (20 <= fuel)%nat ->
  100 <= total_delay (evs (loop handle fuel g w)) <= 100 * (100 * 10 + 5) + 30000 + 100.
Proof.
  intros Htick Hfuel.
  destruct (loop_run fuel g w) as (-> & _ & _). cbv zeta.
  set (w0 := (handle Z Millis w).2).
  pose proof (loop_acquire_report g w0) as Ha.
  pose proof (readSensors_delay_bound g w0) as Hr.
  set (a := loop_acquire handle g w0) in *.
  set (t := wrap32 (handle Z Millis w).1).
  assert (val (loop_transmit handle fuel t (glob a) (wld a)) = Returned /\
          0 <= total_delay (evs (loop_transmit handle fuel t (glob a) (wld a))) <= 30000)
    as [Hv Htx].
  { destruct (transmission_due t (glob a)) eqn:Edue.
    - rewrite (loop_transmit_due fuel t (glob a) (wld a) Edue).
      destruct (is_connected (handle wl_status_t WifiStatus (wld a)).1) eqn:Eup.
      + destruct (sendDataToBackend_up fuel (set_lastDataSend t (glob a)) (wld a) Eup)
          as (? & ? & ? & ? & ? & _ & Hret & _).
        pose proof (delivery_delay_bound fuel (set_lastDataSend t (glob a)) (wld a) Eup).
        split; [exact Hret | lia].
      + split.
        * destruct (sendDataToBackend_down fuel (set_lastDataSend t (glob a)) (wld a) Eup)
            as (w1 & ->).
          rewrite val_after. apply (try_networks_returns up); assumption.
        * apply (reconnect_delay_bound up); assumption.
    - rewrite (loop_transmit_idle fuel t (glob a) (wld a) Edue), val_mk, evs_mk.
      split; [reflexivity | cbn; lia]. }
  rewrite Hv, Ha.
  change (Ev Millis ?x :: ?l) with ([Ev Millis x] ++ l).
  rewrite !total_delay_app.
  change (total_delay [Ev Millis _]) with 0.
  change (total_delay [Ev (Delay 100) tt]) with 100.
  assert (total_delay
            (if val (readSensors handle g w0)
             then summary (glob (readSensors handle g w0))
                    (handle float MlxReadObjectTempC (wld (readSensors handle g w0))).1
             else []) = 0) as -> by (destruct (val _); reflexivity).
  lia.
Qed.

(** *** The transmission comes round again *)

Section Clock.
Variable up : W -> Z.
Hypothesis Htick : ticking handle up.

Lemma advances_ret {A} (a : A) : advances up (ret (W:=W) a).
Proof. intros g w. apply Z.le_refl. Qed.

Lemma advances_get : advances up (get (W:=W)).
Proof. intros g w. apply Z.le_refl. Qed.

Lemma advances_modify (f : Globals -> Globals) : advances up (modify (W:=W) f).
Proof. intros g w. apply Z.le_refl. Qed.

Lemma advances_call {X} (c : Call X) : 0 <= asked c -> advances up (call handle c).
Proof.
  intros Hc g w. destruct Htick as (_ & Hlo & _).
  rewrite run_call, wld_mk. specialize (Hlo X c w Hc). lia.
Qed.

Lemma advances_bind {A B} (m : M W A) (k : A -> M W B) :
  advances up m -> (forall a, advances up (k a)) -> advances up (bind m k).
Proof.
  intros Hm Hk g w. rewrite bind_run, wld_after.
  specialize (Hm g w). specialize (Hk (val (m g w)) (glob (m g w)) (wld (m g w))). lia.
Qed.

Lemma advances_andThen (m k : M W Outcome) :
  advances up m -> advances up k -> advances up (andThen m k).
Proof.
  intros Hm Hk. apply advances_bind; [exact Hm|]. intros [|]; [exact Hk | apply advances_ret].
Qed.

Ltac adv_step :=
  lazymatch goal with
  | |- advances _ (ret _) => apply advances_ret
  | |- advances _ get => apply advances_get
  | |- advances _ (modify _) => apply advances_modify
  | |- advances _ (call _ _) => apply advances_call; cbn [asked]; lia
  | |- advances _ (andThen _ _) => apply advances_andThen
  | |- advances _ (bind _ _) => apply advances_bind; [|intros ?]
  end.

Ltac adv_go :=
  repeat first
    [ adv_step | assumption
    | match goal with
      | |- advances _ (if ?b then _ else _) => destruct b
      | |- advances _ (match ?x with _ => _ end) => destruct x
      end ].

Lemma await_sample_advances (budget : nat) : advances up (await_sample handle budget).
Proof. induction budget as [|b IH]; cbn [await_sample]; adv_go. Qed.

Lemma fill_slot_advances (i : Z) : advances up (fill_slot handle i).
Proof. unfold fill_slot, println. adv_go. apply await_sample_advances. Qed.

Lemma fill_advances (slots : nat) (i : Z) : advances up (fill handle slots i).
Proof.
  revert i. induction slots as [|k IH]; intros i; cbn [fill]; adv_go;
    auto using fill_slot_advances.
Qed.

Lemma readSensors_advances : advances up (readSensors handle).
Proof. unfold readSensors, millis. adv_go. apply fill_advances. Qed.

Lemma await_link_advances (fuel : nat) (startAttempt : Z) :
  advances up (await_link handle fuel startAttempt).
Proof. induction fuel as [|f IH]; cbn [await_link]; unfold print, millis; adv_go. Qed.

Lemma try_networks_advances (fuel : nat) (candidates : list (string * string)) :
  advances up (try_networks handle fuel candidates).
Proof.
  induction candidates as [|[ssid pass] rest IH]; cbn [try_networks];
    unfold print, println, millis; adv_go; apply await_link_advances.
Qed.

Lemma getCurrentTimestamp_advances : advances up (getCurrentTimestamp handle).
Proof. unfold getCurrentTimestamp, millis. adv_go. Qed.

Lemma post_loop_advances (rounds : nat) (payload : string) (retryCount : Z) :
  advances up (post_loop handle rounds payload retryCount).
Proof.
  revert retryCount. induction rounds as [|r IH]; intros retryCount;
    cbn [post_loop]; unfold print, println; adv_go; apply IH.
Qed.

Lemma sendDataToBackend_advances (fuel : nat) : advances up (sendDataToBackend handle fuel).
Proof.
  unfold sendDataToBackend, connectWiFi, println. adv_go;
    auto using try_networks_advances, getCurrentTimestamp_advances, post_loop_advances.
Qed.

Lemma loop_acquire_advances : advances up (loop_acquire handle).
Proof. unfold loop_acquire, print. adv_go. apply readSensors_advances. Qed.

Lemma loop_transmit_advances (fuel : nat) (currentTime : Z) :
  advances up (loop_transmit handle fuel currentTime).
Proof. unfold loop_transmit. adv_go. apply sendDataToBackend_advances. Qed.

Lemma sub32_shift (a b d : Z) :
  0 <= d ->
  sub32 (wrap32 a) b + d < 2 ^ 32 ->
  sub32 (wrap32 (a + d)) b = sub32 (wrap32 a) b + d.
Proof.
  unfold sub32, wrap32. rewrite !Zminus_mod_idemp_l. intros Hd Hlt.
  replace (a + d - b) with ((a - b) + d) by lia.
  rewrite <- Zplus_mod_idemp_l. apply Z.mod_small.
  pose proof (Z.mod_pos_bound (a - b) (2 ^ 32) ltac:(lia)). lia.
Qed.

(** A pass that returns has taken at least the 100 ms of its last call. *)
Lemma loop_advances (fuel : nat) (g : Globals) (w : W) :
  val (loop handle fuel g w) = Returned ->
  up w + 100 <= up (wld (loop handle fuel g w)).
Proof.
  unfold loop, andThen. rewrite bind_millis, val_after, wld_after.
  rewrite bind_run, val_after, wld_after.
  pose proof (proj1 (proj2 Htick) _ Millis w ltac:(done)) as H0. cbn [asked] in H0.
  set (w0 := (handle Z Millis w).2) in *.
  pose proof (loop_acquire_advances g w0) as Ha.
  set (a := loop_acquire handle g w0) in *.
  rewrite bind_run, val_after, wld_after.
  pose proof (loop_transmit_advances fuel (wrap32 (handle Z Millis w).1) (glob a) (wld a))
    as Hx.
  set (tx := loop_transmit handle fuel _ _ _) in *.
  destruct (val tx); [|discriminate]. intros _.
  rewrite bind_call, wld_after, run_ret, wld_mk.
  pose proof (proj1 (proj2 Htick) _ (Delay 100) (wld tx) ltac:(done)) as H1.
  cbn [asked] in H1. lia.
Qed.

Lemma loop_comes_back (fuel : nat) (g : Globals) (w : W) :
  (20 <= fuel)%nat ->
  val (loop handle fuel g w) = Returned.
Proof.
  intros Hfuel. destruct (loop_run fuel g w) as (_ & -> & _). cbv zeta.
  set (a := loop_acquire handle g (handle Z Millis w).2).
  set (t := wrap32 (handle Z Millis w).1).
  destruct (transmission_due t (glob a)) eqn:Edue.
  - rewrite (loop_transmit_due fuel t (glob a) (wld a) Edue).
    destruct (is_connected (handle wl_status_t WifiStatus (wld a)).1) eqn:Eup.
    + destruct (sendDataToBackend_up fuel (set_lastDataSend t (glob a)) (wld a) Eup)
        as (? & ? & ? & ? & ? & _ & Hret & _).
      exact Hret.
    + destruct (sendDataToBackend_down fuel (set_lastDataSend t (glob a)) (wld a) Eup)
        as (w1 & ->).
      rewrite val_after. apply (try_networks_returns up); assumption.
  - rewrite (loop_transmit_idle fuel t (glob a) (wld a) Edue). reflexivity.
Qed.

Lemma passes_end (fuel n : nat) (g : Globals) (w : W) :
  (passes handle fuel (S n) g w).2 =
    match val (loop handle fuel g w) with
    | Returned => (passes handle fuel n (glob (loop handle fuel g w))
                     (wld (loop handle fuel g w))).2
    | OutOfFuel => wld (loop handle fuel g w)
    end.
Proof.
  cbn [passes]. destruct (val (loop handle fuel g w)); [|reflexivity].
  destruct (passes handle fuel n _ _) as [[rest g'] w']. reflexivity.
Qed.

Lemma passes_advance (fuel n : nat) (g : Globals) (w : W) :
  (20 <= fuel)%nat ->
  up w <= up (passes handle fuel n g w).2.
Proof.
  intros Hfuel. revert g w. induction n as [|n IH]; intros g w; [apply Z.le_refl|].
  pose proof (loop_comes_back fuel g w Hfuel) as Hv.
  pose proof (loop_advances fuel g w Hv) as Hl.
  rewrite passes_end, Hv.
  specialize (IH (glob (loop handle fuel g w)) (wld (loop handle fuel g w))). lia.
Qed.

(** The transmission tick of a pass is run exactly when 1000 ms or more
    have gone by, in 32-bit arithmetic, since the last stamp; a pass without
    it leaves the stamp alone. *)
Lemma pass_transmits (fuel : nat) (g : Globals) (w : W) :
  transmitted (evs (loop handle fuel g w)) =
    (DATA_SEND_INTERVAL <=? sub32 (wrap32 (up w)) (lastDataSend g)) /\
  (sub32 (wrap32 (up w)) (lastDataSend g) < DATA_SEND_INTERVAL ->
   lastDataSend (glob (loop handle fuel g w)) = lastDataSend g).
Proof.
  destruct (pass_observed fuel g w) as (rest & _ & _ & Htx & Hsend & _).
  cbv zeta in Htx, Hsend. destruct Htick as (Hm & _).
  rewrite Htx, Hsend, Hm. unfold transmission_due. split; [reflexivity|].
  intros Hlt. apply Z.leb_gt in Hlt. rewrite Hlt. reflexivity.
Qed.

(** If the passes are enough for 1000 ms to go by since the last stamp, one
    of them transmits. *)
Lemma passes_transmit (fuel n : nat) (g : Globals) (w : W) :
  (20 <= fuel)%nat ->
  DATA_SEND_INTERVAL <= sub32 (wrap32 (up w)) (lastDataSend g) + 100 * Z.of_nat n ->
  sub32 (wrap32 (up w)) (lastDataSend g) + (up (passes handle fuel (S n) g w).2 - up w)
    < 2 ^ 32 ->
  exists log : list Event,
    In log (passes handle fuel (S n) g w).1.1 /\ transmitted log = true.
Proof.
  intros Hfuel. revert g w. induction n as [|n IH]; intros g w Hdue Hwrap.
  - exists (evs (loop handle fuel g w)). split.
    + rewrite passes_S. apply in_eq.
    + rewrite (proj1 (pass_transmits fuel g w)). apply Z.leb_le. lia.
  - destruct (pass_transmits fuel g w) as [Htx Hsend].
    pose proof (loop_comes_back fuel g w Hfuel) as Hv.
    pose proof (loop_advances fuel g w Hv) as Hadv.
    rewrite passes_end, Hv in Hwrap. rewrite passes_S, Hv.
    destruct (Z.le_gt_cases DATA_SEND_INTERVAL (sub32 (wrap32 (up w)) (lastDataSend g)))
      as [Hnow|Hnot].
    { exists (evs (loop handle fuel g w)). split; [apply in_eq|].
      rewrite Htx. apply Z.leb_le. exact Hnow. }
    specialize (Hsend ltac:(lia)). clear Htx.
    revert Hsend Hadv Hwrap.
    generalize (glob (loop handle fuel g w)) as g1.
    generalize (wld (loop handle fuel g w)) as w1.
    generalize (evs (loop handle fuel g w)) as log0.
    intros log0 w1 g1 Hsend Hadv Hwrap.
    pose proof (passes_advance fuel (S n) g1 w1 Hfuel) as Hlater.
    assert (sub32 (wrap32 (up w1)) (lastDataSend g1) =
            sub32 (wrap32 (up w)) (lastDataSend g) + (up w1 - up w)) as Hd.
    { rewrite Hsend.
      rewrite <- (sub32_shift (up w) (lastDataSend g) (up w1 - up w)) by lia.
      do 2 f_equal. lia. }
    destruct (IH g1 w1) as (log & Hin & Hlog); [lia | lia |].
    exists log. split; [apply in_cons; exact Hin | exact Hlog].
Qed.

(** X17.  In a world with a clock, the transmission is never starved: among any
    eleven consecutive passes of the main loop at least one runs its
    transmission tick, however long the acquisitions and the reconnections
    in between take, because each pass ends on [delay(100)] and the gate
    opens 1000 ms after the last stamp.  The passes are taken to last less
    than 2^32 - 1000 ms together, so that the 32-bit difference does not
    wrap twice. *)
Theorem transmission_recurs (fuel : nat) (g : Globals) (w : W) :
  (20 <= fuel)%nat ->
  up (passes handle fuel 11 g w).2 - up w < 2 ^ 32 - 1000 ->
  exists log : list Event,
    In log (passes handle fuel 11 g w).1.1 /\ transmitted log = true.
Proof.
  intros Hfuel Hlong.
  destruct (Z.le_gt_cases DATA_SEND_INTERVAL (sub32 (wrap32 (up w)) (lastDataSend g)))
    as [Hnow|Hnot].
  - exists (evs (loop handle fuel g w)). split.
    + rewrite passes_S. apply in_eq.
    + rewrite (proj1 (pass_transmits fuel g w)). apply Z.leb_le. exact Hnow.
  - assert (0 <= sub32 (wrap32 (up w)) (lastDataSend g)) as Hpos
      by (apply Z.mod_pos_bound; lia).
    unfold DATA_SEND_INTERVAL in Hnot.
    apply passes_transmit; [exact Hfuel | |].
    + unfold DATA_SEND_INTERVAL. change (Z.of_nat 10) with 10. lia.
    + set (e := up (passes handle fuel 11 g w).2) in *. clearbody e. lia.
Qed.

End Clock.

End Proofs.

(** ** The theorems at work on scripted worlds *)

Lemma readSensors_estimate_iff_full_witness :
  acquisition_due (sim_handle Z Millis sim_healthy).1 boot_globals = true /\
  length (irBuffer boot_globals) = 100%nat /\
  length (redBuffer boot_globals) = 100%nat /\
  forallb truthy (available_answers (evs (readSensors sim_handle boot_globals sim_healthy)))
    = true /\
  (val (readSensors sim_handle boot_globals sim_healthy) = true <->
   length (reds (evs (readSensors sim_handle boot_globals sim_healthy))) = 100%nat) /\
  val (readSensors sim_handle boot_globals sim_healthy) = true /\
  length (reds (evs (readSensors sim_handle boot_globals sim_healthy))) = 100%nat /\
  (exists out : MaximResult,
     estimations (evs (readSensors sim_handle boot_globals sim_healthy)) =
       [(irs (evs (readSensors sim_handle boot_globals sim_healthy)), 100,
         reds (evs (readSensors sim_handle boot_globals sim_healthy)), out)] /\
     estimate (glob (readSensors sim_handle boot_globals sim_healthy)) =
       (r_heartRate out, r_validHeartRate out, r_spo2 out, r_validSPO2 out)) /\
  estimate boot_globals = (0, 0, 0, 0) /\
  estimate (glob (readSensors sim_handle boot_globals sim_healthy)) = (72, 1, 98, 1).
Proof.
  assert (acquisition_due (sim_handle Z Millis sim_healthy).1 boot_globals = true) as H1
    by (vm_compute; reflexivity).
  assert (length (irBuffer boot_globals) = 100%nat) as H2 by (vm_compute; reflexivity).
  assert (length (redBuffer boot_globals) = 100%nat) as H3 by (vm_compute; reflexivity).
  assert (forallb truthy
            (available_answers (evs (readSensors sim_handle boot_globals sim_healthy)))
          = true) as H4 by (vm_compute; reflexivity).
  pose proof (readSensors_estimate_iff_full sim_handle boot_globals sim_healthy H1 H2 H3)
    as (_ & Hiff & Hfull & _ & Hready & _).
  destruct (Hready H4) as (Hv & Hlen & _).
  destruct (Hfull Hlen) as (out & Hest & _ & Hglob).
  refine (conj H1 (conj H2 (conj H3 (conj H4 (conj Hiff (conj Hv (conj Hlen
            (conj (ex_intro _ out (conj Hest Hglob)) (conj _ _))))))))).
  - reflexivity.
  - vm_compute. reflexivity.
Defined.

Lemma invalid_fields_reported_as_zero_witness :
  In (build_doc boot_globals 36.5%float "5000", "5"%string)
    (records (evs (sendDataToBackend sim_handle 30 boot_globals sim_healthy))) /\
  json_get "heart_rate" (build_doc boot_globals 36.5%float "5000") = Some (JInt 0) /\
  json_get "spo2" (build_doc boot_globals 36.5%float "5000") = Some (JInt 0).
Proof.
  assert (In (build_doc boot_globals 36.5%float "5000", "5"%string)
            (records (evs (sendDataToBackend sim_handle 30 boot_globals sim_healthy)))) as H
    by (vm_compute; left; reflexivity).
  refine (conj H _).
  pose proof (invalid_fields_reported_as_zero sim_handle 30 boot_globals sim_healthy _ _ H)
    as (Hh & _ & Hs & _).
  exact (conj (Hh eq_refl) (Hs eq_refl)).
Defined.

Lemma cycles_rate_limited_witness :
  nondecreasing
    (clock_readings (concat (passes sim_handle 30 13 boot_globals sim_healthy).1.1)) = true /\
  (exists ti tj : Z,
     pass_time (default [] ((passes sim_handle 30 13 boot_globals sim_healthy).1.1 !! 0%nat))
       = Some ti /\
     pass_time (default [] ((passes sim_handle 30 13 boot_globals sim_healthy).1.1 !! 4%nat))
       = Some tj /\
     ti + DATA_SEND_INTERVAL <= tj) /\
  (exists ti tj : Z,
     gate_time (default [] ((passes sim_handle 30 13 boot_globals sim_healthy).1.1 !! 0%nat))
       = Some ti /\
     gate_time (default [] ((passes sim_handle 30 13 boot_globals sim_healthy).1.1 !! 12%nat))
       = Some tj /\
     ti + SENSOR_READ_INTERVAL <= tj).
Proof.
  assert (nondecreasing
            (clock_readings (concat (passes sim_handle 30 13 boot_globals sim_healthy).1.1))
          = true) as H by (vm_compute; reflexivity).
  refine (conj H (conj _ _)).
  - refine (proj1 (cycles_rate_limited sim_handle 30 13 boot_globals sim_healthy H
                     0%nat 4%nat _ _ _ _ _) _ _);
      [ lia | vm_compute; reflexivity | vm_compute; reflexivity
      | vm_compute; reflexivity | vm_compute; reflexivity ].
  - refine (proj2 (cycles_rate_limited sim_handle 30 13 boot_globals sim_healthy H
                     0%nat 12%nat _ _ _ _ _) _ _);
      [ lia | vm_compute; reflexivity | vm_compute; reflexivity
      | vm_compute; reflexivity | vm_compute; reflexivity ].
Defined.

(** C3, as stated, fails for the transmission: the stamp of a pass is read
    before its acquisition, which can take a second without storing a
    sample.  With no finger on the sensor the first two passes both run the
    transmission; their stamps are 1250 ms apart, and the two records are
    built 250 ms apart, at the uptimes 6000 and 6250. *)
Lemma transmissions_250_ms_apart :
  map transmitted (passes sim_handle 30 2 boot_globals sim_no_finger).1.1 = [true; true] /\
  map pass_time (passes sim_handle 30 2 boot_globals sim_no_finger).1.1
    = [Some 5000; Some 6250] /\
  map (fun log => omap record_uptime (records log))
    (passes sim_handle 30 2 boot_globals sim_no_finger).1.1 = [[6000]; [6250]] /\
  ~ (6000 + DATA_SEND_INTERVAL <= 6250).
Proof.
  split; [vm_compute; reflexivity|]. split; [vm_compute; reflexivity|].
  split; [vm_compute; reflexivity|]. unfold DATA_SEND_INTERVAL. lia.
Qed.

Lemma delivery_bounded_retry_witness :
  is_connected (sim_handle wl_status_t WifiStatus sim_collector_down).1 = true /\
  Forall (fun code => transient code = true)
    (post_codes (evs (sendDataToBackend sim_handle 30 boot_globals sim_collector_down))) /\
  exists (jsonPayload : string) (c1 c2 c3 : Z),
    delivery_steps (evs (sendDataToBackend sim_handle 30 boot_globals sim_collector_down)) =
      [Attempt jsonPayload c1; Backoff 2000; Attempt jsonPayload c2; Backoff 2000;
       Attempt jsonPayload c3] /\
    last (evs (sendDataToBackend sim_handle 30 boot_globals sim_collector_down)) =
      Some (Ev HttpEnd tt) /\
    val (sendDataToBackend sim_handle 30 boot_globals sim_collector_down) = Returned /\
    glob (sendDataToBackend sim_handle 30 boot_globals sim_collector_down) = boot_globals.
Proof.
  assert (is_connected (sim_handle wl_status_t WifiStatus sim_collector_down).1 = true) as H1
    by reflexivity.
  assert (Forall (fun code => transient code = true)
            (post_codes (evs (sendDataToBackend sim_handle 30 boot_globals sim_collector_down))))
    as H2 by (vm_compute; repeat constructor).
  refine (conj H1 (conj H2 _)).
  exact (proj2 (delivery_bounded_retry sim_handle 30 boot_globals sim_collector_down) H1 H2).
Defined.

Lemma redirect_stops_delivery_witness :
  head (post_codes (evs (sendDataToBackend sim_handle 30 boot_globals sim_collector_moved)))
    = Some 302 /\
  rejected 302 = true /\
  exists jsonPayload : string,
    delivery_steps (evs (sendDataToBackend sim_handle 30 boot_globals sim_collector_moved)) =
      [Attempt jsonPayload 302] /\
    count is_post (evs (sendDataToBackend sim_handle 30 boot_globals sim_collector_moved)) =
      1%nat /\
    glob (sendDataToBackend sim_handle 30 boot_globals sim_collector_moved) = boot_globals.
Proof.
  assert (head (post_codes
            (evs (sendDataToBackend sim_handle 30 boot_globals sim_collector_moved)))
          = Some 302) as H1 by (vm_compute; reflexivity).
  assert (rejected 302 = true) as H2 by reflexivity.
  refine (conj H1 (conj H2 _)).
  exact (proj2 (redirect_stops_delivery sim_handle 30 boot_globals sim_collector_moved)
           302 H1 H2).
Defined.

Lemma link_down_reconnects_witness :
  is_connected (sim_handle wl_status_t WifiStatus sim_link_down).1 = false /\
  (1 <= count is_wifi_begin
          (evs (sendDataToBackend sim_handle 30 boot_globals sim_link_down)))%nat /\
  count is_post (evs (sendDataToBackend sim_handle 30 boot_globals sim_link_down)) = O /\
  val (sendDataToBackend sim_handle 30 boot_globals sim_link_down) = Returned.
Proof.
  assert (is_connected (sim_handle wl_status_t WifiStatus sim_link_down).1 = false) as H
    by reflexivity.
  refine (conj H _).
  pose proof (link_down_reconnects sim_handle 30 boot_globals sim_link_down H)
    as (_ & Hb & Hp & _).
  refine (conj Hb (conj Hp _)). vm_compute. reflexivity.
Defined.

Lemma outbound_record_fields_witness :
  is_connected (sim_handle wl_status_t WifiStatus sim_healthy).1 = true /\
  estimate estimated_globals = (72, 1, 98, 1) /\
  exists timestamp jsonPayload : string,
    records (evs (sendDataToBackend sim_handle 30 estimated_globals sim_healthy)) =
      [([("device_id"%string, JInt 1);
         ("heart_rate"%string, JInt 72);
         ("spo2"%string, JInt 98);
         ("temp_skin"%string, JFloat 36.5%float);
         ("timestamp"%string, JString timestamp)], jsonPayload)].
Proof.
  assert (is_connected (sim_handle wl_status_t WifiStatus sim_healthy).1 = true) as H
    by reflexivity.
  refine (conj H (conj eq_refl _)).
  destruct (outbound_record_fields sim_handle 30 estimated_globals sim_healthy H)
    as (temp & timestamp & jsonPayload & Ht & _ & _ & _ & Hscenario).
  exists timestamp, jsonPayload. apply Hscenario; [reflexivity|].
  vm_compute in Ht. injection Ht as Ht. symmetry. exact Ht.
Defined.

(** C8, as stated, fails: with a sensor that never has a sample ready, the
    availability test is evaluated 102 times in the first slot. *)
Lemma availability_tested_102_times :
  ~ (count is_available (evs (fill_slot sim_handle 0 boot_globals sim_no_finger)) <= 100)%nat.
Proof.
  assert (count is_available (evs (fill_slot sim_handle 0 boot_globals sim_no_finger))
          = 102%nat) as -> by (vm_compute; reflexivity).
  lia.
Qed.

Lemma fill_slot_attempt_budget_witness :
  Forall (fun a => truthy a = false)
    (available_answers (evs (fill_slot sim_handle 0 boot_globals sim_no_finger))) /\
  val (fill_slot sim_handle 0 boot_globals sim_no_finger) = false /\
  count is_check (evs (fill_slot sim_handle 0 boot_globals sim_no_finger)) = 100%nat /\
  count is_timeout_report (evs (fill_slot sim_handle 0 boot_globals sim_no_finger)) = 1%nat /\
  count is_check (evs (fill_slot sim_handle 0 boot_globals sim_late_sample)) = 100%nat /\
  last (available_answers (evs (fill_slot sim_handle 0 boot_globals sim_late_sample)))
    = Some 1 /\
  val (fill_slot sim_handle 0 boot_globals sim_late_sample) = true /\
  reds (evs (fill_slot sim_handle 0 boot_globals sim_late_sample)) = [1000] /\
  exists red ir : Z,
    reds (evs (fill_slot sim_handle 0 boot_globals sim_late_sample)) = [red] /\
    glob (fill_slot sim_handle 0 boot_globals sim_late_sample)
      = set_irBuffer 0 ir (set_redBuffer 0 red boot_globals).
Proof.
  assert (Forall (fun a => truthy a = false)
            (available_answers (evs (fill_slot sim_handle 0 boot_globals sim_no_finger))))
    as H by (vm_compute; repeat constructor).
  refine (conj H _).
  pose proof (fill_slot_attempt_budget sim_handle 0 boot_globals sim_no_finger)
    as (_ & _ & _ & Htimeout & _).
  destruct (Htimeout H) as (Hv & Hc & Hr & _).
  refine (conj Hv (conj Hc (conj Hr _))).
  pose proof (fill_slot_attempt_budget sim_handle 0 boot_globals sim_late_sample)
    as (_ & _ & _ & _ & _ & _ & a & Hlast & Hval & Hread).
  assert (last (available_answers (evs (fill_slot sim_handle 0 boot_globals sim_late_sample)))
          = Some 1) as Hone by (vm_compute; reflexivity).
  assert (a = 1) as -> by congruence.
  destruct (Hread eq_refl) as (red & ir & Hreds & _ & Hglob).
  refine (conj _ (conj Hone (conj Hval (conj _ (ex_intro _ red (ex_intro _ ir
            (conj Hreds Hglob))))))).
  - vm_compute. reflexivity.
  - vm_compute. reflexivity.
Defined.

Lemma records_before_first_estimate_witness :
  In (build_doc boot_globals 36.5%float "7100", "5"%string)
    (records_before_estimate (power_on sim_handle 30 1 sim_no_finger)) /\
  json_get "heart_rate" (build_doc boot_globals 36.5%float "7100") = Some (JInt 0) /\
  json_get "spo2" (build_doc boot_globals 36.5%float "7100") = Some (JInt 0).
Proof.
  assert (In (build_doc boot_globals 36.5%float "7100", "5"%string)
            (records_before_estimate (power_on sim_handle 30 1 sim_no_finger))) as H
    by (vm_compute; left; reflexivity).
  refine (conj H _).
  exact (records_before_first_estimate sim_handle 30 1 sim_no_finger _ _ H).
Defined.

Lemma link_down_tick_consumes_interval_witness :
  transmission_due 5000 boot_globals = true /\
  is_connected (sim_handle wl_status_t WifiStatus sim_link_down).1 = false /\
  glob (loop_transmit sim_handle 30 5000 boot_globals sim_link_down) =
    set_lastDataSend 5000 boot_globals /\
  count is_temp (evs (loop_transmit sim_handle 30 5000 boot_globals sim_link_down)) = O /\
  count is_post (evs (loop_transmit sim_handle 30 5000 boot_globals sim_link_down)) = O.
Proof.
  assert (transmission_due 5000 boot_globals = true) as H1 by reflexivity.
  assert (is_connected (sim_handle wl_status_t WifiStatus sim_link_down).1 = false) as H2
    by reflexivity.
  refine (conj H1 (conj H2 _)).
  pose proof (link_down_tick_consumes_interval sim_handle 30 5000 boot_globals sim_link_down
                H1 H2) as (Hg & _ & _ & Ht & _ & _ & Hp & _).
  exact (conj Hg (conj Ht Hp)).
Defined.

Lemma gates_survive_rollover_witness :
  let w := sim_elapse (2 ^ 32 - 3400) sim_healthy in
  let g := set_lastDataSend (wrap32 (2 ^ 32 - 500))
             (set_lastSensorRead (wrap32 (2 ^ 32 - 500)) boot_globals) in
  2 ^ 32 - 500 <= (sim_handle Z Millis w).1 /\
  (sim_handle Z Millis w).1 - (2 ^ 32 - 500) < 2 ^ 32 /\
  acquired (evs (readSensors sim_handle g w)) = true /\
  transmitted (evs (loop_transmit sim_handle 30 (wrap32 (sim_handle Z Millis w).1) g
                      (sim_handle Z Millis w).2)) = true.
Proof.
  cbv zeta.
  assert (2 ^ 32 - 500 <= (sim_handle Z Millis (sim_elapse (2 ^ 32 - 3400) sim_healthy)).1)
    as H1 by (vm_compute; discriminate).
  assert ((sim_handle Z Millis (sim_elapse (2 ^ 32 - 3400) sim_healthy)).1 - (2 ^ 32 - 500)
          < 2 ^ 32) as H2 by (vm_compute; reflexivity).
  refine (conj H1 (conj H2 _)).
  pose proof (gates_survive_rollover sim_handle (2 ^ 32 - 500)
                (set_lastDataSend (wrap32 (2 ^ 32 - 500))
                   (set_lastSensorRead (wrap32 (2 ^ 32 - 500)) boot_globals))
                (sim_elapse (2 ^ 32 - 3400) sim_healthy) H1 H2) as [Ha Ht].
  split.
  - rewrite (Ha eq_refl). vm_compute. reflexivity.
  - rewrite (Ht eq_refl 30%nat). vm_compute. reflexivity.
Defined.

Lemma acquisition_leaves_witness :
  acquisition_due (sim_handle Z Millis sim_finger_lifted).1 boot_globals = true /\
  length (redBuffer boot_globals) = 100%nat /\
  length (irBuffer boot_globals) = 100%nat /\
  reds (evs (readSensors sim_handle boot_globals sim_finger_lifted)) = [1000; 1001; 1002] /\
  redBuffer (glob (readSensors sim_handle boot_globals sim_finger_lifted)) =
    reds (evs (readSensors sim_handle boot_globals sim_finger_lifted))
    ++ drop (length (reds (evs (readSensors sim_handle boot_globals sim_finger_lifted))))
         (redBuffer boot_globals) /\
  lastSensorRead (glob (readSensors sim_handle boot_globals sim_finger_lifted)) =
    wrap32 (sim_handle Z Millis (sim_handle Z Millis sim_finger_lifted).2).1.
Proof.
  assert (acquisition_due (sim_handle Z Millis sim_finger_lifted).1 boot_globals = true) as H1
    by (vm_compute; reflexivity).
  assert (length (redBuffer boot_globals) = 100%nat) as H2 by (vm_compute; reflexivity).
  assert (length (irBuffer boot_globals) = 100%nat) as H3 by (vm_compute; reflexivity).
  refine (conj H1 (conj H2 (conj H3 (conj _ _)))).
  - vm_compute. reflexivity.
  - pose proof (acquisition_leaves sim_handle boot_globals sim_finger_lifted H1 H2 H3)
      as (Hl & _ & _ & Hr & _).
    exact (conj Hr Hl).
Defined.

Lemma delivery_follows_protocol_witness :
  is_connected (sim_handle wl_status_t WifiStatus sim_collector_down).1 = true /\
  protocol 3 (delivery_steps (evs (sendDataToBackend sim_handle 30 estimated_globals
                                     sim_collector_down))) = true /\
  total_delay (evs (sendDataToBackend sim_handle 30 estimated_globals sim_collector_down))
    = 4000.
Proof.
  assert (is_connected (sim_handle wl_status_t WifiStatus sim_collector_down).1 = true) as H
    by (vm_compute; reflexivity).
  refine (conj H _).
  pose proof (delivery_follows_protocol sim_handle 30 estimated_globals sim_collector_down H)
    as (Hp & _ & Hd & _).
  refine (conj Hp _). rewrite Hd. vm_compute. reflexivity.
Defined.

(** The scripted worlds have a clock. *)
Lemma sim_ticking : ticking sim_handle sim_uptime.
Proof.
  unfold ticking, CALL_SLACK. split; [reflexivity|].
  split; intros X c w; destruct c; cbn; intros; lia.
Qed.

Lemma connectWiFi_returns_witness :
  ticking sim_handle sim_uptime /\
  (20 <= 20)%nat /\
  val (connectWiFi sim_handle 20 boot_globals sim_link_down) = Returned /\
  count is_delay (evs (connectWiFi sim_handle 20 boot_globals sim_link_down)) = 60%nat /\
  total_delay (evs (connectWiFi sim_handle 20 boot_globals sim_link_down)) = 30000.
Proof.
  assert (20 <= 20)%nat as H by lia.
  refine (conj sim_ticking (conj H _)).
  pose proof (connectWiFi_returns sim_handle sim_uptime 20 boot_globals sim_link_down
                sim_ticking H) as (Hv & _ & Hd).
  refine (conj Hv (conj _ _)).
  - vm_compute. reflexivity.
  - rewrite Hd. vm_compute. reflexivity.
Defined.

Lemma loop_returns_witness :
  ticking sim_handle sim_uptime /\
  (20 <= 25)%nat /\
  val (loop sim_handle 25 boot_globals sim_link_down) = Returned /\
  last (evs (loop sim_handle 25 boot_globals sim_link_down)) = Some (Ev (Delay 100) tt).
Proof.
  assert (20 <= 25)%nat as H by lia.
  refine (conj sim_ticking (conj H _)).
  exact (loop_returns sim_handle sim_uptime 25 boot_globals sim_link_down sim_ticking H).
Defined.

Lemma setup_ready_witness :
  val (setup bench_handle 5 boot_globals bench_cold) = Returned /\
  sensor_begin_answers (evs (setup bench_handle 5 boot_globals bench_cold))
    = [false; false; true] /\
  mlx_begin_answers (evs (setup bench_handle 5 boot_globals bench_cold)) = [false; true] /\
  count is_sensor_setup (evs (setup bench_handle 5 boot_globals bench_cold)) = 1%nat /\
  glob (setup bench_handle 5 boot_globals bench_cold)
    = set_lastDataSend 0 (set_lastSensorRead 0 boot_globals).
Proof.
  assert (val (setup bench_handle 5 boot_globals bench_cold) = Returned) as H
    by (vm_compute; reflexivity).
  refine (conj H _).
  pose proof (proj1 (setup_ready bench_handle 5 boot_globals bench_cold) H)
    as (_ & _ & Hc & Hg & _).
  refine (conj _ (conj _ (conj Hc Hg))); vm_compute; reflexivity.
Defined.

Lemma timestamp_fallback_witness :
  (sim_handle (option tm) GetLocalTime sim_healthy).1 = None /\
  uptime_of_timestamp (val (getCurrentTimestamp sim_handle boot_globals sim_healthy))
    = Some 5000.
Proof.
  assert ((sim_handle (option tm) GetLocalTime sim_healthy).1 = None) as H by reflexivity.
  refine (conj H _).
  pose proof (timestamp_fallback sim_handle boot_globals sim_healthy H) as (_ & Hback & _).
  rewrite Hback. vm_compute. reflexivity.
Defined.

Lemma summary_and_temperature_witness :
  count is_temp (evs (loop sim_handle 30 boot_globals sim_warm)) = 2%nat /\
  length (estimations (evs (loop sim_handle 30 boot_globals sim_warm))) = 1%nat /\
  length (records (evs (loop sim_handle 30 boot_globals sim_warm))) = 1%nat /\
  temps (evs (loop sim_handle 30 boot_globals sim_warm))
    = [0x1.24ccccccccccdp+5%float; 0x1.24ccccccccccdp+5%float] /\
  last (printed (summary (set_estimate (sim_maxim sim_warm) boot_globals)
                   0x1.24ccccccccccdp+5%float))
    = Some (PFloat 0x1.24ccccp+5%float) /\
  exists before after : list Event,
    evs (loop sim_handle 30 boot_globals sim_warm) =
      before
      ++ Ev (Maxim (irs (evs (loop sim_handle 30 boot_globals sim_warm))) 100
               (reds (evs (loop sim_handle 30 boot_globals sim_warm))))
            (sim_maxim sim_warm)
         :: summary (set_estimate (sim_maxim sim_warm) boot_globals)
              0x1.24ccccccccccdp+5%float
         ++ after.
Proof.
  pose proof (summary_and_temperature sim_handle 30 boot_globals sim_warm) as [Hc Hs].
  assert (length (estimations (evs (loop sim_handle 30 boot_globals sim_warm))) = 1%nat)
    as He by (vm_compute; reflexivity).
  assert (length (records (evs (loop sim_handle 30 boot_globals sim_warm))) = 1%nat)
    as Hr by (vm_compute; reflexivity).
  assert (temps (evs (loop sim_handle 30 boot_globals sim_warm))
          = [0x1.24ccccccccccdp+5%float; 0x1.24ccccccccccdp+5%float]) as Ht
    by (vm_compute; reflexivity).
  refine (conj _ (conj He (conj Hr (conj Ht (conj _ _))))).
  - rewrite Hc, He, Hr. reflexivity.
  - vm_compute. reflexivity.
  - assert (estimations (evs (loop sim_handle 30 boot_globals sim_warm)) =
            [(irs (evs (loop sim_handle 30 boot_globals sim_warm)), 100,
              reds (evs (loop sim_handle 30 boot_globals sim_warm)), sim_maxim sim_warm)])
      as Hest by (vm_compute; reflexivity).
    destruct (Hs _ _ _ _ Hest) as (reading & before & after & Hevs).
    assert (reading = 0x1.24ccccccccccdp+5%float) as ->.
    { assert (In reading (temps (evs (loop sim_handle 30 boot_globals sim_warm)))) as Hin.
      { rewrite Hevs. unfold temps. rewrite omap_app. apply in_or_app. right.
        rewrite (omap_skip temp_of (Ev (Maxim _ _ _) _)) by reflexivity.
        apply in_eq. }
      rewrite Ht in Hin. destruct Hin as [<-|[<-|[]]]; reflexivity. }
    exists before, after. exact Hevs.
Defined.

Lemma idle_pass_witness :
  let g := set_lastDataSend 4990 (set_lastSensorRead 4990 boot_globals) in
  acquisition_due 5000 g = false /\
  transmission_due (wrap32 5000) g = false /\
  evs (loop sim_handle 30 g sim_healthy)
    = [Ev Millis 5000; Ev Millis 5000; Ev (Delay 100) tt] /\
  glob (loop sim_handle 30 g sim_healthy) = g.
Proof.
  cbv zeta.
  assert (acquisition_due 5000 (set_lastDataSend 4990 (set_lastSensorRead 4990 boot_globals))
          = false) as H1 by (vm_compute; reflexivity).
  assert (transmission_due (wrap32 5000)
            (set_lastDataSend 4990 (set_lastSensorRead 4990 boot_globals)) = false) as H2
    by (vm_compute; reflexivity).
  refine (conj H1 (conj H2 _)).
  pose proof (idle_pass sim_handle 30
                (set_lastDataSend 4990 (set_lastSensorRead 4990 boot_globals)) sim_healthy)
    as (_ & _ & H).
  destruct (H H1 H2) as (He & _ & Hg). exact (conj He Hg).
Defined.

Lemma http_session_witness :
  is_connected (sim_handle wl_status_t WifiStatus sim_collector_down).1 = true /\
  last (evs (sendDataToBackend sim_handle 30 estimated_globals sim_collector_down))
    = Some (Ev HttpEnd tt) /\
  count is_http_end (evs (sendDataToBackend sim_handle 30 estimated_globals
                            sim_collector_down)) = 1%nat /\
  is_connected (sim_handle wl_status_t WifiStatus sim_link_down).1 = false /\
  existsb http_event (evs (sendDataToBackend sim_handle 30 estimated_globals sim_link_down))
    = false.
Proof.
  assert (is_connected (sim_handle wl_status_t WifiStatus sim_collector_down).1 = true) as H1
    by (vm_compute; reflexivity).
  assert (is_connected (sim_handle wl_status_t WifiStatus sim_link_down).1 = false) as H2
    by (vm_compute; reflexivity).
  pose proof (proj1 (http_session sim_handle 30 estimated_globals sim_collector_down) H1)
    as (_ & Hl & _ & He & _).
  pose proof (proj2 (http_session sim_handle 30 estimated_globals sim_link_down) H2) as Hn.
  exact (conj H1 (conj Hl (conj He (conj H2 Hn)))).
Defined.

Lemma pass_sleep_bound_witness :
  ticking sim_handle sim_uptime /\
  (20 <= 20)%nat /\
  total_delay (evs (loop sim_handle 20 boot_globals sim_link_down)) = 30600 /\
  total_delay (evs (loop sim_handle 20 boot_globals sim_link_down))
    <= 100 * (100 * 10 + 5) + 30000 + 100.
Proof.
  assert (20 <= 20)%nat as H by lia.
  refine (conj sim_ticking (conj H (conj _ _))).
  - vm_compute. reflexivity.
  - exact (proj2 (pass_sleep_bound sim_handle sim_uptime 20 boot_globals sim_link_down
                    sim_ticking H)).
Defined.

Lemma transmission_recurs_witness :
  let g := set_lastDataSend 4990 (set_lastSensorRead 4990 boot_globals) in
  ticking sim_handle sim_uptime /\
  (20 <= 20)%nat /\
  sim_uptime (passes sim_handle 20 11 g sim_healthy).2 - sim_uptime sim_healthy
    < 2 ^ 32 - 1000 /\
  transmitted (evs (loop sim_handle 20 g sim_healthy)) = false /\
  exists log : list Event,
    In log (passes sim_handle 20 11 g sim_healthy).1.1 /\ transmitted log = true.
Proof.
  cbv zeta.
  assert (20 <= 20)%nat as H by lia.
  assert (sim_uptime
            (passes sim_handle 20 11
               (set_lastDataSend 4990 (set_lastSensorRead 4990 boot_globals))
               sim_healthy).2 - sim_uptime sim_healthy < 2 ^ 32 - 1000) as Hlong
    by (vm_compute; reflexivity).
  refine (conj sim_ticking (conj H (conj Hlong (conj _ _)))).
  - vm_compute. reflexivity.
  - exact (transmission_recurs sim_handle sim_uptime sim_ticking 20
             (set_lastDataSend 4990 (set_lastSensorRead 4990 boot_globals))
             sim_healthy H Hlong).
Defined.
